(** * SortBot: the training script [src/train.py]

    A shallow embedding of the orchestration code of [train.py] and the
    properties of its loader, dataset generator, evaluator, trainer and
    driver.

    The script is a thin layer over a deep-learning framework.  The code of
    the script is transcribed function by function; the framework it calls
    is the environment: what it computes (reading a model file, the random
    source, the metrics) enters as a record of functions, [framework]; its
    protocol (object identity of models, the fit loop and its callbacks) is
    a small executable model.  Log records, prints and plots are kept as
    events of the run; what the root logger of the script, with its two
    handlers and the formatter of the script, makes of the log records is
    the module [Logging]. *)

From Stdlib Require Import ZArith Lia Bool Ascii String List.
From Stdlib Require Import SpecFloat DecimalString DecimalN.
From stdpp Require Import base option list strings gmap fin_maps.
From Equations Require Import Equations.

Set Default Proof Using "Type".
Local Open Scope string_scope.
Local Open Scope Z_scope.

(* ===================================================================== *)
(** * Python values used by the script *)
(* ===================================================================== *)

Module Py.

(** ** Exception classes

    The classes the script and the framework calls can raise, with the
    built-in inheritance order ([FileNotFoundError] below [OSError] below
    [Exception]; [ValueError] below [Exception]). *)

Inductive exn_class :=
| BaseException
| Exception
| OSError
| FileNotFoundError
| ValueError.

Global Instance exn_class_eq_dec : EqDecision exn_class.
Proof. solve_decision. Defined.

Definition parent (c : exn_class) : option exn_class :=
  match c with
  | BaseException => None
  | Exception => Some BaseException
  | OSError => Some Exception
  | FileNotFoundError => Some OSError
  | ValueError => Some Exception
  end.

(** [issubclass c d]: the chain of parents of [c] is at most three long. *)
Fixpoint issubclass_fuel (n : nat) (c d : exn_class) : bool :=
  if bool_decide (c = d) then true
  else match n, parent c with
       | S n', Some p => issubclass_fuel n' p d
       | _, _ => false
       end.

Definition issubclass : exn_class -> exn_class -> bool := issubclass_fuel 4.

Record exn := { exn_cls : exn_class; exn_msg : string }.

(** A class object has neither [__bool__] nor [__len__]: it is truthy. *)
Definition truthy (c : exn_class) : bool := true.

(** [a or b] returns [a] when [a] is truthy, and [b] otherwise. *)
Definition or_ (a b : exn_class) : exn_class :=
  if truthy a then a else b.

(** ** Numbers: [int] and [float] (IEEE 754 binary64) *)

Definition float := spec_float.
Definition prec : Z := 53.
Definition emax : Z := 1024.

(** The float of value [m * 2^e], rounded to nearest even. *)
Definition B64 (m e : Z) : float := binary_normalize prec emax m e false.

(** [float(n)] for an [int] (Python raises OverflowError beyond the range
    of binary64; the script converts 0 and 2 only). *)
Definition float_of_int (n : Z) : float := B64 n 0.

Definition fadd : float -> float -> float := SFadd prec emax.
Definition fdiv : float -> float -> float := SFdiv prec emax.
Definition flt : float -> float -> bool := SFltb.

Inductive num :=
| Int (n : Z)
| Float (x : float).

Definition to_float (v : num) : float :=
  match v with
  | Int n => float_of_int n
  | Float x => x
  end.

(** [a + b]: integer addition on two ints, float addition after
    conversion as soon as one operand is a float. *)
Definition add (a b : num) : num :=
  match a, b with
  | Int x, Int y => Int (x + y)
  | _, _ => Float (fadd (to_float a) (to_float b))
  end.

(** [a / b]: true division, always a float (division by the int or float
    zero raises ZeroDivisionError; the script divides by 2 only). *)
Definition truediv (a b : num) : num :=
  Float (fdiv (to_float a) (to_float b)).

(** ** Strings *)

(** [s.replace(old, new)]: every non-overlapping occurrence of [old],
    scanning from the left.  [skip] counts the characters of a matched
    occurrence that are still to be dropped. *)
Fixpoint replace_go (old new : string) (skip : nat) (s : string) : string :=
  match s with
  | EmptyString => EmptyString
  | String c rest =>
      match skip with
      | S k => replace_go old new k rest
      | O =>
          if String.prefix old s
          then new ++ replace_go old new (Nat.pred (String.length old)) rest
          else String c (replace_go old new 0 rest)
      end
  end.

(** With an empty [old], Python inserts [new] before every character and
    at the end. *)
Fixpoint intersperse (new s : string) : string :=
  match s with
  | EmptyString => new
  | String c rest => new ++ String c (intersperse new rest)
  end.

Definition replace (old new s : string) : string :=
  match old with
  | EmptyString => intersperse new s
  | _ => replace_go old new 0 s
  end.

(** [old in s] *)
Fixpoint contains (old s : string) : bool :=
  match s with
  | EmptyString => String.prefix old s
  | String _ rest => String.prefix old s || contains old rest
  end.

(** [s.endswith(suffix)] *)
Fixpoint endswith (suffix s : string) : bool :=
  match s with
  | EmptyString => String.eqb suffix s
  | String _ rest => String.eqb suffix s || endswith suffix rest
  end.

(** Decimal digits of a natural number, and left padding with zeros. *)
Definition digits (n : N) : string :=
  NilZero.string_of_uint (N.to_uint n).

Fixpoint zeros (k : nat) : string :=
  match k with
  | O => EmptyString
  | S k' => String "0" (zeros k')
  end.

Definition zfill (width : nat) (s : string) : string :=
  zeros (width - String.length s) ++ s.

(** [format(n, '04d')]: at least four characters, the sign counted. *)
Definition format_04d (n : Z) : string :=
  match n with
  | Zneg p => String "-" (zfill 3 (digits (Npos p)))
  | _ => zfill 4 (digits (Z.to_N n))
  end.

(** [template.format(epoch=n)] for a template whose only replacement field
    is [{epoch:04d}]. *)
Definition format_epoch (template : string) (n : Z) : string :=
  replace "{epoch:04d}" (format_04d n) template.

(** [range(n)]: empty when [n] is not positive. *)
Definition range (n : Z) : list Z := map Z.of_nat (seq 0 (Z.to_nat n)).

End Py.

(* ===================================================================== *)
(** * The framework's data, as the script sees it *)
(* ===================================================================== *)

Inductive activation := relu | softmax.

(** Layer descriptors, with the arguments the script passes. *)
Inductive layer :=
| Conv2D (filters : Z) (kernel_size : Z * Z) (act : activation)
         (input_shape : option (Z * Z * Z))
| BatchNormalization
| MaxPooling2D (pool_size : Z * Z)
| Dropout (rate : Py.float)
| Flatten
| Dense (units : Z) (act : activation).

(** The result of [image_dataset_from_directory]. *)
Record dataset := {
  ds_directory : string;
  ds_seed : Z;
  ds_image_size : Z * Z;
  ds_batch_size : Z
}.

(** Trainable parameters are opaque to the script.  They are kept as the
    term that says where they come from: initial (or stored before the
    run), or one more epoch of fitting on a dataset. *)
Inductive weights :=
| W_initial (tag : positive)
| W_epoch (w : weights) (d : dataset) (draw : nat).

(** A model object: its identity (Python passes references) and its
    topology.  The parameters are mutable and live in the world. *)
Record model := { m_id : positive; m_layers : list layer }.

(** The width of the output layer: the units of a final [Dense]. *)
Definition output_width (m : model) : option Z :=
  match last (m_layers m) with
  | Some (Dense units _) => Some units
  | _ => None
  end.

(** Files on disk. *)
Inductive file :=
| F_model (layers : list layer) (w : weights)
| F_weights (w : weights)
| F_other.

(** [History.history]: one value per completed epoch under each of the
    four keys.  (The dictionary of a fit that completed no epoch has no
    key; here such a fit gives four empty lists, and what is said of
    plotting the history of a training is said for at least one epoch.) *)
Record history := {
  h_accuracy : list Py.float;
  h_val_accuracy : list Py.float;
  h_loss : list Py.float;
  h_val_loss : list Py.float
}.

Inductive metric := m_loss | m_accuracy | m_val_loss | m_val_accuracy.
Inductive mode := Min | Max.

(** [save_freq] of a checkpoint callback: ['epoch'], or a number of
    batches. *)
Inductive frequency :=
| every_epoch
| every_batches (n : Z).

(** The two callbacks the script builds, with the arguments it sets. *)
Inductive callback :=
| ModelCheckpoint (filepath : string) (verbose : Z) (save_weights_only : bool)
                  (save_freq : frequency)
| EarlyStopping (monitor : metric) (patience : nat) (verbose : Z) (md : mode)
                (restore_best_weights : bool).

Inductive level := DEBUG | INFO | WARNING | ERROR.

(** The pieces of an f-string. *)
Inductive piece :=
| Lit (s : string)
| Num (v : Py.num).

Inductive plt_call :=
| plt_figure (figsize : Z * Z)
| plt_subplot (rows cols index : Z)
| plt_plot (x : list Z) (y : list Py.float) (label : string)
| plt_legend (loc : string)
| plt_title (title : string)
| plt_show.

(** What the script does to the outside, in order. *)
Inductive event :=
| E_deserialize (path : string)
| E_log (lvl : level) (msg : list piece)
| E_summary (m : model)
| E_compile (m : model) (optimizer loss : string) (metrics : list string)
| E_dataset (d : dataset)
| E_save_weights (m : model) (path : string) (w : weights)
| E_fit (m : model) (train val : dataset) (epochs : Z) (cbs : list callback)
| E_evaluate (m : model) (w : weights) (d : dataset) (returned : Py.float * Py.float)
| E_print (msg : list piece)
| E_save (m : model) (path : string) (w : weights)
| E_plt (c : plt_call).

(** The state outside the script.  [files] holds the model files and the
    checkpoints, under the path as the script spells it.  The log file
    "info_debug.log" is not among them: what is written to it follows
    from the log calls of a run, see [Logging.log_output]. *)
Record world := {
  files : gmap string file;          (* model and checkpoint files *)
  image_dirs : gset string;          (* directories that hold images *)
  params : gmap positive weights;    (* parameters of the model objects *)
  next_id : positive;                (* identity of the next object *)
  draws : nat                        (* draws from the outside made so far *)
}.

(** ** Computations: a state, an exception or a value, and the events *)

Inductive result (A : Type) :=
| Ok (a : A)
| Raise (e : Py.exn).
Arguments Ok {A} a.
Arguments Raise {A} e.

Record outcome (A : Type) := {
  res : result A;
  after : world;
  events : list event
}.
Arguments res {A} o.
Arguments after {A} o.
Arguments events {A} o.

Definition M (A : Type) : Type := world -> outcome A.

Definition ret {A} (a : A) : M A :=
  fun w => {| res := Ok a; after := w; events := [] |}.

Definition raise {A} (e : Py.exn) : M A :=
  fun w => {| res := Raise e; after := w; events := [] |}.

Definition bind {A B} (m : M A) (k : A -> M B) : M B :=
  fun w =>
    let o := m w in
    match res o with
    | Ok a =>
        let o' := k a (after o) in
        {| res := res o'; after := after o'; events := (events o ++ events o')%list |}
    | Raise e => {| res := Raise e; after := after o; events := events o |}
    end.

Declare Scope M_scope.
Delimit Scope M_scope with M.
Notation "x <- m ;; k" := (bind m (fun x => k))
  (at level 100, m at next level, right associativity) : M_scope.
Notation "m ;;; k" := (bind m (fun _ => k))
  (at level 100, right associativity) : M_scope.
Local Open Scope M_scope.

(** [try: body except cls as exc: handler exc] *)
Definition try_except {A} (body : M A) (cls : Py.exn_class) (handler : Py.exn -> M A) : M A :=
  fun w =>
    let o := body w in
    match res o with
    | Ok a => o
    | Raise e =>
        if Py.issubclass (Py.exn_cls e) cls
        then let o' := handler e (after o) in
             {| res := res o'; after := after o'; events := (events o ++ events o')%list |}
        else o
    end.

Definition emit (e : event) : M unit :=
  fun w => {| res := Ok tt; after := w; events := [e] |}.

Definition get {A} (f : world -> A) : M A :=
  fun w => {| res := Ok (f w); after := w; events := [] |}.

Definition modify (f : world -> world) : M unit :=
  fun w => {| res := Ok tt; after := f w; events := [] |}.

(** [for x in xs: body x] *)
Fixpoint for_each {A} (xs : list A) (body : A -> M unit) : M unit :=
  match xs with
  | [] => ret tt
  | x :: xs' => body x ;;; for_each xs' body
  end.

Definition set_files (f : gmap string file -> gmap string file) (w : world) : world :=
  {| files := f (files w); image_dirs := image_dirs w; params := params w;
     next_id := next_id w; draws := draws w |}.

Definition set_params (f : gmap positive weights -> gmap positive weights) (w : world) : world :=
  {| files := files w; image_dirs := image_dirs w; params := f (params w);
     next_id := next_id w; draws := draws w |}.

Definition bump_id (w : world) : world :=
  {| files := files w; image_dirs := image_dirs w; params := params w;
     next_id := Pos.succ (next_id w); draws := draws w |}.

Definition bump_draws (w : world) : world :=
  {| files := files w; image_dirs := image_dirs w; params := params w;
     next_id := next_id w; draws := S (draws w) |}.

(** The parameters of an object; an object never written still has the
    parameters it was created with. *)
Definition weights_of (w : world) (m : model) : weights :=
  default (W_initial (m_id m)) (params w !! m_id m).

(** What the framework computes and the script cannot see into: reading
    the model file under a path, [None] when there is no file (an
    exception, or the topology and the parameters read),
    the random source, and the metrics of an epoch of fitting (on the
    training and on the validation data) and of an evaluation, each a pair
    of loss and accuracy. *)
Record framework := {
  deserialize : string -> option file -> Py.exn + (list layer * weights);
  entropy : nat -> Z;
  epoch_metrics : list layer -> weights -> dataset -> dataset -> nat ->
                  (Py.float * Py.float) * (Py.float * Py.float);
  eval_metrics : list layer -> weights -> dataset -> nat -> Py.float * Py.float
}.

(* ===================================================================== *)
(** * The script *)
(* ===================================================================== *)

Section Script.

Variable fw : framework.

(** ** Framework calls *)

Definition draw : M nat :=
  n <- get draws ;; modify bump_draws ;;; ret n.

(** [tf.keras.models.load_model(path)]: a new object on success. *)
Definition keras_load_model (path : string) : M model :=
  emit (E_deserialize path) ;;;
  fs <- get files ;;
  match deserialize fw path (fs !! path) with
  | inl e => raise e
  | inr (layers, w0) =>
      id <- get next_id ;;
      modify bump_id ;;;
      modify (set_params <[id := w0]>) ;;;
      ret {| m_id := id; m_layers := layers |}
  end.

(** [random.randint(a, b)]: an integer of the closed range. *)
Definition random_randint (a b : Z) : M Z :=
  n <- draw ;; ret (a + entropy fw n mod (b - a + 1)).

(** [image_dataset_from_directory(directory, seed=, image_size=, batch_size=)]:
    the builder lists the directory first, and a directory that is not
    there is the built-in [FileNotFoundError] of that listing.  The batch
    size is carried as it is passed: the framework refuses one that is not
    positive once the directory is listed, which is left out here. *)
Definition image_dataset_from_directory (directory : string) (seed : Z)
    (image_size : Z * Z) (batch_size : Z) : M dataset :=
  let d := {| ds_directory := directory; ds_seed := seed;
              ds_image_size := image_size; ds_batch_size := batch_size |} in
  emit (E_dataset d) ;;;
  dirs <- get image_dirs ;;
  if bool_decide (directory ∈ dirs) then ret d
  else raise {| Py.exn_cls := Py.FileNotFoundError;
                Py.exn_msg := "[Errno 2] No such file or directory: '" ++ directory ++ "'" |}.

Definition model_summary (m : model) : M unit := emit (E_summary m).

Definition model_compile (m : model) (optimizer loss : string) (metrics : list string) : M unit :=
  emit (E_compile m optimizer loss metrics).

(** [model.save_weights(path)] and [model.save(path)] write the file; the
    directory of the path is taken to be there (the framework raises when
    it is not, so that a run that returns has found it). *)
Definition model_save_weights (m : model) (path : string) : M unit :=
  w <- get (fun s => weights_of s m) ;;
  modify (set_files <[path := F_weights w]>) ;;;
  emit (E_save_weights m path w).

Definition model_save (m : model) (path : string) : M unit :=
  w <- get (fun s => weights_of s m) ;;
  modify (set_files <[path := F_model (m_layers m) w]>) ;;;
  emit (E_save m path w).

(** [model.evaluate(dataset)]: the pair of loss and accuracy. *)
Definition model_evaluate (m : model) (d : dataset) : M (Py.float * Py.float) :=
  n <- draw ;;
  w <- get (fun s => weights_of s m) ;;
  let r := eval_metrics fw (m_layers m) w d n in
  emit (E_evaluate m w d r) ;;;
  ret r.

Definition logging_log (lvl : level) (msg : list piece) : M unit := emit (E_log lvl msg).
Definition print (msg : list piece) : M unit := emit (E_print msg).

(** [plt.plot(x, y, label=)] refuses sequences of different lengths. *)
Definition plt_plot_call (x : list Z) (y : list Py.float) (label : string) : M unit :=
  if bool_decide (length x = length y) then emit (E_plt (plt_plot x y label))
  else raise {| Py.exn_cls := Py.ValueError;
                Py.exn_msg := "x and y must have same first dimension" |}.

(** ** The fit loop and its callbacks *)

(** A callback during [fit]: its arguments and what it has seen so far. *)
Record live := {
  cb : callback;
  cb_wait : nat;
  cb_best : Py.float;
  cb_best_weights : option weights
}.

Definition on_train_begin (c : callback) : live :=
  {| cb := c; cb_wait := 0;
     cb_best := match c with
                | EarlyStopping _ _ _ Max _ => S754_infinity true
                | _ => S754_infinity false
                end;
     cb_best_weights := None |}.

Definition monitored (mt : metric) (tr va : Py.float * Py.float) : Py.float :=
  match mt with
  | m_loss => fst tr
  | m_accuracy => snd tr
  | m_val_loss => fst va
  | m_val_accuracy => snd va
  end.

Definition is_improvement (md : mode) (current best : Py.float) : bool :=
  match md with
  | Min => Py.flt current best
  | Max => Py.flt best current
  end.

(** Modelled from the spec: the end of an epoch as the framework's two
    callbacks handle it (the classes are the framework's, not in src/):
    a checkpoint callback of frequency ['epoch'] writes the parameters
    under the path of the epoch just completed, counted from 1 (one that
    counts batches writes at the end of a batch, never here; the loop
    below has no batches); early stopping asks to stop once the monitored
    value has not improved for [patience] epochs and then restores the
    best parameters.  The result says whether to stop.  What the framework
    prints on the way (the progress of [fit], the messages of a callback
    with [verbose=1]) is not among the events. *)
Definition on_epoch_end (m : model) (epoch : nat) (tr va : Py.float * Py.float)
    (l : live) : M (live * bool) :=
  match cb l with
  | ModelCheckpoint filepath _ save_weights_only every_epoch =>
      let path := Py.format_epoch filepath (Z.of_nat epoch + 1) in
      (if save_weights_only then model_save_weights m path else model_save m path) ;;;
      ret (l, false)
  | ModelCheckpoint _ _ _ (every_batches _) => ret (l, false)
  | EarlyStopping mt patience _ md restore =>
      w <- get (fun s => weights_of s m) ;;
      let current := monitored mt tr va in
      let seen := if restore then Some (default w (cb_best_weights l)) else None in
      if is_improvement md current (cb_best l)
      then ret ({| cb := cb l; cb_wait := 0; cb_best := current;
                   cb_best_weights := if restore then Some w else None |}, false)
      else
        let l' := {| cb := cb l; cb_wait := S (cb_wait l); cb_best := cb_best l;
                     cb_best_weights := seen |} in
        if bool_decide (patience <= S (cb_wait l))%nat && bool_decide (0 < epoch)%nat
        then match seen with
             | Some bw => modify (set_params <[m_id m := bw]>) ;;; ret (l', true)
             | None => ret (l', true)
             end
        else ret (l', false)
  end.

(** The callbacks run in the order of the list; one of them is enough to
    stop the training. *)
Fixpoint run_callbacks (m : model) (epoch : nat) (tr va : Py.float * Py.float)
    (ls : list live) : M (list live * bool) :=
  match ls with
  | [] => ret ([], false)
  | l :: ls' =>
      r <- on_epoch_end m epoch tr va l ;;
      rs <- run_callbacks m epoch tr va ls' ;;
      ret (fst r :: fst rs, snd r || snd rs)
  end.

Definition record_epoch (h : history) (tr va : Py.float * Py.float) : history :=
  {| h_accuracy := h_accuracy h ++ [snd tr];
     h_val_accuracy := h_val_accuracy h ++ [snd va];
     h_loss := h_loss h ++ [fst tr];
     h_val_loss := h_val_loss h ++ [fst va] |}.

(** Modelled from the spec: the framework's fit loop, one iteration per
    epoch, at most [remaining] more: an epoch updates the parameters of the
    object in place, its metrics go to the history, then the callbacks
    run. *)
Fixpoint fit_loop (m : model) (train val : dataset) (remaining epoch : nat)
    (ls : list live) (h : history) : M history :=
  match remaining with
  | O => ret h
  | S remaining' =>
      n <- draw ;;
      w <- get (fun s => weights_of s m) ;;
      let w' := W_epoch w train n in
      modify (set_params <[m_id m := w']>) ;;;
      let mt := epoch_metrics fw (m_layers m) w' train val n in
      r <- run_callbacks m epoch (fst mt) (snd mt) ls ;;
      let h' := record_epoch h (fst mt) (snd mt) in
      if snd r then ret h' else fit_loop m train val remaining' (S epoch) (fst r) h'
  end.

(** [model.fit(train, validation_data=, epochs=, callbacks=)] *)
Definition model_fit (m : model) (train val : dataset) (epochs : Z)
    (callbacks : list callback) : M history :=
  emit (E_fit m train val epochs callbacks) ;;;
  fit_loop m train val (Z.to_nat epochs) 0 (map on_train_begin callbacks)
    {| h_accuracy := []; h_val_accuracy := []; h_loss := []; h_val_loss := [] |}.

(** ** [train.py] *)

Definition new_model : model :=
  {| m_id := 1%positive;
     m_layers := [
       Conv2D 32 (3, 3) relu (Some (256, 256, 3));
       BatchNormalization;
       MaxPooling2D (2, 2);
       Dropout (Py.B64 1 (-2));

       Conv2D 64 (3, 3) relu None;
       BatchNormalization;
       MaxPooling2D (2, 2);
       Dropout (Py.B64 1 (-2));

       Conv2D 128 (3, 3) relu None;
       BatchNormalization;
       MaxPooling2D (2, 2);
       Dropout (Py.B64 1 (-2));

       Conv2D 256 (3, 3) relu None;
       BatchNormalization;
       MaxPooling2D (2, 2);
       Dropout (Py.B64 1 (-2));

       Flatten;
       Dense 512 relu;
       BatchNormalization;
       Dropout (Py.B64 1 (-1));

       Dense 8 softmax
     ] |}.

(** The expression after [except]: [FileNotFoundError or ValueError]. *)
Definition load_model_filter : Py.exn_class :=
  Py.or_ Py.FileNotFoundError Py.ValueError.

Definition load_model (model_path : string) : M model :=
  model <- try_except
             (keras_load_model model_path)
             load_model_filter
             (fun exc =>
                let model := new_model in
                logging_log ERROR [Lit "Error loading model: "; Lit (Py.exn_msg exc)] ;;;
                ret model) ;;
  model_summary model ;;;
  ret model.

Definition generate_dataset (batch_size : Z) (training : bool) : M dataset :=
  let data_dir := if training then "./dataset-resized/" else "./dataset-resized/val" in
  seed <- random_randint (2 ^ 16) (2 ^ 32 - 1) ;;
  image_dataset_from_directory data_dir seed (256, 256) batch_size.

(** The body of the loop of [test_model], and the loop. *)
Definition blend (avg_acc : Py.num) (test_acc : Py.float) : Py.num :=
  Py.truediv (Py.add avg_acc (Py.Float test_acc)) (Py.Int 2).

Fixpoint evaluate_loop (model : model) (test_dataset : dataset) (rounds : list Z)
    (avg_acc : Py.num) : M Py.num :=
  match rounds with
  | [] => ret avg_acc
  | _ :: rounds' =>
      r <- model_evaluate model test_dataset ;;
      let test_acc := snd r in
      evaluate_loop model test_dataset rounds' (blend avg_acc test_acc)
  end.

Definition test_model (model_path : string) (times : Z) : M Py.num :=
  let avg_acc := Py.Int 0 in
  model <- load_model model_path ;;
  model_compile model "adam" "sparse_categorical_crossentropy" ["accuracy"] ;;;
  logging_log DEBUG [Lit "Model compiled"] ;;;
  test_dataset <- generate_dataset 256 false ;;
  avg_acc <- evaluate_loop model test_dataset (Py.range times) avg_acc ;;
  print [Lit "Average accuracy: "; Num avg_acc] ;;;
  logging_log INFO [Num (Py.Int times); Lit " tested; average accuracy: "; Num avg_acc] ;;;
  ret avg_acc.

Definition default_times : Z := 10.
Definition default_epochs : Z := 100.
Definition default_batch_size : Z := 32.

Definition checkpoint_path : string := "./training/cp-{epoch:04d}.weights.h5".

Definition cp_callback : callback := ModelCheckpoint checkpoint_path 1 true every_epoch.
Definition early_stopping : callback := EarlyStopping m_val_loss 3 1 Min true.

Definition train_model (model_path : string) (epochs batch_size : Z) (test : bool) : M history :=
  model <- load_model model_path ;;
  model_compile model "adam" "sparse_categorical_crossentropy" ["accuracy"] ;;;
  logging_log DEBUG [Lit "Model compiled"] ;;;
  dataset <- generate_dataset batch_size true ;;
  validation_dataset <- generate_dataset batch_size true ;;
  logging_log DEBUG [Lit "Dataset loaded"] ;;;
  model_save_weights model (Py.format_epoch checkpoint_path 0) ;;;
  train_history <- model_fit model dataset validation_dataset epochs
                     [early_stopping; cp_callback] ;;
  (if test then (_ <- test_model model_path default_times ;; ret tt) else ret tt) ;;;
  model_save model (Py.replace "h5" "keras" model_path) ;;;
  logging_log DEBUG [Lit "Model saved"] ;;;
  ret train_history.

Definition plot_history (history : history) : M unit :=
  let acc := h_accuracy history in
  let val_acc := h_val_accuracy history in
  let loss := h_loss history in
  let val_loss := h_val_loss history in
  let epochs_range := Py.range (Z.of_nat (length acc)) in
  emit (E_plt (plt_figure (8, 8))) ;;;
  emit (E_plt (plt_subplot 1 2 1)) ;;;
  plt_plot_call epochs_range acc "Training Accuracy" ;;;
  plt_plot_call epochs_range val_acc "Validation Accuracy" ;;;
  emit (E_plt (plt_legend "lower right")) ;;;
  emit (E_plt (plt_title "Training and Validation Accuracy")) ;;;
  emit (E_plt (plt_subplot 1 2 2)) ;;;
  plt_plot_call epochs_range loss "Training Loss" ;;;
  plt_plot_call epochs_range val_loss "Validation Loss" ;;;
  emit (E_plt (plt_legend "upper right")) ;;;
  emit (E_plt (plt_title "Training and Validation Loss")) ;;;
  emit (E_plt plt_show).

(** One iteration of the driver's loop. *)
Definition iteration (batch : Z) : M unit :=
  history <- train_model "sortbot_alpha_new.h5" 100 batch true ;;
  plot_history history.

(** [while batch > 1: ...; batch //= 2], run from the world [w]. *)
Equations? driver_loop (batch : Z) (w : world) : outcome unit by wf (Z.to_nat batch) lt :=
  driver_loop batch w with Z_gt_dec batch 1 => {
    | left _ := bind (iteration batch) (fun _ w' => driver_loop (batch / 2) w') w
    | right _ := ret tt w }.
Proof.
  assert (batch / 2 < batch) by (apply Z.div_lt; lia).
  assert (0 <= batch / 2) by (apply Z.div_pos; lia).
  lia.
Qed.

Definition main : M unit := driver_loop 32.

(** The values [batch] takes at the head of the loop body. *)
Equations? batch_sizes (batch : Z) : list Z by wf (Z.to_nat batch) lt :=
  batch_sizes batch with Z_gt_dec batch 1 => {
    | left _ := batch :: batch_sizes (batch / 2)
    | right _ := [] }.
Proof.
  assert (batch / 2 < batch) by (apply Z.div_lt; lia).
  assert (0 <= batch / 2) by (apply Z.div_pos; lia).
  lia.
Qed.

End Script.

(* ===================================================================== *)
(** * A framework and worlds to run the script on *)
(* ===================================================================== *)

Module Sample.

(** A reader that reports every missing file with [FileNotFoundError] and
    a file that is not a saved model with [ValueError]. *)
Definition read_model (path : string) (content : option file) :
    Py.exn + (list layer * weights) :=
  match content with
  | None => inl {| Py.exn_cls := Py.FileNotFoundError;
                   Py.exn_msg := "Unable to open file" |}
  | Some (F_model layers w) => inr (layers, w)
  | Some _ => inl {| Py.exn_cls := Py.ValueError;
                     Py.exn_msg := "No model config found" |}
  end.

(** Validation loss falls for the first epochs and then rises; every
    evaluation reports the accuracy 3/4. *)
Definition keras : framework :=
  {| deserialize := read_model;
     entropy := fun n => Z.of_nat n * 2654435761;
     epoch_metrics := fun _ _ _ _ n =>
       ((Py.B64 1 (-1), Py.B64 3 (-2)),
        (Py.B64 ((Z.of_nat n - 8) * (Z.of_nat n - 8) + 1) (-4), Py.B64 1 (-1)));
     eval_metrics := fun _ _ _ _ => (Py.B64 1 (-1), Py.B64 3 (-2)) |}.

(** The reader that goes by the format of the path, as the framework's
    does: with no file under the path, a path that ends in ".h5" or ".hdf5"
    is opened as an HDF5 file and the open fails with [FileNotFoundError];
    any other path, one that ends in ".keras" among them, is refused with
    a [ValueError]. *)
Definition read_by_format (path : string) (content : option file) :
    Py.exn + (list layer * weights) :=
  match content with
  | None =>
      if Py.endswith ".h5" path || Py.endswith ".hdf5" path
      then inl {| Py.exn_cls := Py.FileNotFoundError;
                  Py.exn_msg := "Unable to open file" |}
      else inl {| Py.exn_cls := Py.ValueError;
                  Py.exn_msg := "File not found: filepath=" ++ path |}
  | Some (F_model layers w) => inr (layers, w)
  | Some _ => inl {| Py.exn_cls := Py.ValueError;
                     Py.exn_msg := "No model config found" |}
  end.

Definition keras_by_format : framework :=
  {| deserialize := read_by_format;
     entropy := entropy keras;
     epoch_metrics := epoch_metrics keras;
     eval_metrics := eval_metrics keras |}.

(** The world after the import of the script: [new_model] is the only
    object, nothing is saved yet, both image directories are there. *)
Definition imported : world :=
  {| files := ∅;
     image_dirs := {[ "./dataset-resized/"; "./dataset-resized/val" ]};
     params := ∅;
     next_id := 2%positive;
     draws := 0 |}.

(** The same with a model saved under the driver's path, and with a file
    there that is not a model. *)
Definition with_saved_model : world :=
  set_files <[ "sortbot_alpha_new.h5" := F_model [Flatten; Dense 8 softmax] (W_initial 7) ]>
    imported.

Definition with_corrupt_file : world :=
  set_files <[ "sortbot_alpha_new.h5" := F_other ]> imported.

(** The path the driver passes to [train_model]. *)
Definition path : string := "sortbot_alpha_new.h5".


End Sample.

(* ===================================================================== *)
(** * Vocabulary of the statements *)
(* ===================================================================== *)

(** The error record of the handler of [load_model]. *)
Definition load_error (msg : string) : event :=
  E_log ERROR [Lit "Error loading model: "; Lit msg].


(** The dataset [generate_dataset] asks for. *)
Definition requested (fw : framework) (w : world) (batch_size : Z) (training : bool) : dataset :=
  {| ds_directory := if training then "./dataset-resized/" else "./dataset-resized/val";
     ds_seed := 2 ^ 16 + entropy fw (draws w) mod (2 ^ 32 - 1 - 2 ^ 16 + 1);
     ds_image_size := (256, 256);
     ds_batch_size := batch_size |}.

Definition compiled (m : model) : event :=
  E_compile m "adam" "sparse_categorical_crossentropy" ["accuracy"].

(** The exception of the dataset builder for a directory that is not
    there. *)
Definition missing_directory (d : string) : Py.exn :=
  {| Py.exn_cls := Py.FileNotFoundError;
     Py.exn_msg := "[Errno 2] No such file or directory: '" ++ d ++ "'" |}.

(** The path of the checkpoint of epoch [n]. *)
Definition cp (n : Z) : string := Py.format_epoch checkpoint_path n.


(** "Every occurrence of [old] replaced by [new]", read from the left:
    where [old] starts, [new] stands and the reading resumes after the
    occurrence; elsewhere the character is kept. *)
Inductive replaced_all (old new : string) : string -> string -> Prop :=
| replaced_end : replaced_all old new "" ""
| replaced_here rest out :
    replaced_all old new rest out ->
    replaced_all old new (old ++ rest) (new ++ out)
| replaced_keep c rest out :
    String.prefix old (String c rest) = false ->
    replaced_all old new rest out ->
    replaced_all old new (String c rest) (String c out).

(** The accuracies the evaluations of a run returned, in order. *)
Definition accuracies (evs : list event) : list Py.float :=
  omap (fun e => match e with E_evaluate _ _ _ r => Some (snd r) | _ => None end) evs.

(** What [k] evaluations in a row return, the first at draw [n]. *)
Fixpoint evaluations (fw : framework) (m : model) (wt : weights) (d : dataset)
    (n k : nat) : list (Py.float * Py.float) :=
  match k with
  | O => []
  | S k' => eval_metrics fw (m_layers m) wt d n :: evaluations fw m wt d (S n) k'
  end.

Definition negative_zero : Py.float := S754_zero true.
Definition positive_zero : Py.float := S754_zero false.

(** The checkpoint writes of a run of [fit]: the events, and the files. *)
Definition checkpoint_events (m : model) (saved : list (Z * weights)) : list event :=
  map (fun p => E_save_weights m (cp (fst p)) (snd p)) saved.

Definition write_checkpoints (saved : list (Z * weights)) (fs : gmap string file) :
    gmap string file :=
  fold_left (fun fs p => <[cp (fst p) := F_weights (snd p)]> fs) saved fs.

(** The epoch numbers [first + 1 .. first + k]. *)
Definition epochs_from (first k : nat) : list Z :=
  map (fun i => Z.of_nat i + 1) (seq first k).

(** What a run of the fit loop leaves: [k] more epochs in the history,
    one checkpoint each, and nothing else touched but the parameters of
    the model. *)
Definition fit_outcome (m : model) (remaining epoch : nat) (h : history) (w : world)
    (o : outcome history) : Prop :=
  exists (k : nat) (saved : list (Z * weights)) (h' : history) (w' : world),
    o = {| res := Ok h'; after := w'; events := checkpoint_events m saved |} /\
    (k <= remaining)%nat /\
    map fst saved = epochs_from epoch k /\
    length (h_accuracy h') = (length (h_accuracy h) + k)%nat /\
    length (h_val_accuracy h') = (length (h_val_accuracy h) + k)%nat /\
    length (h_loss h') = (length (h_loss h) + k)%nat /\
    length (h_val_loss h') = (length (h_val_loss h) + k)%nat /\
    files w' = write_checkpoints saved (files w) /\
    image_dirs w' = image_dirs w /\
    next_id w' = next_id w /\
    (forall i, i <> m_id m -> params w' !! i = params w !! i).

Definition empty_history : history :=
  {| h_accuracy := []; h_val_accuracy := []; h_loss := []; h_val_loss := [] |}.

(** The events of [train_model] between the load and the fit loop. *)
Definition preparation (model : model) (d v : dataset) (epochs : Z) (wt0 : weights) :
    list event :=
  [compiled model; E_log DEBUG [Lit "Model compiled"];
   E_dataset d; E_dataset v; E_log DEBUG [Lit "Dataset loaded"];
   E_save_weights model (cp 0) wt0;
   E_fit model d v epochs [early_stopping; cp_callback]].

(** The events and the file of the end of [train_model]. *)
Definition saved_path (model_path : string) : string :=
  Py.replace "h5" "keras" model_path.

Definition conclusion (model : model) (model_path : string) (wt : weights) : list event :=
  [E_save model (saved_path model_path) wt; E_log DEBUG [Lit "Model saved"]].

(** The kind of an event, and "only events of these kinds". *)
Inductive kind :=
| K_deserialize | K_log | K_summary | K_compile | K_dataset | K_save_weights
| K_fit | K_evaluate | K_print | K_save | K_plt.

Global Instance kind_eq_dec : EqDecision kind.
Proof. solve_decision. Defined.

Definition kind_of (e : event) : kind :=
  match e with
  | E_deserialize _ => K_deserialize
  | E_log _ _ => K_log
  | E_summary _ => K_summary
  | E_compile _ _ _ _ => K_compile
  | E_dataset _ => K_dataset
  | E_save_weights _ _ _ => K_save_weights
  | E_fit _ _ _ _ _ => K_fit
  | E_evaluate _ _ _ _ => K_evaluate
  | E_print _ => K_print
  | E_save _ _ _ => K_save
  | E_plt _ => K_plt
  end.

Definition only (ks : list kind) (evs : list event) : Prop :=
  Forall (fun e => kind_of e ∈ ks) evs.

(** The kinds of the events of [load_model] and of [test_model]. *)
Definition loader_kinds : list kind := [K_deserialize; K_log; K_summary].
Definition evaluator_kinds : list kind :=
  [K_deserialize; K_log; K_summary; K_compile; K_dataset; K_evaluate; K_print].

(** The paths of the checkpoints a run wrote, and the model files it
    saved, in order. *)
Definition checkpoints (evs : list event) : list string :=
  omap (fun e => match e with E_save_weights _ p _ => Some p | _ => None end) evs.

Definition saves (evs : list event) : list (model * string * weights) :=
  omap (fun e => match e with E_save m p wt => Some (m, p, wt) | _ => None end) evs.

(** Reading a number back from its decimal digits, leading zeros allowed. *)
Definition unformat (s : string) : option N :=
  option_map N.of_uint (NilEmpty.uint_of_string s).

(** The batch sizes of the fits of a run, in order. *)
Definition fit_batch_sizes (evs : list event) : list Z :=
  omap (fun e => match e with E_fit _ d _ _ _ => Some (ds_batch_size d) | _ => None end) evs.

(** The identities of the models a run fitted, and of those it evaluated. *)
Definition fitted_models (evs : list event) : list positive :=
  omap (fun e => match e with E_fit m _ _ _ _ => Some (m_id m) | _ => None end) evs.

Definition evaluated_models (evs : list event) : list positive :=
  omap (fun e => match e with E_evaluate m _ _ _ => Some (m_id m) | _ => None end) evs.

(** "The evaluator never evaluates the in-memory model that was fitted." *)
Definition evaluator_apart_from_fitted (evs : list event) : Prop :=
  forall i, i ∈ evaluated_models evs -> i ∉ fitted_models evs.

(** The parameters evaluated, and the parameters saved with the model. *)
Definition evaluated_weights (evs : list event) : list weights :=
  omap (fun e => match e with E_evaluate _ wt _ _ => Some wt | _ => None end) evs.

(** The value a computation returned, [d] if it raised. *)
Definition returned {A} (d : A) (o : outcome A) : A :=
  match res o with
  | Ok a => a
  | Raise _ => d
  end.

(* ===================================================================== *)
(** * The root logger, its two handlers and their formatters *)
(* ===================================================================== *)

Module Logging.

(** ** Text *)

(** [str(n)] for an [int]. *)
Definition str_int (n : Z) : string :=
  match n with
  | Zneg p => String "-" (Py.digits (Npos p))
  | _ => Py.digits (Z.to_N n)
  end.

(** The numeric values of the levels, and [logging.getLevelName]. *)
Definition levelno_of (l : level) : Z :=
  match l with
  | DEBUG => 10
  | INFO => 20
  | WARNING => 30
  | ERROR => 40
  end.

Definition getLevelName (n : Z) : string :=
  if n =? 50 then "CRITICAL"
  else if n =? 40 then "ERROR"
  else if n =? 30 then "WARNING"
  else if n =? 20 then "INFO"
  else if n =? 10 then "DEBUG"
  else if n =? 0 then "NOTSET"
  else "Level " ++ str_int n.

(** A log record, as far as the formatters of the script read it: the
    level, the message (the script passes no arguments to merge into it)
    and the time of creation as [formatTime] renders it.  [msg] is an
    attribute a formatter can assign to; the one record is handed to every
    handler in turn. *)
Record LogRecord := {
  levelno : Z;
  msg : string;
  asctime : string
}.

Definition set_msg (s : string) (record : LogRecord) : LogRecord :=
  {| levelno := levelno record; msg := s; asctime := asctime record |}.

(** [record.__dict__[key]] as text, for the keys a format can name here. *)
Definition attribute (record : LogRecord) (key : string) : option string :=
  if String.eqb key "asctime" then Some (asctime record)
  else if String.eqb key "levelname" then Some (getLevelName (levelno record))
  else if String.eqb key "message" then Some (msg record)
  else if String.eqb key "msg" then Some (msg record)
  else if String.eqb key "levelno" then Some (str_int (levelno record))
  else None.

(** [fmt % mapping] for the conversions [%(key)s] and [%%]; [None] stands
    for the exception Python raises on a malformed format or a missing
    key, and for the conversions that are not modelled. *)
Inductive percent_state :=
| in_text
| after_percent
| in_key (key : string)
| after_key (key : string).

Fixpoint percent_go (mapping : string -> option string) (st : percent_state)
    (fmt : string) : option string :=
  match fmt with
  | EmptyString => match st with in_text => Some EmptyString | _ => None end
  | String c rest =>
      match st with
      | in_text =>
          if Ascii.eqb c "%" then percent_go mapping after_percent rest
          else option_map (String c) (percent_go mapping in_text rest)
      | after_percent =>
          if Ascii.eqb c "(" then percent_go mapping (in_key EmptyString) rest
          else if Ascii.eqb c "%" then option_map (String c) (percent_go mapping in_text rest)
          else None
      | in_key key =>
          if Ascii.eqb c ")" then percent_go mapping (after_key key) rest
          else percent_go mapping (in_key (key ++ String c EmptyString)) rest
      | after_key key =>
          if Ascii.eqb c "s"
          then match mapping key, percent_go mapping in_text rest with
               | Some v, Some r => Some (v ++ r)
               | _, _ => None
               end
          else None
      end
  end.

Definition percent (fmt : string) (mapping : string -> option string) : option string :=
  percent_go mapping in_text fmt.

(** ** Formatters *)

(** [logging.Formatter.format]: the message is read from [record.msg] at
    every call; the format is then filled from the record.  (The script logs
    no exception and no stack information.) *)
Definition Formatter_format (fmt : string) (record : LogRecord) : option string :=
  percent fmt (attribute record).

(** The escape sequences [\033[91m] and [\033[0m]. *)
Definition red_on : string := String "027" "[91m".
Definition red_off : string := String "027" "[0m".

(** [CustomFormatter.format]: the text, and the record as the call leaves
    it. *)
Definition CustomFormatter_format (fmt : string) (record : LogRecord) :
    option string * LogRecord :=
  let record :=
    if levelno record =? levelno_of ERROR
    then set_msg (red_on ++ msg record ++ red_off) record
    else record in
  (Formatter_format fmt record, record).

Inductive formatter :=
| Formatter (fmt : string)
| CustomFormatter (fmt : string).

Definition format (f : formatter) (record : LogRecord) : option string * LogRecord :=
  match f with
  | Formatter fmt => (Formatter_format fmt record, record)
  | CustomFormatter fmt => CustomFormatter_format fmt record
  end.

(** ** Handlers and the logger *)

Inductive stream :=
| stderr
| log_file (filename : string).

Record handler := {
  h_level : Z;
  h_formatter : formatter;
  h_stream : stream
}.

(** [Handler.handle] then [emit]: the formatted record and the terminator
    go to the stream; an exception while formatting is kept away from the
    caller and nothing is written. *)
Definition handle (h : handler) (record : LogRecord) :
    list (stream * string) * LogRecord :=
  let r := format (h_formatter h) record in
  (match fst r with
   | Some text => [(h_stream h, text ++ String "010" EmptyString)]
   | None => []
   end, snd r).

(** [Logger.callHandlers]: the handlers in the order they were added, each
    one if the record is at its level or above. *)
Fixpoint callHandlers (hs : list handler) (record : LogRecord) : list (stream * string) :=
  match hs with
  | [] => []
  | h :: hs' =>
      if h_level h <=? levelno record
      then let r := handle h record in
           (fst r ++ callHandlers hs' (snd r))%list
      else callHandlers hs' record
  end.

Record Logger := {
  l_level : Z;
  l_handlers : list handler
}.

(** [Logger.log]: nothing below the level of the logger. *)
Definition Logger_log (lg : Logger) (record : LogRecord) : list (stream * string) :=
  if l_level lg <=? levelno record then callHandlers (l_handlers lg) record else [].

(** ** The configuration of the script *)

Definition stream_handler : handler :=
  {| h_level := levelno_of WARNING;
     h_formatter := CustomFormatter "%(asctime)s - %(levelname)s - %(message)s";
     h_stream := stderr |}.

Definition file_handler : handler :=
  {| h_level := levelno_of DEBUG;
     h_formatter := Formatter "%(asctime)s - %(levelname)s - %(message)s";
     h_stream := log_file "info_debug.log" |}.

Definition logger : Logger :=
  {| l_level := levelno_of DEBUG;
     l_handlers := [stream_handler; file_handler] |}.

(** The line the format of both handlers gives for a record, and the
    message in red. *)
Definition line (record : LogRecord) : string :=
  (asctime record ++ " - " ++ getLevelName (levelno record) ++ " - " ++ msg record)
    ++ String "010" EmptyString.

Definition red (s : string) : string := red_on ++ s ++ red_off.

Global Instance stream_eq_dec : EqDecision stream.
Proof. solve_decision. Defined.

Definition written_to (s : stream) (ws : list (stream * string)) : list string :=
  omap (fun w => if bool_decide (fst w = s) then Some (snd w) else None) ws.

(** ** The records of a run

    What the log calls of a run write: [str_float] is [str] on floats and
    [clock n] the time of creation of the [n]-th record, as text. *)

Section Output.

Variable str_float : Py.float -> string.
Variable clock : nat -> string.

Definition str (v : Py.num) : string :=
  match v with
  | Py.Int n => str_int n
  | Py.Float x => str_float x
  end.

(** The text of an f-string. *)
Fixpoint f_string (ps : list piece) : string :=
  match ps with
  | [] => EmptyString
  | Lit s :: ps' => s ++ f_string ps'
  | Num v :: ps' => str v ++ f_string ps'
  end.

Fixpoint log_output (n : nat) (evs : list event) : list (stream * string) :=
  match evs with
  | [] => []
  | E_log lvl ps :: evs' =>
      (Logger_log logger {| levelno := levelno_of lvl; msg := f_string ps;
                            asctime := clock n |}
       ++ log_output (S n) evs')%list
  | _ :: evs' => log_output n evs'
  end.

End Output.

End Logging.

(** The log calls of a run, and those at level WARNING or above. *)
Definition log_calls (evs : list event) : list (level * list piece) :=
  omap (fun e => match e with E_log lvl ps => Some (lvl, ps) | _ => None end) evs.

Definition loud (evs : list event) : list (level * list piece) :=
  omap (fun e => match e with
                 | E_log lvl ps =>
                     if Logging.levelno_of WARNING <=? Logging.levelno_of lvl
                     then Some (lvl, ps) else None
                 | _ => None
                 end) evs.

(** The line of the record of the handler of [load_model], created at the
    time [t], as the stream handler writes it. *)
Definition load_error_line (t msg : string) : string :=
  (t ++ " - ERROR - " ++ Logging.red_on ++ ("Error loading model: " ++ msg) ++ Logging.red_off)
    ++ String "010" "".

(** Formatting [k] times with [CustomFormatter]. *)
Fixpoint format_times (k : nat) (fmt : string) (record : Logging.LogRecord) : Logging.LogRecord :=
  match k with
  | O => record
  | S k' => format_times k' fmt (snd (Logging.CustomFormatter_format fmt record))
  end.

Fixpoint nest (k : nat) (s : string) : string :=
  match k with
  | O => s
  | S k' => nest k' (Logging.red_on ++ s ++ Logging.red_off)
  end.

(** The calls of [plot_history] when every curve is drawn. *)
Definition curves (h : history) : list event :=
  let epochs_range := Py.range (Z.of_nat (length (h_accuracy h))) in
  [E_plt (plt_figure (8, 8));
   E_plt (plt_subplot 1 2 1);
   E_plt (plt_plot epochs_range (h_accuracy h) "Training Accuracy");
   E_plt (plt_plot epochs_range (h_val_accuracy h) "Validation Accuracy");
   E_plt (plt_legend "lower right");
   E_plt (plt_title "Training and Validation Accuracy");
   E_plt (plt_subplot 1 2 2);
   E_plt (plt_plot epochs_range (h_loss h) "Training Loss");
   E_plt (plt_plot epochs_range (h_val_loss h) "Validation Loss");
   E_plt (plt_legend "upper right");
   E_plt (plt_title "Training and Validation Loss");
   E_plt plt_show].

(** The checkpoints a run wrote, each with the parameters written. *)
Definition checkpoint_writes (evs : list event) : list (string * weights) :=
  omap (fun e => match e with E_save_weights _ p wt => Some (p, wt) | _ => None end) evs.


(** "This event, if it writes the checkpoint of epoch 0, writes the
    parameters [w0] of a model of the topology [layers]." *)
Definition starts_from (layers : list layer) (w0 : weights) (e : event) : Prop :=
  match e with
  | E_save_weights m p wt => p = cp 0 -> wt = w0 /\ m_layers m = layers
  | _ => True
  end.

(** The events of a run of [test_model] that reads the model file and
    returns: the load of the object [m], its compile, the dataset, the
    evaluations with the parameters [wt], and the report of the value. *)
Definition evaluation (path : string) (m : model) (wt : weights) (d : dataset)
    (rs : list (Py.float * Py.float)) (times : Z) (avg : Py.num) : list event :=
  ([E_deserialize path; E_summary m;
    E_compile m "adam" "sparse_categorical_crossentropy" ["accuracy"];
    E_log DEBUG [Lit "Model compiled"]; E_dataset d]
   ++ map (E_evaluate m wt d) rs
   ++ [E_print [Lit "Average accuracy: "; Num avg];
       E_log INFO [Num (Py.Int times); Lit " tested; average accuracy: "; Num avg]])%list.

(** The path the driver trains under. *)
Definition driver_path : string := "sortbot_alpha_new.h5".

(** "This event, if it writes a file, writes a checkpoint or the model
    under the path [saved]." *)
Definition writes_within (saved : string) (e : event) : Prop :=
  match e with
  | E_save _ p _ => p = saved
  | E_save_weights _ p _ => exists n, 0 <= n /\ p = cp n
  | _ => True
  end.

(* ===================================================================== *)
(** * More frameworks and worlds to run the script on *)
(* ===================================================================== *)

Module Cases.

(** A framework whose every evaluation reports the accuracy 1. *)
Definition perfect : framework :=
  {| deserialize := Sample.read_model;
     entropy := fun n => Z.of_nat n;
     epoch_metrics := fun _ _ _ _ _ =>
       ((Py.B64 1 (-3), Py.B64 1 0), (Py.B64 1 (-3), Py.B64 1 0));
     eval_metrics := fun _ _ _ _ => (Py.B64 1 (-3), Py.B64 1 0) |}.

(** The world after the import when the validation images are missing,
    and when there are no images at all. *)
Definition without_validation_images : world :=
  {| files := ∅;
     image_dirs := {[ "./dataset-resized/" ]};
     params := ∅;
     next_id := 2%positive;
     draws := 0 |}.

Definition without_images : world :=
  {| files := ∅;
     image_dirs := ∅;
     params := ∅;
     next_id := 2%positive;
     draws := 0 |}.

(** The world after the import with a model saved under "model.keras". *)
Definition with_keras_model : world :=
  set_files <[ "model.keras" := F_model [Flatten; Dense 8 softmax] (W_initial 7) ]>
    Sample.imported.

End Cases.

(* ===================================================================== *)
(** * Facts about the Python values *)
(* ===================================================================== *)

Example issubclass_ex :
  Py.issubclass Py.FileNotFoundError Py.OSError = true /\
  Py.issubclass Py.OSError Py.FileNotFoundError = false /\
  Py.issubclass Py.ValueError Py.FileNotFoundError = false.
Proof. repeat split; reflexivity. Qed.

Example replace_ex :
  Py.replace "h5" "keras" "sortbot_alpha_new.h5" = "sortbot_alpha_new.keras" /\
  Py.replace "" "-" "abc" = "-a-b-c-" /\
  Py.replace "aa" "b" "aaaaa" = "bba".
Proof. repeat split; reflexivity. Qed.

Example format_ex :
  Py.format_epoch "./training/cp-{epoch:04d}.weights.h5" 0 = "./training/cp-0000.weights.h5" /\
  Py.format_04d 42 = "0042" /\ Py.format_04d 12345 = "12345" /\ Py.format_04d (-5) = "-005".
Proof. repeat split; reflexivity. Qed.

Example float_ex :
  Py.truediv (Py.add (Py.Int 0) (Py.Float (Py.B64 1 0))) (Py.Int 2) = Py.Float (Py.B64 1 (-1)).
Proof. vm_compute. reflexivity. Qed.

Lemma length_append (s t : string) :
  String.length (s ++ t) = (String.length s + String.length t)%nat.
Proof. induction s; simpl; [reflexivity | now rewrite IHs]. Qed.

Lemma prefix_split (old s : string) :
  String.prefix old s = true -> exists rest, s = old ++ rest.
Proof.
  revert old. induction s as [|b s IH]; intros [|a old] H; simpl in *; eauto; try discriminate.
  destruct (ascii_dec a b) as [->|]; [|discriminate].
  destruct (IH _ H) as [rest ->]. eauto.
Qed.

Lemma replace_go_skip (old new a rest : string) :
  Py.replace_go old new (String.length a) (a ++ rest) = Py.replace_go old new 0 rest.
Proof.
  induction a as [|c a IH]; simpl; [|exact IH].
  destruct rest; reflexivity.
Qed.

Lemma replace_go_replaced_all (old new : string) (n : nat) :
  old <> "" -> forall s, (String.length s <= n)%nat ->
  replaced_all old new s (Py.replace_go old new 0 s).
Proof.
  intros Hold. induction n as [|n IH]; intros [|c s] Hlen; simpl in Hlen; try lia;
    try constructor.
  cbn [Py.replace_go].
  destruct (String.prefix old (String c s)) eqn:Hp.
  - destruct (prefix_split _ _ Hp) as [rest Hrest].
    destruct old as [|a old']; [contradiction|].
    cbn [String.length Nat.pred].
    simpl in Hrest. injection Hrest as -> ->.
    rewrite replace_go_skip.
    apply (replaced_here (String a old') new). apply IH.
    rewrite length_append in Hlen. lia.
  - apply replaced_keep; [exact Hp|]. apply IH. lia.
Qed.

Lemma replace_replaced_all (old new s : string) :
  old <> "" -> replaced_all old new s (Py.replace old new s).
Proof.
  intros Hold. unfold Py.replace. destruct old as [|a old']; [contradiction|].
  eapply replace_go_replaced_all; [exact Hold | reflexivity].
Qed.

Lemma prefix_nil (s : string) : String.prefix "" s = true.
Proof. destruct s; reflexivity. Qed.

Lemma prefix_cons (a b : ascii) (s t : string) :
  String.prefix (String a s) (String b t) = Ascii.eqb a b && String.prefix s t.
Proof.
  cbn [String.prefix]. destruct (ascii_dec a b) as [->|Hne].
  - now rewrite Ascii.eqb_refl.
  - apply Ascii.eqb_neq in Hne. now rewrite Hne.
Qed.

Lemma replaced_h5_head (s out : string) :
  replaced_all "h5" "keras" s out ->
  String.prefix "5" out = true -> String.prefix "5" s = true.
Proof.
  intros H Hout. destruct H as [|rest out H|c rest out Hp H].
  - discriminate Hout.
  - discriminate Hout.
  - rewrite prefix_cons, prefix_nil in *. exact Hout.
Qed.

Lemma replaced_h5_gone (s out : string) :
  replaced_all "h5" "keras" s out -> Py.contains "h5" out = false.
Proof.
  induction 1 as [|rest out H IH|c rest out Hp H IH].
  - reflexivity.
  - destruct out; exact IH.
  - cbn [Py.contains]. rewrite IH, orb_false_r.
    rewrite prefix_cons in *.
    destruct (Ascii.eqb "h" c); [|reflexivity]. cbn [andb] in *.
    destruct (String.prefix "5" out) eqn:E; [|reflexivity].
    rewrite <- Hp. symmetry. exact (replaced_h5_head _ _ H E).
Qed.


(** ** Checkpoint paths *)

Lemma unformat_digits (n : N) : unformat (Py.digits n) = Some n.
Proof.
  unfold unformat, Py.digits, NilZero.string_of_uint.
  assert (N.to_uint n <> Decimal.Nil) as Hnil.
  { destruct n as [|p]; [discriminate|]. apply DecimalPos.Unsigned.to_uint_nonnil. }
  destruct (N.to_uint n) eqn:E; try contradiction;
    rewrite <- E, NilEmpty.usu; cbn [option_map]; now rewrite DecimalN.Unsigned.of_to.
Qed.

Lemma unformat_zero (s : string) : unformat (String "0" s) = unformat s.
Proof.
  unfold unformat. cbn [NilEmpty.uint_of_string].
  destruct (NilEmpty.uint_of_string s); reflexivity.
Qed.

Lemma unformat_zfill (width : nat) (s : string) : unformat (Py.zfill width s) = unformat s.
Proof.
  unfold Py.zfill. induction (width - String.length s)%nat as [|k IH]; [reflexivity|].
  change (unformat (String "0" (Py.zeros k ++ s)) = unformat s).
  now rewrite unformat_zero.
Qed.

Lemma format_04d_inj (a b : Z) :
  0 <= a -> 0 <= b -> Py.format_04d a = Py.format_04d b -> a = b.
Proof.
  intros Ha Hb H.
  assert (forall n, 0 <= n -> unformat (Py.format_04d n) = Some (Z.to_N n)) as Hu.
  { intros n Hn. destruct n as [|p|p]; try lia; unfold Py.format_04d;
      now rewrite unformat_zfill, unformat_digits. }
  pose proof (Hu a Ha) as Ea. rewrite H, (Hu b Hb) in Ea.
  injection Ea as Ea. lia.
Qed.

Lemma append_inj_r (s t u : string) : s ++ u = t ++ u -> s = t.
Proof.
  revert t. induction s as [|c s IH]; intros [|c' t] H; simpl in H.
  - reflexivity.
  - apply (f_equal String.length) in H. simpl in H.
    rewrite ?length_append in H. simpl in H. lia.
  - apply (f_equal String.length) in H. simpl in H.
    rewrite ?length_append in H. simpl in H. lia.
  - injection H as -> H. f_equal. now apply IH.
Qed.

Lemma cp_eq (n : Z) : cp n = "./training/cp-" ++ Py.format_04d n ++ ".weights.h5".
Proof. reflexivity. Qed.

Lemma cp_inj (a b : Z) : 0 <= a -> 0 <= b -> cp a = cp b -> a = b.
Proof.
  intros Ha Hb H. rewrite !cp_eq in H.
  simpl in H. injection H as H.
  change ("" ++ ?x) with x in H.
  apply append_inj_r in H. now apply format_04d_inj.
Qed.

Lemma contains_append (old a b : string) :
  Py.contains old b = true -> Py.contains old (a ++ b) = true.
Proof.
  intros H. induction a as [|c a IH]; [exact H|].
  simpl. rewrite IH. apply orb_true_r.
Qed.

Lemma cp_contains_h5 (n : Z) : Py.contains "h5" (cp n) = true.
Proof.
  rewrite cp_eq. apply contains_append, contains_append. reflexivity.
Qed.

Lemma saved_path_no_h5 (path : string) : Py.contains "h5" (saved_path path) = false.
Proof.
  apply (replaced_h5_gone path). apply replace_replaced_all. discriminate.
Qed.

Lemma saved_path_not_checkpoint (path : string) (n : Z) : saved_path path <> cp n.
Proof.
  intros H. pose proof (saved_path_no_h5 path) as H1.
  rewrite H, cp_contains_h5 in H1. discriminate.
Qed.

(** The filter of [load_model] is the left operand of its [or]. *)
Lemma load_model_filter_eq : load_model_filter = Py.FileNotFoundError.
Proof. reflexivity. Qed.

Lemma issubclass_FileNotFoundError (c : Py.exn_class) :
  Py.issubclass c Py.FileNotFoundError = true <-> c = Py.FileNotFoundError.
Proof. destruct c; split; intros H; try reflexivity; discriminate H. Qed.

(* ===================================================================== *)
(** * Running computations *)
(* ===================================================================== *)


(** Evaluation of the operations of the monad, and of the framework calls
    that only record an event or write a file. *)
Ltac run_monad :=
  cbv beta iota zeta delta
    [bind ret raise get modify emit draw res after events
     model_save_weights model_save model_summary model_compile logging_log print];
  cbn [app fst snd].

(* ===================================================================== *)
(** * The loader and the dataset generator *)
(* ===================================================================== *)

Section Loader.

Variable fw : framework.


(** The three ways [load_model] can go, by what the reader does. *)
Lemma load_model_loaded path w layers w0 :
  deserialize fw path (files w !! path) = inr (layers, w0) ->
  let m := {| m_id := next_id w; m_layers := layers |} in
  load_model fw path w =
    {| res := Ok m;
       after := set_params <[next_id w := w0]> (bump_id w);
       events := [E_deserialize path; E_summary m] |}.
Proof.
  intros H. unfold load_model, try_except, keras_load_model. run_monad.
  rewrite H. run_monad. reflexivity.
Qed.

Lemma load_model_caught path w e :
  deserialize fw path (files w !! path) = inl e ->
  Py.exn_cls e = Py.FileNotFoundError ->
  load_model fw path w =
    {| res := Ok new_model;
       after := w;
       events := [E_deserialize path; load_error (Py.exn_msg e); E_summary new_model] |}.
Proof.
  intros H Hc. unfold load_model, try_except, keras_load_model. run_monad.
  rewrite H. run_monad. rewrite Hc. reflexivity.
Qed.

Lemma load_model_uncaught path w e :
  deserialize fw path (files w !! path) = inl e ->
  Py.exn_cls e <> Py.FileNotFoundError ->
  load_model fw path w =
    {| res := Raise e; after := w; events := [E_deserialize path] |}.
Proof.
  intros H Hc. unfold load_model, try_except, keras_load_model. run_monad.
  rewrite H. run_monad.
  destruct (Py.issubclass (Py.exn_cls e) load_model_filter) eqn:E; [|reflexivity].
  apply issubclass_FileNotFoundError in E. contradiction.
Qed.


(** C1. [load_model] does not fall back for every path under which no file
    exists: it goes by the exception the reader raises for the missing
    file.  A [FileNotFoundError] is caught: [load_model] returns the
    module's [new_model], whose last layer is a Dense layer of 8 units, logs
    one record of level ERROR, and nothing else changes.  A [ValueError]
    (the framework's answer for a missing path that does not end in ".h5"
    or ".hdf5") is not caught, since [FileNotFoundError or ValueError] is
    [FileNotFoundError]: [load_model] raises it, with no record logged, no
    summary printed and no model returned, against its docstring. *)
Theorem load_model_nonexistent_path (path : string) (w : world) (e : Py.exn) :
  files w !! path = None ->
  deserialize fw path None = inl e ->
  (Py.exn_cls e = Py.FileNotFoundError ->
     res (load_model fw path w) = Ok new_model /\
     events (load_model fw path w) =
       [E_deserialize path; load_error (Py.exn_msg e); E_summary new_model] /\
     after (load_model fw path w) = w /\
     last (m_layers new_model) = Some (Dense 8 softmax) /\
     output_width new_model = Some 8) /\
  (Py.exn_cls e = Py.ValueError ->
     res (load_model fw path w) = Raise e /\
     events (load_model fw path w) = [E_deserialize path] /\
     after (load_model fw path w) = w).
Proof.
  intros Hnone He. rewrite <- Hnone in He. split; intros Hc.
  - rewrite (load_model_caught _ _ _ He Hc). repeat split; reflexivity.
  - rewrite (load_model_uncaught _ _ _ He) by (rewrite Hc; discriminate).
    repeat split; reflexivity.
Qed.

(** C6. Whatever the reader raises: the filter is [FileNotFoundError]
    alone; an exception of that class is caught, logged as an error and
    answered with [new_model]; an exception of any other class, [ValueError]
    among them, leaves [load_model] as it came, with no record logged. *)
Theorem load_model_catches_FileNotFoundError_only (path : string) (w : world) (e : Py.exn) :
  deserialize fw path (files w !! path) = inl e ->
  load_model_filter = Py.FileNotFoundError /\
  (forall c, Py.issubclass c load_model_filter = true <-> c = Py.FileNotFoundError) /\
  (Py.exn_cls e = Py.FileNotFoundError ->
     res (load_model fw path w) = Ok new_model /\
     events (load_model fw path w) =
       [E_deserialize path; load_error (Py.exn_msg e); E_summary new_model]) /\
  (Py.exn_cls e = Py.ValueError ->
     res (load_model fw path w) = Raise e) /\
  (Py.exn_cls e <> Py.FileNotFoundError ->
     res (load_model fw path w) = Raise e /\
     events (load_model fw path w) = [E_deserialize path] /\
     after (load_model fw path w) = w).
Proof.
  intros H. split; [reflexivity|]. split; [apply issubclass_FileNotFoundError|].
  split; [|split].
  - intros Hc. rewrite (load_model_caught _ _ _ H Hc). split; reflexivity.
  - intros Hc. rewrite (load_model_uncaught _ _ _ H); [reflexivity|].
    rewrite Hc. discriminate.
  - intros Hc. rewrite (load_model_uncaught _ _ _ H Hc). repeat split; reflexivity.
Qed.


Lemma generate_dataset_run batch_size training w :
  let d := requested fw w batch_size training in
  generate_dataset fw batch_size training w =
    {| res := if bool_decide (ds_directory d ∈ image_dirs w) then Ok d
              else Raise (missing_directory (ds_directory d));
       after := bump_draws w;
       events := [E_dataset d] |}.
Proof.
  unfold generate_dataset, random_randint, image_dataset_from_directory, draw, requested.
  run_monad. cbn [ds_directory].
  destruct (bool_decide _); reflexivity.
Qed.

(** C4. For every batch size, the one call [generate_dataset] makes to the
    dataset builder names the directory "./dataset-resized/val" when
    [training] is false and "./dataset-resized/" when it is true. *)
Theorem generate_dataset_directory (batch_size : Z) (w : world) :
  (exists d, events (generate_dataset fw batch_size false w) = [E_dataset d] /\
             ds_directory d = "./dataset-resized/val" /\ ds_batch_size d = batch_size) /\
  (exists d, events (generate_dataset fw batch_size true w) = [E_dataset d] /\
             ds_directory d = "./dataset-resized/" /\ ds_batch_size d = batch_size).
Proof.
  split; eexists; rewrite generate_dataset_run; repeat split; reflexivity.
Qed.

(** C10. For every call of [generate_dataset], the seed handed to the
    dataset builder is an integer between 2^16 and 2^32 - 1, both included;
    it is never below 65536. *)
Theorem generate_dataset_seed_range (batch_size : Z) (training : bool) (w : world) :
  exists d, events (generate_dataset fw batch_size training w) = [E_dataset d] /\
            2 ^ 16 <= ds_seed d <= 2 ^ 32 - 1 /\ 65536 <= ds_seed d.
Proof.
  exists (requested fw w batch_size training). rewrite generate_dataset_run.
  split; [reflexivity|].
  unfold requested; cbn [ds_seed].
  pose proof (Z.mod_pos_bound (entropy fw (draws w)) (2 ^ 32 - 1 - 2 ^ 16 + 1)) as Hb.
  change (2 ^ 32 - 1 - 2 ^ 16 + 1) with 4294901760 in *.
  change (2 ^ 16) with 65536. change (2 ^ 32 - 1) with 4294967295.
  lia.
Qed.

End Loader.

(* ===================================================================== *)
(** * The evaluator *)
(* ===================================================================== *)

Section Evaluator.
Variable fw : framework.

Lemma load_model_cases path w :
  (exists layers w0, deserialize fw path (files w !! path) = inr (layers, w0) /\
     load_model fw path w =
       {| res := Ok {| m_id := next_id w; m_layers := layers |};
          after := set_params <[next_id w := w0]> (bump_id w);
          events := [E_deserialize path;
                     E_summary {| m_id := next_id w; m_layers := layers |}] |}) \/
  (exists e, deserialize fw path (files w !! path) = inl e /\
     Py.exn_cls e = Py.FileNotFoundError /\
     load_model fw path w =
       {| res := Ok new_model; after := w;
          events := [E_deserialize path; load_error (Py.exn_msg e);
                     E_summary new_model] |}) \/
  (exists e, deserialize fw path (files w !! path) = inl e /\
     Py.exn_cls e <> Py.FileNotFoundError /\
     load_model fw path w =
       {| res := Raise e; after := w; events := [E_deserialize path] |}).
Proof.
  destruct (deserialize fw path (files w !! path)) as [e|[layers w0]] eqn:H.
  - destruct (decide (Py.exn_cls e = Py.FileNotFoundError)) as [Hc|Hc].
    + right; left. exists e. eauto using load_model_caught.
    + right; right. exists e. eauto using load_model_uncaught.
  - left. exists layers, w0. split; [reflexivity|]. now apply load_model_loaded.
Qed.

Lemma model_evaluate_run m d w :
  let r := eval_metrics fw (m_layers m) (weights_of w m) d (draws w) in
  model_evaluate fw m d w =
    {| res := Ok r; after := bump_draws w; events := [E_evaluate m (weights_of w m) d r] |}.
Proof. reflexivity. Qed.

Lemma evaluate_loop_run m d rounds avg w :
  let rs := evaluations fw m (weights_of w m) d (draws w) (length rounds) in
  evaluate_loop fw m d rounds avg w =
    {| res := Ok (fold_left blend (map snd rs) avg);
       after := Nat.iter (length rounds) bump_draws w;
       events := map (E_evaluate m (weights_of w m) d) rs |}.
Proof.
  revert avg w. induction rounds as [|x rounds IH]; intros avg w; [reflexivity|].
  cbn [evaluate_loop length]. rewrite Nat.iter_succ_r.
  unfold bind at 1. rewrite model_evaluate_run. cbn [res after events].
  rewrite IH. reflexivity.
Qed.

Lemma accuracies_evaluations m wt d rs :
  accuracies (map (E_evaluate m wt d) rs) = map snd rs.
Proof.
  induction rs as [|r rs IH]; [reflexivity|].
  change (snd r :: accuracies (map (E_evaluate m wt d) rs) = snd r :: map snd rs).
  now rewrite IH.
Qed.

Lemma evaluations_length m wt d n k : length (evaluations fw m wt d n k) = k.
Proof. revert n; induction k; intros n; simpl; auto. Qed.

Lemma blend_from_zero (a : Py.float) :
  a <> negative_zero ->
  blend (Py.Int 0) a = Py.Float (Py.fdiv a (Py.float_of_int 2)).
Proof.
  intros Ha. unfold blend, Py.truediv, Py.add. f_equal. f_equal.
  destruct a as [[|]| | |]; try reflexivity. contradiction.
Qed.

Lemma blend_negative_zero :
  blend (Py.Int 0) negative_zero = Py.Float positive_zero /\
  Py.fdiv negative_zero (Py.float_of_int 2) = negative_zero /\
  SFeqb positive_zero negative_zero = true.
Proof. repeat split; reflexivity. Qed.


Lemma accuracies_app evs evs' :
  accuracies (evs ++ evs') = (accuracies evs ++ accuracies evs')%list.
Proof. apply omap_app. Qed.

Lemma load_model_no_evaluation path w :
  accuracies (events (load_model fw path w)) = [].
Proof.
  destruct (load_model_cases path w)
    as [(l & w0 & _ & ->)|[(e & _ & _ & ->)|(e & _ & _ & ->)]]; reflexivity.
Qed.

Lemma range_length n : length (Py.range n) = Z.to_nat n.
Proof. unfold Py.range. now rewrite length_map, length_seq. Qed.

(** [test_model], stage by stage. *)
Lemma test_model_run path times w :
  let o0 := load_model fw path w in
  test_model fw path times w =
  match res o0 with
  | Raise e => {| res := Raise e; after := after o0; events := events o0 |}
  | Ok model =>
      let w1 := after o0 in
      let d := requested fw w1 256 false in
      if bool_decide ("./dataset-resized/val" ∈ image_dirs w1) then
        let wt := weights_of w1 model in
        let rs := evaluations fw model wt d (S (draws w1)) (Z.to_nat times) in
        let avg_acc := fold_left blend (map snd rs) (Py.Int 0) in
        {| res := Ok avg_acc;
           after := Nat.iter (Z.to_nat times) bump_draws (bump_draws w1);
           events := events o0 ++ [compiled model; E_log DEBUG [Lit "Model compiled"];
                                   E_dataset d]
                       ++ map (E_evaluate model wt d) rs ++
                          [E_print [Lit "Average accuracy: "; Num avg_acc];
                           E_log INFO [Num (Py.Int times);
                                       Lit " tested; average accuracy: "; Num avg_acc]] |}
      else
        {| res := Raise (missing_directory "./dataset-resized/val");
           after := bump_draws w1;
           events := events o0 ++ [compiled model; E_log DEBUG [Lit "Model compiled"];
                                   E_dataset d] |}
  end.
Proof.
  unfold test_model. run_monad.
  destruct (load_model fw path w) as [[model|e] w1 e1]. 2: reflexivity.
  run_monad.
  rewrite generate_dataset_run. run_monad. cbn [requested ds_directory].
  destruct (bool_decide _); [|reflexivity].
  rewrite evaluate_loop_run, range_length.
  run_monad. reflexivity.
Qed.

(** C2. Whenever [test_model] returns: it made [times] evaluations (10 by
    default), and the value it returns is the initial 0 updated, once per
    evaluation and in order, by [avg = (avg + accuracy) / 2] in Python's
    arithmetic.  With exactly one evaluation, of accuracy [a], the value is
    the float [a / 2] (for [a] the float -0.0 it is 0.0, the same number).
    This is not the mean: two evaluations of accuracy 1 give 3/4. *)
Theorem test_model_running_blend (path : string) (times : Z) (w : world) (avg : Py.num) :
  res (test_model fw path times w) = Ok avg ->
  let accs := accuracies (events (test_model fw path times w)) in
  length accs = Z.to_nat times /\
  default_times = 10 /\
  avg = fold_left (fun avg_acc test_acc =>
                     Py.truediv (Py.add avg_acc (Py.Float test_acc)) (Py.Int 2))
                  accs (Py.Int 0) /\
  (forall a, accs = [a] -> a <> negative_zero ->
     avg = Py.Float (Py.fdiv a (Py.float_of_int 2))) /\
  (accs = [negative_zero] ->
     avg = Py.Float positive_zero /\ SFeqb positive_zero (Py.fdiv negative_zero (Py.float_of_int 2)) = true) /\
  fold_left blend [Py.B64 1 0; Py.B64 1 0] (Py.Int 0) = Py.Float (Py.B64 3 (-2)).
Proof.
  intros Hres accs.
  assert (exists rs, length rs = Z.to_nat times /\ accs = rs /\
                     avg = fold_left blend rs (Py.Int 0)) as (rs & Hlen & Haccs & Havg).
  { subst accs. revert Hres. rewrite test_model_run.
    pose proof (load_model_no_evaluation path w) as Hnone.
    destruct (load_model fw path w) as [[model|e] w1 e1]; cbn [res after events] in *;
      [|discriminate].
    destruct (bool_decide _); cbn [res events]; [|discriminate].
    intros [= <-]. eexists. split; [|split; [|reflexivity]].
    - now rewrite length_map, evaluations_length.
    - rewrite !accuracies_app, Hnone, accuracies_evaluations. apply app_nil_r. }
  rewrite Haccs. split; [exact Hlen|]. split; [reflexivity|]. split; [exact Havg|].
  split; [|split].
  - intros a -> Ha. rewrite Havg. now apply blend_from_zero.
  - intros ->. rewrite Havg. split; reflexivity.
  - vm_compute. reflexivity.
Qed.

End Evaluator.


(** ** Kinds of events *)

Lemma only_app ks evs evs' : only ks evs -> only ks evs' -> only ks (evs ++ evs').
Proof. apply Forall_app_2. Qed.

Lemma only_In ks evs e : only ks evs -> In e evs -> kind_of e ∈ ks.
Proof.
  intros H Hin. unfold only in H. rewrite Forall_forall in H.
  apply H. now apply list_elem_of_In.
Qed.

Lemma only_weaken ks ks' evs :
  forallb (fun k => bool_decide (k ∈ ks')) ks = true -> only ks evs -> only ks' evs.
Proof.
  intros Hs H. eapply Forall_impl; [exact H|]. intros e He. cbv beta in He |- *.
  rewrite forallb_forall in Hs.
  apply (bool_decide_eq_true_1 (kind_of e ∈ ks')), Hs.
  now apply list_elem_of_In.
Qed.

(** Membership of an explicit kind in an explicit list, "only" for an
    explicit list of events, and the contradiction when it fails. *)
Ltac kind_in := repeat first [apply list_elem_of_here | apply list_elem_of_further].

Ltac kinds :=
  lazymatch goal with
  | |- only _ _ =>
      unfold only; cbv [loader_kinds evaluator_kinds];
      repeat (apply Forall_cons; split; [cbv [kind_of]; kind_in|]); constructor
  | |- _ ∈ _ => cbv [kind_of loader_kinds evaluator_kinds]; kind_in
  end.

Ltac kind_clash H :=
  exfalso; repeat (apply elem_of_cons in H as [H|H]; [discriminate H|]);
  apply elem_of_nil in H; exact H.

Lemma load_model_kinds (fw : framework) path w :
  only loader_kinds (events (load_model fw path w)).
Proof.
  destruct (load_model_cases fw path w)
    as [(l & w0 & _ & ->)|[(e & _ & _ & ->)|(e & _ & _ & ->)]]; cbv [events]; kinds.
Qed.

Lemma evaluations_kinds m wt d rs : only [K_evaluate] (map (E_evaluate m wt d) rs).
Proof.
  induction rs as [|r rs IH]; [constructor|].
  apply Forall_cons. split; [kinds|exact IH].
Qed.

Lemma test_model_kinds (fw : framework) path times w :
  only evaluator_kinds (events (test_model fw path times w)).
Proof.
  rewrite test_model_run.
  pose proof (only_weaken loader_kinds evaluator_kinds _ eq_refl
                (load_model_kinds fw path w)) as Hl.
  destruct (load_model fw path w) as [[model|e] w1 e1]; cbv [res after events] in *;
    [|exact Hl].
  destruct (bool_decide _); cbv [events].
  - apply only_app; [exact Hl|]. apply only_app; [kinds|]. apply only_app; [|kinds].
    apply (only_weaken [K_evaluate]); [reflexivity|apply evaluations_kinds].
  - apply only_app; [exact Hl|kinds].
Qed.

Lemma checkpoint_events_kinds m saved : only [K_save_weights] (checkpoint_events m saved).
Proof.
  induction saved as [|p saved IH]; [constructor|].
  apply Forall_cons. split; [kinds|exact IH].
Qed.

(** ** Checkpoints and saves of a list of events *)


Lemma saves_app evs evs' : saves (evs ++ evs') = (saves evs ++ saves evs')%list.
Proof. apply omap_app. Qed.


Lemma saves_only ks evs : only ks evs -> K_save ∉ ks -> saves evs = [].
Proof.
  intros H Hk. induction H as [|e evs He _ IH]; [reflexivity|].
  destruct e; try exact IH. exfalso. exact (Hk He).
Qed.




(** ** Files written by the checkpoints *)

Lemma write_checkpoints_other saved fs p :
  p ∉ map cp (map fst saved) -> write_checkpoints saved fs !! p = fs !! p.
Proof.
  revert fs. induction saved as [|x saved IH]; intros fs Hp; [reflexivity|].
  cbn [map] in Hp. apply not_elem_of_cons in Hp as [Hne Hp].
  change (write_checkpoints saved (<[cp (fst x) := F_weights (snd x)]> fs) !! p = fs !! p).
  rewrite IH by exact Hp. now apply lookup_insert_ne.
Qed.


Lemma iter_bump_draws (k : nat) (w : world) :
  files (Nat.iter k bump_draws w) = files w /\
  image_dirs (Nat.iter k bump_draws w) = image_dirs w /\
  params (Nat.iter k bump_draws w) = params w /\
  next_id (Nat.iter k bump_draws w) = next_id w.
Proof.
  induction k as [|k (H1 & H2 & H3 & H4)]; [repeat split|].
  cbn [Nat.iter]. split; [exact H1|]. split; [exact H2|]. split; [exact H3|exact H4].
Qed.

(** What [load_model] and [test_model] leave alone. *)
Lemma load_model_frame (fw : framework) path w :
  files (after (load_model fw path w)) = files w /\
  image_dirs (after (load_model fw path w)) = image_dirs w /\
  (next_id w <= next_id (after (load_model fw path w)))%positive.
Proof.
  destruct (load_model_cases fw path w)
    as [(l & w0 & _ & ->)|[(e & _ & _ & ->)|(e & _ & _ & ->)]];
    cbv [after set_params bump_id files image_dirs next_id]; repeat split; lia.
Qed.

Lemma test_model_frame (fw : framework) path times w :
  files (after (test_model fw path times w)) = files w /\
  image_dirs (after (test_model fw path times w)) = image_dirs w /\
  (next_id w <= next_id (after (test_model fw path times w)))%positive.
Proof.
  rewrite test_model_run. pose proof (load_model_frame fw path w) as (Hf & Hd & Hn).
  destruct (load_model fw path w) as [[model|e] w1 e1];
    cbv beta iota zeta delta [res after events] in *; [|repeat split; assumption].
  destruct (bool_decide _); cbv beta iota zeta delta [after].
  - destruct (iter_bump_draws (Z.to_nat times) (bump_draws w1)) as (H1 & H2 & _ & H4).
    rewrite H1, H2, H4. repeat split; assumption.
  - repeat split; assumption.
Qed.

(** The model [test_model] evaluates is the one its own [load_model]
    returns: a new object with the parameters read from the file, or the
    module's [new_model] with the parameters it has at that moment.  The
    evaluator then returns, and leaves the parameters of the objects that
    were there before as they were. *)
Lemma test_model_evaluated (fw : framework) path times w m_e w_e d_e r :
  In (E_evaluate m_e w_e d_e r) (events (test_model fw path times w)) ->
  ((exists layers, deserialize fw path (files w !! path) = inr (layers, w_e) /\
                   m_e = {| m_id := next_id w; m_layers := layers |}) \/
   (exists e, deserialize fw path (files w !! path) = inl e /\
              Py.exn_cls e = Py.FileNotFoundError /\
              m_e = new_model /\ w_e = weights_of w new_model)) /\
  (exists avg, res (test_model fw path times w) = Ok avg) /\
  (forall m, (m_id m < next_id w)%positive ->
             weights_of (after (test_model fw path times w)) m = weights_of w m).
Proof.
  rewrite test_model_run.
  assert (forall (mdl : model) w1 (pre : list event) tl,
            only loader_kinds pre ->
            In (E_evaluate m_e w_e d_e r)
               (pre ++ [compiled mdl; E_log DEBUG [Lit "Model compiled"];
                        E_dataset (requested fw w1 256 false)]
                    ++ map (E_evaluate mdl (weights_of w1 mdl) (requested fw w1 256 false))
                         (evaluations fw mdl (weights_of w1 mdl) (requested fw w1 256 false)
                            (S (draws w1)) (Z.to_nat times))
                    ++ tl) ->
            (forall x, In x tl -> kind_of x ∈ [K_print; K_log]) ->
            m_e = mdl /\ w_e = weights_of w1 mdl) as Hmain.
  { intros mdl w1 pre tl Hpre Hin Htl. rewrite !in_app_iff in Hin.
    destruct Hin as [Hin|[Hin|[Hin|Hin]]].
    - apply (only_In _ _ _ Hpre) in Hin. kind_clash Hin.
    - cbv [In] in Hin. repeat (destruct Hin as [Hin|Hin]; [discriminate Hin|]).
      contradiction.
    - apply in_map_iff in Hin as (x & Hx & _). injection Hx as -> -> _ _. split; reflexivity.
    - apply Htl in Hin. kind_clash Hin. }
  assert (forall avg x,
            In x [E_print [Lit "Average accuracy: "; Num avg];
                  E_log INFO [Num (Py.Int times); Lit " tested; average accuracy: ";
                              Num avg]] ->
            kind_of x ∈ [K_print; K_log]) as Htl.
  { intros avg x Hx. cbv [In] in Hx. destruct Hx as [<-|[<-|[]]]; kinds. }
  destruct (load_model_cases fw path w)
    as [(l & w0 & Hde & ->)|[(e & Hde & Hc & ->)|(e & Hde & Hc & ->)]];
    cbv beta iota zeta delta [res after events].
  - destruct (bool_decide _).
    + cbv beta iota zeta delta [res after events]. intros Hin.
      apply Hmain in Hin; [|kinds|apply Htl]. destruct Hin as [-> ->].
      assert (forall k m, (m_id m < next_id w)%positive ->
                weights_of (Nat.iter k bump_draws
                              (bump_draws (set_params <[next_id w := w0]> (bump_id w)))) m
                = weights_of w m) as Hkeep.
      { intros k m Hm. unfold weights_of.
        destruct (iter_bump_draws k (bump_draws (set_params <[next_id w := w0]> (bump_id w))))
          as (_ & _ & -> & _).
        cbv [bump_draws set_params bump_id params]. rewrite lookup_insert_ne by lia.
        reflexivity. }
      split; [left; exists l; split; [|reflexivity]|split; [eauto|apply Hkeep]].
      unfold weights_of. cbv [set_params bump_id params m_id].
      rewrite lookup_insert_eq. exact Hde.
    + cbv beta iota zeta delta [res after events]. intros Hin. exfalso.
      apply in_app_or in Hin as [Hin|Hin]; cbv [In] in Hin;
        repeat (destruct Hin as [Hin|Hin]; [discriminate Hin|]); contradiction.
  - destruct (bool_decide _).
    + cbv beta iota zeta delta [res after events]. intros Hin.
      apply Hmain in Hin; [|kinds|apply Htl]. destruct Hin as [-> ->].
      split; [right; exists e; repeat split; assumption|split; [eauto|]].
      intros m _. unfold weights_of.
      destruct (iter_bump_draws (Z.to_nat times) (bump_draws w)) as (_ & _ & -> & _).
      reflexivity.
    + cbv beta iota zeta delta [res after events]. intros Hin. exfalso.
      apply in_app_or in Hin as [Hin|Hin]; cbv [In] in Hin;
        repeat (destruct Hin as [Hin|Hin]; [discriminate Hin|]); contradiction.
  - intros Hin. exfalso. cbv [In] in Hin.
    repeat (destruct Hin as [Hin|Hin]; [discriminate Hin|]). contradiction.
Qed.

(** The identity of the object [load_model] returns: [new_model], or an
    object that did not exist before. *)
Lemma load_model_id (fw : framework) path w m :
  res (load_model fw path w) = Ok m ->
  (1 < next_id w)%positive ->
  (m_id m < next_id (after (load_model fw path w)))%positive /\
  (m = new_model \/ m_id m = next_id w).
Proof.
  destruct (load_model_cases fw path w)
    as [(l & w0 & _ & ->)|[(e & _ & _ & ->)|(e & _ & _ & ->)]];
    cbv [res after set_params bump_id next_id]; intros [= <-] H1.
  - cbn [m_id]. split; [lia|right; reflexivity].
  - cbv [new_model m_id]. split; [exact H1|left; reflexivity].
Qed.

Section LoggingFacts.
Import Logging.

Lemma append_empty_r (s : string) : s ++ "" = s.
Proof.
  induction s as [|c s IH]; [reflexivity|].
  change (String c (s ++ "") = String c s). now rewrite IH.
Qed.

Lemma Formatter_format_line (record : LogRecord) :
  Formatter_format "%(asctime)s - %(levelname)s - %(message)s" record =
    Some (asctime record ++ " - " ++ getLevelName (levelno record) ++ " - " ++ msg record).
Proof.
  rewrite <- (append_empty_r (msg record)) at 1. reflexivity.
Qed.

Lemma handle_file_handler (record : LogRecord) :
  handle file_handler record = ([(log_file "info_debug.log", line record)], record).
Proof.
  unfold handle, file_handler, h_formatter, h_stream, format.
  rewrite Formatter_format_line. reflexivity.
Qed.

Lemma handle_stream_handler (record : LogRecord) :
  handle stream_handler record =
    if levelno record =? 40
    then ([(stderr, line (set_msg (red (msg record)) record))], set_msg (red (msg record)) record)
    else ([(stderr, line record)], record).
Proof.
  unfold handle, stream_handler, h_formatter, h_stream, format, CustomFormatter_format.
  change (levelno_of ERROR) with 40. cbv zeta.
  destruct (levelno record =? 40); rewrite Formatter_format_line; reflexivity.
Qed.

(** What the logger of the script writes for a record, level by level. *)
Lemma Logger_log_logger (record : LogRecord) :
  let shown := if levelno record =? 40 then set_msg (red (msg record)) record else record in
  Logger_log logger record =
    ((if 30 <=? levelno record then [(stderr, line shown)] else []) ++
     (if 10 <=? levelno record then [(log_file "info_debug.log", line shown)] else []))%list.
Proof.
  cbv zeta. unfold Logger_log, logger, l_level, l_handlers.
  change (levelno_of DEBUG) with 10.
  destruct (10 <=? levelno record) eqn:E10.
  - cbn [callHandlers]. change (h_level stream_handler) with 30.
    change (h_level file_handler) with 10.
    destruct (30 <=? levelno record) eqn:E30.
    + rewrite handle_stream_handler.
      destruct (levelno record =? 40) eqn:E40; cbn [fst snd levelno set_msg];
        rewrite E10, handle_file_handler; reflexivity.
    + assert ((levelno record =? 40) = false) as -> by lia.
      rewrite E10, handle_file_handler. reflexivity.
  - assert ((30 <=? levelno record) = false) as -> by lia. reflexivity.
Qed.

(** X1. A record of a level other than ERROR: nothing is written below DEBUG,
    one line to the log file from DEBUG on, and from WARNING on the same
    line to the terminal first; the line is the time, the name of the level
    and the message as it was logged, never in colour, CRITICAL included. *)
Theorem logger_routes_by_level (record : LogRecord) :
  levelno record <> 40 ->
  let plain := (asctime record ++ " - " ++ getLevelName (levelno record) ++ " - "
                  ++ msg record) ++ String "010" "" in
  (levelno record < 10 -> Logger_log logger record = []) /\
  (10 <= levelno record < 30 ->
     Logger_log logger record = [(log_file "info_debug.log", plain)]) /\
  (30 <= levelno record ->
     Logger_log logger record = [(stderr, plain); (log_file "info_debug.log", plain)]).
Proof.
  intros H40 plain. rewrite Logger_log_logger.
  assert ((levelno record =? 40) = false) as -> by lia. fold plain. cbv zeta.
  split; [|split].
  - intros H. assert ((30 <=? levelno record) = false) as -> by lia.
    assert ((10 <=? levelno record) = false) as -> by lia. reflexivity.
  - intros H. assert ((30 <=? levelno record) = false) as -> by lia.
    assert ((10 <=? levelno record) = true) as -> by lia. reflexivity.
  - intros H. assert ((30 <=? levelno record) = true) as -> by lia.
    assert ((10 <=? levelno record) = true) as -> by lia. reflexivity.
Qed.

(** X2. A record of level ERROR is written in red to the terminal, and the
    log file gets the very same line, escape sequences included:
    [CustomFormatter.format] has rewritten the message of the record by the
    time the file handler formats it. *)
Theorem logger_error_colour_reaches_log_file (record : LogRecord) :
  levelno record = 40 ->
  let coloured := (asctime record ++ " - ERROR - " ++ red_on ++ msg record ++ red_off)
                    ++ String "010" "" in
  Logger_log logger record = [(stderr, coloured); (log_file "info_debug.log", coloured)] /\
  written_to (log_file "info_debug.log") (Logger_log logger record) = [coloured] /\
  snd (handle stream_handler record) = set_msg (red_on ++ msg record ++ red_off) record /\
  coloured <> line record.
Proof.
  intros H40 coloured.
  assert (Logger_log logger record =
          [(stderr, coloured); (log_file "info_debug.log", coloured)]) as E.
  { rewrite Logger_log_logger. cbv zeta. unfold line, set_msg. cbn [levelno msg asctime].
    rewrite H40. reflexivity. }
  split; [exact E|]. split; [rewrite E; reflexivity|]. split.
  - rewrite handle_stream_handler, H40. reflexivity.
  - subst coloured. unfold line. rewrite H40. intros Heq.
    apply (f_equal String.length) in Heq. revert Heq.
    change (getLevelName 40) with "ERROR".
    rewrite !length_append. cbn [String.length red_on red_off]. lia.
Qed.

(** X3. [CustomFormatter.format] changes the record it formats: each call on
    a record of level ERROR wraps the message once more, so that [k] calls
    nest [k] pairs of escape sequences; a record of another level is left
    as it is. *)
Theorem CustomFormatter_format_wraps_each_time (fmt : string) (record : LogRecord) (k : nat) :
  format_times k fmt record =
    if levelno record =? 40 then set_msg (nest k (msg record)) record else record.
Proof.
  revert record. induction k as [|k IH]; intros record.
  - cbn [format_times nest]. destruct record; destruct (_ =? _); reflexivity.
  - cbn [format_times nest]. rewrite IH. unfold CustomFormatter_format.
    change (levelno_of ERROR) with 40.
    destruct (levelno record =? 40) eqn:E; cbn [snd levelno set_msg msg].
    + rewrite E. reflexivity.
    + rewrite E. reflexivity.
Qed.

(** ** The records of a run *)

Section LogOutput.

Variable str_float : Py.float -> string.
Variable clock : nat -> string.

Lemma written_to_app (s : stream) (a b : list (stream * string)) :
  written_to s (a ++ b) = (written_to s a ++ written_to s b)%list.
Proof. apply omap_app. Qed.

Lemma loud_app (a b : list event) : loud (a ++ b) = (loud a ++ loud b)%list.
Proof. apply omap_app. Qed.

Lemma log_output_step (n : nat) (lvl : level) (ps : list piece) (evs : list event) :
  log_output str_float clock n (E_log lvl ps :: evs) =
    (Logger_log logger {| levelno := levelno_of lvl; msg := f_string str_float ps;
                          asctime := clock n |}
     ++ log_output str_float clock (S n) evs)%list.
Proof. reflexivity. Qed.

(** Every log call of the script leaves one line in the log file. *)
Lemma log_file_lines (n : nat) (evs : list event) :
  length (written_to (log_file "info_debug.log") (log_output str_float clock n evs)) =
    length (log_calls evs).
Proof.
  revert n. induction evs as [|e evs IH]; intros n; [reflexivity|].
  destruct e as [?|lvl ps|?|? ? ? ?|?|? ? ?|? ? ? ? ?|? ? ? ?|?|? ? ?|?];
    try (change (log_output str_float clock n (_ :: evs))
           with (log_output str_float clock n evs); exact (IH n)).
  rewrite log_output_step, written_to_app, length_app, IH, Logger_log_logger.
  change (log_calls (E_log lvl ps :: evs)) with ((lvl, ps) :: log_calls evs).
  destruct lvl; reflexivity.
Qed.

(** The lines on the terminal are those of the calls at WARNING or
    above, in order. *)
Lemma stderr_lines (n : nat) (evs : list event) :
  Forall2 (fun l r => exists t,
             let record := {| levelno := levelno_of (fst r);
                              msg := f_string str_float (snd r); asctime := t |} in
             l = line (if levelno record =? 40
                       then set_msg (red (msg record)) record else record))
          (written_to stderr (log_output str_float clock n evs)) (loud evs).
Proof.
  revert n. induction evs as [|e evs IH]; intros n; [constructor|].
  destruct e as [?|lvl ps|?|? ? ? ?|?|? ? ?|? ? ? ? ?|? ? ? ?|?|? ? ?|?];
    try (change (log_output str_float clock n (_ :: evs))
           with (log_output str_float clock n evs); exact (IH n)).
  rewrite log_output_step, written_to_app, Logger_log_logger.
  destruct lvl.
  - exact (IH (S n)).
  - exact (IH (S n)).
  - change (loud (E_log WARNING ps :: evs)) with ((WARNING, ps) :: loud evs).
    constructor; [|exact (IH (S n))]. exists (clock n). reflexivity.
  - change (loud (E_log ERROR ps :: evs)) with ((ERROR, ps) :: loud evs).
    constructor; [|exact (IH (S n))]. exists (clock n). reflexivity.
Qed.

End LogOutput.

End LoggingFacts.

(* ===================================================================== *)
(** * More on the loader *)
(* ===================================================================== *)

Section LoaderTwice.

Variable fw : framework.

(** X4. Two calls of [load_model] in a row with the same path, both
    returning: when the file is read they give two different new objects
    with the same layers and the same parameters, and each call prints the
    summary of its object; when the load falls back they give the same
    object both times, the module's [new_model]: each of the two calls logs
    the error record of the handler and prints the summary of [new_model],
    no object is created, and the model files, the checkpoints and the
    parameters of the objects stay as they were. *)
Theorem load_model_fallback_is_one_object
    (path : string) (w : world) (m1 m2 : model) :
  (1 < next_id w)%positive ->
  let o1 := load_model fw path w in
  let o2 := load_model fw path (after o1) in
  res o1 = Ok m1 ->
  res o2 = Ok m2 ->
  ((exists layers w0, deserialize fw path (files w !! path) = inr (layers, w0)) /\
   m_id m1 <> m_id m2 /\ m_id m1 <> m_id new_model /\ m_id m2 <> m_id new_model /\
   m_layers m1 = m_layers m2 /\
   weights_of (after o2) m1 = weights_of (after o2) m2 /\
   events o1 = [E_deserialize path; E_summary m1] /\
   events o2 = [E_deserialize path; E_summary m2]) \/
  (exists e, deserialize fw path (files w !! path) = inl e /\
     Py.exn_cls e = Py.FileNotFoundError /\
     m1 = new_model /\ m2 = new_model /\
     events o1 = [E_deserialize path; load_error (Py.exn_msg e); E_summary new_model] /\
     events o2 = events o1 /\
     log_calls (events o1 ++ events o2) =
       [(ERROR, [Lit "Error loading model: "; Lit (Py.exn_msg e)]);
        (ERROR, [Lit "Error loading model: "; Lit (Py.exn_msg e)])] /\
     files (after o2) = files w /\ params (after o2) = params w /\
     next_id (after o2) = next_id w).
Proof.
  intros H1. cbv zeta.
  destruct (load_model_cases fw path w)
    as [(l & w0 & Hde & E)|[(e & Hde & Hc & E)|(e & Hde & Hc & E)]];
    rewrite E; cbn [res after]; [| |discriminate].
  - intros [= <-].
    assert (deserialize fw path
              (files (set_params <[next_id w := w0]> (bump_id w)) !! path) = inr (l, w0))
      as Hde' by exact Hde.
    rewrite (load_model_loaded fw _ _ _ _ Hde'). cbn [res after].
    intros [= <-]. left. split; [eauto|].
    cbn [m_id m_layers new_model set_params bump_id next_id events].
    split; [lia|]. split; [lia|]. split; [lia|]. split; [reflexivity|].
    split; [|split; reflexivity].
    unfold weights_of. cbn [params m_id set_params bump_id next_id].
    rewrite lookup_insert_ne by lia. now rewrite !lookup_insert_eq.
  - intros [= <-]. rewrite (load_model_caught fw _ _ _ Hde Hc). cbn [res after events].
    intros [= <-]. right. exists e. repeat split; assumption || reflexivity.
Qed.

End LoaderTwice.

(* ===================================================================== *)
(** * More on the evaluator *)
(* ===================================================================== *)

Section EvaluatorRounds.

Variable fw : framework.

Lemma fold_blend_float (l : list Py.float) (x : Py.float) :
  exists y, fold_left blend l (Py.Float x) = Py.Float y.
Proof.
  revert x. induction l as [|a l IH]; intros x; [eauto|].
  cbn [fold_left]. unfold blend at 2, Py.truediv. apply IH.
Qed.

(** The outcome of a run of [test_model] that returns. *)
Lemma test_model_returned path times w avg :
  res (test_model fw path times w) = Ok avg ->
  exists m w1 e1,
    load_model fw path w = {| res := Ok m; after := w1; events := e1 |} /\
    let d := requested fw w1 256 false in
    let wt := weights_of w1 m in
    let rs := evaluations fw m wt d (S (draws w1)) (Z.to_nat times) in
    avg = fold_left blend (map snd rs) (Py.Int 0) /\
    events (test_model fw path times w) =
      (e1 ++ [compiled m; E_log DEBUG [Lit "Model compiled"]; E_dataset d]
          ++ map (E_evaluate m wt d) rs ++
             [E_print [Lit "Average accuracy: "; Num avg];
              E_log INFO [Num (Py.Int times); Lit " tested; average accuracy: "; Num avg]])%list /\
    after (test_model fw path times w) = Nat.iter (Z.to_nat times) bump_draws (bump_draws w1).
Proof.
  rewrite test_model_run.
  destruct (load_model fw path w) as [[m|e] w1 e1]; cbv beta iota zeta delta [res after events];
    [|discriminate].
  destruct (bool_decide _); cbv beta iota zeta delta [res after events]; [|discriminate].
  intros [= <-]. exists m, w1, e1. repeat split; reflexivity.
Qed.

(** X5. The value [test_model] returns is an [int] only when it evaluates
    nothing: for [times] zero or negative it is the integer 0 it started
    from, printed as such, and no evaluation is made; for a positive
    [times] it is a float. *)
Theorem test_model_returns_int_without_rounds
    (path : string) (times : Z) (w : world) (avg : Py.num) :
  res (test_model fw path times w) = Ok avg ->
  (times <= 0 ->
     avg = Py.Int 0 /\
     accuracies (events (test_model fw path times w)) = [] /\
     In (E_print [Lit "Average accuracy: "; Num (Py.Int 0)])
        (events (test_model fw path times w))) /\
  (0 < times -> exists x, avg = Py.Float x).
Proof.
  intros Hres.
  pose proof (load_model_no_evaluation fw path w) as Hnone.
  destruct (test_model_returned _ _ _ _ Hres) as (m & w1 & e1 & El & Havg & Hev & _).
  rewrite El in Hnone. cbv [events] in Hnone.
  split.
  - intros Ht. assert (Z.to_nat times = 0%nat) as E0 by lia.
    rewrite E0 in Havg, Hev. cbn [evaluations map fold_left] in Havg, Hev.
    subst avg. split; [reflexivity|]. rewrite Hev. split.
    + rewrite !accuracies_app, Hnone. reflexivity.
    + rewrite !in_app_iff. right. right. right. left. reflexivity.
  - intros Ht. destruct (Z.to_nat times) as [|k] eqn:Ek; [lia|].
    cbn [evaluations map fold_left] in Havg. rewrite Havg.
    unfold blend at 2, Py.truediv. apply fold_blend_float.
Qed.

Lemma evaluations_constant (acc : Py.float) m wt d n k :
  (forall layers wt d n, snd (eval_metrics fw layers wt d n) = acc) ->
  map snd (evaluations fw m wt d n k) = repeat acc k.
Proof.
  intros H. revert n. induction k as [|k IH]; intros n; [reflexivity|].
  cbn [evaluations map repeat]. now rewrite H, IH.
Qed.

(** The blend of [k] accuracies 1 from the integer 0, for the [k] where the
    sum is still exact, and the step that reaches 1. *)
Lemma blend_ones_exact (k : nat) :
  (1 <= k <= 53)%nat ->
  fold_left blend (repeat (Py.B64 1 0) k) (Py.Int 0) =
    Py.Float (Py.B64 (2 ^ Z.of_nat k - 1) (- Z.of_nat k)).
Proof.
  intros Hk.
  do 54 (destruct k as [|k]; [first [lia | vm_compute; reflexivity]|]).
  lia.
Qed.

Lemma blend_ones_stays (k : nat) :
  fold_left blend (repeat (Py.B64 1 0) k) (Py.Float (Py.B64 1 0)) = Py.Float (Py.B64 1 0).
Proof.
  induction k as [|k IH]; [reflexivity|].
  cbn [repeat fold_left].
  change (blend (Py.Float (Py.B64 1 0)) (Py.B64 1 0)) with (Py.Float (Py.B64 1 0)).
  exact IH.
Qed.

Lemma blend_ones_rounded (k : nat) :
  (54 <= k)%nat ->
  fold_left blend (repeat (Py.B64 1 0) k) (Py.Int 0) = Py.Float (Py.B64 1 0).
Proof.
  intros Hk. replace k with (54 + (k - 54))%nat by lia.
  rewrite repeat_app, fold_left_app.
  assert (fold_left blend (repeat (Py.B64 1 0) 54) (Py.Int 0) = Py.Float (Py.B64 1 0)) as ->
    by (vm_compute; reflexivity).
  apply blend_ones_stays.
Qed.

(** X6. A model that scores the accuracy 1 in every evaluation is reported
    below 1: after [times] evaluations, up to 53, [test_model] returns
    exactly [1 - 2^-times], which is 1023/1024 for the default of 10; only
    from 54 evaluations on does rounding give 1. *)
Theorem test_model_perfect_accuracy_reported_below_one
    (path : string) (times : Z) (w : world) (avg : Py.num) :
  (forall layers wt d n, snd (eval_metrics fw layers wt d n) = Py.B64 1 0) ->
  res (test_model fw path times w) = Ok avg ->
  (1 <= times <= 53 ->
     avg = Py.Float (Py.B64 (2 ^ times - 1) (- times)) /\
     Py.flt (Py.B64 (2 ^ times - 1) (- times)) (Py.B64 1 0) = true) /\
  (times = default_times -> avg = Py.Float (Py.B64 1023 (-10))) /\
  (54 <= times -> avg = Py.Float (Py.B64 1 0)).
Proof.
  intros Hone Hres.
  destruct (test_model_returned _ _ _ _ Hres) as (m & w1 & e1 & _ & Havg & _).
  cbv zeta in Havg. rewrite (evaluations_constant _ _ _ _ _ _ Hone) in Havg.
  assert (1 <= times <= 53 -> avg = Py.Float (Py.B64 (2 ^ times - 1) (- times))) as Hexact.
  { intros Ht. rewrite Havg, blend_ones_exact by lia. now rewrite Z2Nat.id by lia. }
  split; [|split].
  - intros Ht. split; [now apply Hexact|].
    assert (exists k, (1 <= k <= 53)%nat /\ times = Z.of_nat k) as (k & Hk & ->)
      by (exists (Z.to_nat times); lia).
    clear -Hk.
    do 54 (destruct k as [|k]; [first [lia | vm_compute; reflexivity]|]).
    lia.
  - intros ->. apply Hexact. unfold default_times. lia.
  - intros Ht. rewrite Havg. apply blend_ones_rounded. lia.
Qed.

(** X7. All the evaluations of a run of [test_model] are of one model object,
    with the same parameters, on one dataset: the validation directory at
    batch size 256, built once, whatever the batch size of the training. *)
Theorem test_model_evaluates_one_dataset
    (path : string) (times : Z) (w : world)
    (m : model) (wt : weights) (d : dataset) (r : Py.float * Py.float) :
  In (E_evaluate m wt d r) (events (test_model fw path times w)) ->
  ds_directory d = "./dataset-resized/val" /\
  ds_batch_size d = 256 /\
  ds_image_size d = (256, 256) /\
  res (load_model fw path w) = Ok m /\
  (forall m' wt' d' r',
     In (E_evaluate m' wt' d' r') (events (test_model fw path times w)) ->
     m' = m /\ wt' = wt /\ d' = d) /\
  (forall d', In (E_dataset d') (events (test_model fw path times w)) -> d' = d).
Proof.
  intros Hin.
  destruct (test_model_evaluated fw path times w m wt d r Hin) as (_ & (avg & Hres) & _).
  destruct (test_model_returned _ _ _ _ Hres) as (m0 & w1 & e1 & El & _ & Hev & _).
  pose proof (load_model_kinds fw path w) as Hk. rewrite El in Hk |- *. cbv [events] in Hk.
  cbv zeta in Hev. rewrite Hev in *. clear Hev Hres.
  set (d0 := requested fw w1 256 false) in *.
  set (wt0 := weights_of w1 m0) in *.
  set (rs := evaluations fw m0 wt0 d0 (S (draws w1)) (Z.to_nat times)) in *.
  assert (forall m' wt' d' r',
            In (E_evaluate m' wt' d' r')
               (e1 ++ [compiled m0; E_log DEBUG [Lit "Model compiled"]; E_dataset d0]
                   ++ map (E_evaluate m0 wt0 d0) rs ++
                      [E_print [Lit "Average accuracy: "; Num avg];
                       E_log INFO [Num (Py.Int times); Lit " tested; average accuracy: ";
                                   Num avg]]) ->
            m' = m0 /\ wt' = wt0 /\ d' = d0) as Hall.
  { intros m' wt' d' r' H. rewrite !in_app_iff in H. destruct H as [H|[H|[H|H]]].
    - apply (only_In _ _ _ Hk) in H. kind_clash H.
    - cbv [In] in H. repeat (destruct H as [H|H]; [discriminate H|]). contradiction.
    - apply in_map_iff in H as (x & Hx & _). injection Hx as -> -> -> _. repeat split.
    - cbv [In] in H. repeat (destruct H as [H|H]; [discriminate H|]). contradiction. }
  destruct (Hall _ _ _ _ Hin) as (-> & -> & ->).
  split; [reflexivity|]. split; [reflexivity|]. split; [reflexivity|].
  split; [reflexivity|]. split; [exact Hall|].
  intros d' H. rewrite !in_app_iff in H. destruct H as [H|[H|[H|H]]].
  - apply (only_In _ _ _ Hk) in H. kind_clash H.
  - cbv [In] in H. repeat (destruct H as [H|H]; [try discriminate H|]); [|contradiction].
    now injection H.
  - apply in_map_iff in H as (x & Hx & _). discriminate Hx.
  - cbv [In] in H. repeat (destruct H as [H|H]; [discriminate H|]). contradiction.
Qed.

End EvaluatorRounds.

(* ===================================================================== *)
(** * The plots *)
(* ===================================================================== *)

(** [plot_history] on a history whose four lists have the same length. *)
Lemma plot_history_run (h : history) (w : world) :
  length (h_val_accuracy h) = length (h_accuracy h) ->
  length (h_loss h) = length (h_accuracy h) ->
  length (h_val_loss h) = length (h_accuracy h) ->
  plot_history h w = {| res := Ok tt; after := w; events := curves h |}.
Proof.
  intros Hva Hl Hvl. unfold plot_history, plt_plot_call, curves.
  rewrite range_length, Nat2Z.id, Hva, Hl, Hvl.
  rewrite bool_decide_eq_true_2 by reflexivity.
  reflexivity.
Qed.

Lemma plot_history_after (h : history) (w : world) : after (plot_history h w) = w.
Proof.
  unfold plot_history, plt_plot_call. rewrite range_length, Nat2Z.id.
  rewrite (bool_decide_eq_true_2 (length (h_accuracy h) = length (h_accuracy h))) by reflexivity.
  repeat (destruct (bool_decide _); [|reflexivity]). reflexivity.
Qed.

Lemma plot_history_kinds (h : history) (w : world) : only [K_plt] (events (plot_history h w)).
Proof.
  unfold plot_history, plt_plot_call. rewrite range_length, Nat2Z.id.
  rewrite (bool_decide_eq_true_2 (length (h_accuracy h) = length (h_accuracy h))) by reflexivity.
  repeat (destruct (bool_decide _); [|run_monad; kinds]). run_monad. kinds.
Qed.

(** X8. [plot_history] takes the epochs from the accuracies alone: it shows
    the figure exactly when the three other lists of the history are as
    long as that one, and raises ValueError at the first curve of another
    length, before [show]; then the figure is left with the curves drawn so
    far. *)
Theorem plot_history_needs_equal_lengths (h : history) (w : world) :
  let n := length (h_accuracy h) in
  let o := plot_history h w in
  (res o = Ok tt <->
     length (h_val_accuracy h) = n /\ length (h_loss h) = n /\ length (h_val_loss h) = n) /\
  (res o = Ok tt <-> In (E_plt plt_show) (events o)) /\
  (res o = Ok tt -> events o = curves h) /\
  (res o <> Ok tt -> exists msg,
     res o = Raise {| Py.exn_cls := Py.ValueError; Py.exn_msg := msg |}) /\
  (length (h_val_accuracy h) <> n ->
     events o = [E_plt (plt_figure (8, 8)); E_plt (plt_subplot 1 2 1);
                 E_plt (plt_plot (Py.range (Z.of_nat n)) (h_accuracy h) "Training Accuracy")]).
Proof.
  cbv zeta.
  destruct (decide (length (h_val_accuracy h) = length (h_accuracy h))) as [Hva|Hva];
  [destruct (decide (length (h_loss h) = length (h_accuracy h))) as [Hl|Hl];
   [destruct (decide (length (h_val_loss h) = length (h_accuracy h))) as [Hvl|Hvl]|]|].
  - rewrite (plot_history_run h w Hva Hl Hvl). cbv [res events].
    split; [tauto|]. split; [|split; [reflexivity|split; [congruence|tauto]]].
    split; [intros _|reflexivity]. unfold curves. cbv [In]. tauto.
  - unfold plot_history, plt_plot_call. rewrite range_length, Nat2Z.id, Hva, Hl.
    rewrite (bool_decide_eq_true_2 (length (h_accuracy h) = length (h_accuracy h))) by reflexivity.
    rewrite (bool_decide_eq_false_2 (length (h_accuracy h) = length (h_val_loss h)))
      by congruence.
    run_monad.
    split; [split; [discriminate|tauto]|]. split; [|split; [discriminate|split; [eauto|tauto]]].
    split; [discriminate|]. cbv [In]. intros H.
    repeat (destruct H as [H|H]; [discriminate H|]). contradiction.
  - unfold plot_history, plt_plot_call. rewrite range_length, Nat2Z.id, Hva.
    rewrite (bool_decide_eq_true_2 (length (h_accuracy h) = length (h_accuracy h))) by reflexivity.
    rewrite (bool_decide_eq_false_2 (length (h_accuracy h) = length (h_loss h)))
      by congruence.
    run_monad.
    split; [split; [discriminate|tauto]|]. split; [|split; [discriminate|split; [eauto|tauto]]].
    split; [discriminate|]. cbv [In]. intros H.
    repeat (destruct H as [H|H]; [discriminate H|]). contradiction.
  - unfold plot_history, plt_plot_call. rewrite range_length, Nat2Z.id.
    rewrite (bool_decide_eq_true_2 (length (h_accuracy h) = length (h_accuracy h))) by reflexivity.
    rewrite (bool_decide_eq_false_2 (length (h_accuracy h) = length (h_val_accuracy h)))
      by congruence.
    run_monad.
    split; [split; [discriminate|tauto]|]. split; [|split; [discriminate|split; [eauto|]]].
    + split; [discriminate|]. cbv [In]. intros H.
      repeat (destruct H as [H|H]; [discriminate H|]). contradiction.
    + intros _. reflexivity.
Qed.

(* ===================================================================== *)
(** * The fit loop *)
(* ===================================================================== *)

Section Fit.

Variable fw : framework.

Lemma checkpoint_step m epoch tr va l w :
  cb l = cp_callback ->
  on_epoch_end m epoch tr va l w =
    {| res := Ok (l, false);
       after := set_files <[cp (Z.of_nat epoch + 1) := F_weights (weights_of w m)]> w;
       events := [E_save_weights m (cp (Z.of_nat epoch + 1)) (weights_of w m)] |}.
Proof. intros H. unfold on_epoch_end, cp. rewrite H. reflexivity. Qed.

Lemma early_stopping_step m epoch tr va l w :
  cb l = early_stopping ->
  exists l' stop w',
    on_epoch_end m epoch tr va l w =
      {| res := Ok (l', stop); after := w'; events := [] |} /\
    cb l' = early_stopping /\
    (w' = w \/ exists bw, w' = set_params <[m_id m := bw]> w).
Proof.
  intros H. unfold on_epoch_end. rewrite H. unfold early_stopping.
  run_monad.
  destruct (is_improvement Min _ _).
  - eexists _, _, _. split; [reflexivity|]. split; [reflexivity|left; reflexivity].
  - destruct (bool_decide _ && bool_decide _).
    + eexists _, _, _. split; [reflexivity|].
      split; [reflexivity|right; eexists; reflexivity].
    + eexists _, _, _. split; [reflexivity|]. split; [reflexivity|left; reflexivity].
Qed.

(** The end of an epoch under the two callbacks of [train_model]: early
    stopping may restore parameters of the model, then the checkpoint is
    written. *)
Lemma run_callbacks_run m epoch tr va es cpl w :
  cb es = early_stopping -> cb cpl = cp_callback ->
  exists es' stop w',
    run_callbacks m epoch tr va [es; cpl] w =
      {| res := Ok ([es'; cpl], stop);
         after := set_files <[cp (Z.of_nat epoch + 1) := F_weights (weights_of w' m)]> w';
         events := [E_save_weights m (cp (Z.of_nat epoch + 1)) (weights_of w' m)] |} /\
    cb es' = early_stopping /\
    (w' = w \/ exists bw, w' = set_params <[m_id m := bw]> w).
Proof.
  intros Hes Hcp.
  destruct (early_stopping_step m epoch tr va es w Hes) as (es' & stop & w' & E & Hes' & Hw).
  exists es', stop, w'. split; [|split; assumption].
  cbn [run_callbacks]. run_monad. rewrite E. run_monad.
  rewrite (checkpoint_step _ _ _ _ _ _ Hcp). run_monad.
  rewrite orb_false_r. reflexivity.
Qed.

Lemma fit_loop_run m train val remaining : forall epoch es cpl h w,
  cb es = early_stopping -> cb cpl = cp_callback ->
  fit_outcome m remaining epoch h w (fit_loop fw m train val remaining epoch [es; cpl] h w).
Proof.
  induction remaining as [|r IH]; intros epoch es cpl h w Hes Hcp.
  - exists 0%nat, [], h, w. cbn [fit_loop]. run_monad.
    rewrite !Nat.add_0_r. repeat split; auto.
  - cbn [fit_loop]. run_monad.
    set (wa := set_params _ (bump_draws w)).
    set (mt := epoch_metrics fw _ _ _ _ _).
    destruct (run_callbacks_run m epoch (fst mt) (snd mt) es cpl wa Hes Hcp)
      as (es' & stop & w' & E & Hes' & Hw).
    rewrite E. run_monad.
    set (wb := set_files _ w').
    assert (files wb = <[cp (Z.of_nat epoch + 1) := F_weights (weights_of w' m)]> (files w) /\
            image_dirs wb = image_dirs w /\ next_id wb = next_id w /\
            (forall i, i <> m_id m -> params wb !! i = params w !! i)) as (Hf & Hd & Hn & Hp).
    { subst wb wa. destruct Hw as [->|[bw ->]]; cbn; repeat split; try reflexivity;
        intros i Hi; rewrite ?lookup_insert_ne by congruence; reflexivity. }
    destruct stop.
    + exists 1%nat, [(Z.of_nat epoch + 1, weights_of w' m)],
        (record_epoch h (fst mt) (snd mt)), wb.
      cbn [record_epoch h_accuracy h_val_accuracy h_loss h_val_loss].
      rewrite !length_app. cbn [length].
      repeat split; auto; try lia.
    + destruct (IH (S epoch) es' cpl (record_epoch h (fst mt) (snd mt)) wb Hes' Hcp)
        as (k & saved & h' & w2 & E2 & Hk & Hsaved & Ha & Hva & Hl & Hvl & Hfs & Hd' & Hn' & Hp').
      exists (S k), ((Z.of_nat epoch + 1, weights_of w' m) :: saved), h', w2.
      rewrite E2. run_monad.
      cbn [record_epoch h_accuracy h_val_accuracy h_loss h_val_loss] in *.
      rewrite !length_app in *. cbn [length] in *.
      rewrite Hfs, Hd', Hn', Hf.
      repeat split; auto; try lia.
      * cbn. now rewrite Hsaved.
      * intros i Hi. now rewrite Hp', Hp.
Qed.

(** A fit loop that has an epoch to run completes at least one. *)
Lemma fit_loop_first_epoch m train val remaining epoch es cpl h w h' :
  cb es = early_stopping -> cb cpl = cp_callback ->
  res (fit_loop fw m train val (S remaining) epoch [es; cpl] h w) = Ok h' ->
  (length (h_accuracy h) < length (h_accuracy h'))%nat.
Proof.
  intros Hes Hcp. cbn [fit_loop]. run_monad.
  set (wa := set_params _ (bump_draws w)).
  set (mt := epoch_metrics fw _ _ _ _ _).
  destruct (run_callbacks_run m epoch (fst mt) (snd mt) es cpl wa Hes Hcp)
    as (es' & stop & w' & E & Hes' & Hw).
  rewrite E. run_monad.
  set (wb := set_files _ w').
  destruct stop.
  - intros [= <-]. cbn [record_epoch h_accuracy]. rewrite length_app. cbn [length]. lia.
  - destruct (fit_loop_run m train val remaining (S epoch) es' cpl
                (record_epoch h (fst mt) (snd mt)) wb Hes' Hcp)
      as (k & saved & h2 & w2 & E2 & _ & _ & Ha & _).
    rewrite E2. run_monad. intros [= <-]. rewrite Ha.
    cbn [record_epoch h_accuracy]. rewrite length_app. cbn [length]. lia.
Qed.

End Fit.

(* ===================================================================== *)
(** * The trainer *)
(* ===================================================================== *)

Section Trainer.

Variable fw : framework.

(** [train_model], stage by stage: the load, the two datasets, the
    checkpoint of epoch 0, the fit loop, the evaluator when asked for, and
    the save. *)
Lemma train_model_run path epochs batch test w :
  let o0 := load_model fw path w in
  train_model fw path epochs batch test w =
  match res o0 with
  | Raise e => {| res := Raise e; after := after o0; events := events o0 |}
  | Ok model =>
      let w1 := after o0 in
      let d := requested fw w1 batch true in
      let v := requested fw (bump_draws w1) batch true in
      if bool_decide ("./dataset-resized/" ∈ image_dirs w1) then
        let w2 := bump_draws (bump_draws w1) in
        let wt0 := weights_of w2 model in
        let o1 := fit_loop fw model d v (Z.to_nat epochs) 0
                    [on_train_begin early_stopping; on_train_begin cp_callback]
                    empty_history (set_files <[cp 0 := F_weights wt0]> w2) in
        let pre := preparation model d v epochs wt0 in
        match res o1 with
        | Raise e =>
            {| res := Raise e; after := after o1;
               events := events o0 ++ pre ++ events o1 |}
        | Ok h =>
            let o2 := if test then test_model fw path default_times (after o1)
                      else ret (Py.Int 0) (after o1) in
            match res o2 with
            | Raise e =>
                {| res := Raise e; after := after o2;
                   events := events o0 ++ pre ++ events o1 ++ events o2 |}
            | Ok _ =>
                let wt := weights_of (after o2) model in
                {| res := Ok h;
                   after := set_files <[saved_path path := F_model (m_layers model) wt]>
                              (after o2);
                   events := events o0 ++ pre ++ events o1 ++ events o2 ++
                             conclusion model path wt |}
            end
        end
      else
        {| res := Raise (missing_directory "./dataset-resized/");
           after := bump_draws w1;
           events := events o0 ++ [compiled model; E_log DEBUG [Lit "Model compiled"];
                                   E_dataset d] |}
  end.
Proof.
  unfold train_model, model_fit, conclusion, preparation, empty_history,
    compiled, missing_directory. unfold cp, saved_path.
  change (map on_train_begin [early_stopping; cp_callback])
    with [on_train_begin early_stopping; on_train_begin cp_callback].
  run_monad.
  destruct (load_model fw path w) as [[model|e] w1 e1]; [|reflexivity].
  run_monad. rewrite !generate_dataset_run. run_monad.
  cbn [requested ds_directory image_dirs bump_draws].
  destruct (bool_decide _); [|reflexivity].
  run_monad.
  set (o1 := fit_loop _ _ _ _ _ _ _ _ _).
  clearbody o1. destruct o1 as [[h1|e] w4 e4].
  2: { run_monad. reflexivity. }
  run_monad. destruct test.
  - destruct (test_model fw path default_times w4) as [[avg|e] w5 e5].
    + run_monad. rewrite app_nil_r. reflexivity.
    + run_monad. reflexivity.
  - run_monad. reflexivity.
Qed.


(** Case analysis of a run of [train_model] in the goal: the load, the
    directory, the fit loop, the evaluator. *)
Ltac train_stages fw path w :=
  rewrite train_model_run;
  pose proof (load_model_kinds fw path w) as Hload;
  pose proof (load_model_frame fw path w) as (Hfiles0 & Hdirs0 & Hnext0);
  destruct (load_model fw path w) as [[mdl|e0] w1 e1] eqn:Eload;
  cbv beta iota zeta delta [res after events] in *;
  [ destruct (bool_decide ("./dataset-resized/" ∈ image_dirs w1)) eqn:Edir;
    [ lazymatch goal with
      | |- context [fit_loop fw ?m ?d ?v ?n 0%nat [?es; ?cpl] ?h ?w3] =>
          destruct (fit_loop_run fw m d v n 0%nat es cpl h w3 eq_refl eq_refl)
            as (k & saved & h' & w4 & Efit & Hk & Hsaved & Hla & Hlva & Hll & Hlvl
                & Hfiles & Hdirs & Hnext & Hparams);
          rewrite Efit; cbv beta iota zeta delta [res after events]
      end
    | ]
  | ].

(** The same for the evaluator, asked for or not, in the goal. *)
Ltac train_tail fw path :=
  lazymatch goal with
  | |- context [if ?t then test_model fw path default_times ?w4
                else ret (Py.Int 0) ?w4] =>
      assert (only evaluator_kinds
                (events (if t then test_model fw path default_times w4
                         else ret (Py.Int 0) w4)) /\
              files (after (if t then test_model fw path default_times w4
                            else ret (Py.Int 0) w4)) = files w4) as (Htest & Hfiles5)
        by (destruct t;
            [split; [apply test_model_kinds|apply test_model_frame]
            |split; [constructor|reflexivity]]);
      destruct (if t then test_model fw path default_times w4 else ret (Py.Int 0) w4)
        as [[avg|e2] w5 e5];
      cbv beta iota zeta delta [res after events] in *
  end.

Lemma in_app_or5 {A} (x : A) (a b c d e : list A) :
  In x (a ++ b ++ c ++ d ++ e) -> In x a \/ In x b \/ In x c \/ In x d \/ In x e.
Proof. rewrite !in_app_iff. tauto. Qed.

(** The one [fit] of a run of [train_model], and its two datasets. *)
Lemma train_model_fit_event path epochs batch test w m d v e cbs :
  In (E_fit m d v e cbs) (events (train_model fw path epochs batch test w)) ->
  exists w1,
    d = requested fw w1 batch true /\
    v = requested fw (bump_draws w1) batch true /\
    In (E_dataset d) (events (train_model fw path epochs batch test w)) /\
    In (E_dataset v) (events (train_model fw path epochs batch test w)).
Proof.
  train_stages fw path w.
  - assert (forall o2 : outcome Py.num,
              only evaluator_kinds (events o2) ->
              forall tl,
              (forall x, In x tl -> kind_of x ∈ [K_save; K_log]) ->
              In (E_fit m d v e cbs)
                 (e1 ++ preparation mdl (requested fw w1 batch true)
                          (requested fw (bump_draws w1) batch true) epochs
                          (weights_of (bump_draws (bump_draws w1)) mdl)
                       ++ checkpoint_events mdl saved ++ events o2 ++ tl) ->
              d = requested fw w1 batch true /\
              v = requested fw (bump_draws w1) batch true) as Hmain.
    { intros o2 Ho2 tl Htl Hin.
      apply in_app_or5 in Hin as [Hin|[Hin|[Hin|[Hin|Hin]]]].
      - apply (only_In _ _ _ Hload) in Hin. kind_clash Hin.
      - cbv [preparation In] in Hin.
        repeat (destruct Hin as [Hin|Hin]; [try discriminate Hin|]); [|contradiction].
        injection Hin as <- <- <- <- <-. split; reflexivity.
      - apply (only_In _ _ _ (checkpoint_events_kinds mdl saved)) in Hin. kind_clash Hin.
      - apply (only_In _ _ _ Ho2) in Hin. kind_clash Hin.
      - apply Htl in Hin. kind_clash Hin. }
    assert (forall x, In x (conclusion mdl path (weights_of w4 mdl)) ->
                      kind_of x ∈ [K_save; K_log]) as Hconcl.
    { intros x Hx. cbv [conclusion In] in Hx. destruct Hx as [<-|[<-|[]]]; kinds. }
    destruct test.
    + pose proof (test_model_kinds fw path default_times w4) as Ht.
      destruct (test_model fw path default_times w4) as [[avg|e2] w5 e5];
        cbv beta iota zeta delta [res after events] in *.
      * intros Hin.
        destruct (Hmain {| res := Ok avg; after := w5; events := e5 |} Ht
                    (conclusion mdl path (weights_of w5 mdl))) as [-> ->]; [|exact Hin|].
        { intros x Hx. cbv [conclusion In] in Hx. destruct Hx as [<-|[<-|[]]]; kinds. }
        exists w1. repeat split; rewrite !in_app_iff; cbv [preparation In]; tauto.
      * intros Hin.
        destruct (Hmain {| res := Raise e2; after := w5; events := e5 |} Ht [])
          as [-> ->]; [intros x []|now rewrite app_nil_r|].
        exists w1. repeat split; rewrite !in_app_iff; cbv [preparation In]; tauto.
    + cbv beta iota zeta delta [ret res after events]. intros Hin.
      destruct (Hmain {| res := Ok (Py.Int 0); after := w4; events := [] |}
                  ltac:(constructor) _ Hconcl Hin) as [-> ->].
      exists w1. repeat split; rewrite !in_app_iff; cbv [preparation In]; tauto.
  - intros Hin. exfalso. apply in_app_or in Hin as [Hin|Hin].
    + apply (only_In _ _ _ Hload) in Hin. kind_clash Hin.
    + cbv [In] in Hin. repeat (destruct Hin as [Hin|Hin]; [discriminate Hin|]). exact Hin.
  - intros Hin. exfalso. apply (only_In _ _ _ Hload) in Hin. kind_clash Hin.
Qed.

(** C3. The two datasets that [train_model] hands to [fit], as training and
    as validation data, come from two calls of [generate_dataset] with the
    same batch size and [training] true: they name the same directory, the
    training root and not its "val" subdirectory, with the same batch and
    image size, and can differ in the seed only. *)
Theorem train_model_datasets_share_source
    (path : string) (epochs batch : Z) (test : bool) (w : world)
    (m : model) (d v : dataset) (e : Z) (cbs : list callback) :
  In (E_fit m d v e cbs) (events (train_model fw path epochs batch test w)) ->
  (exists w1, d = requested fw w1 batch true /\
              v = requested fw (bump_draws w1) batch true) /\
  In (E_dataset d) (events (train_model fw path epochs batch test w)) /\
  In (E_dataset v) (events (train_model fw path epochs batch test w)) /\
  ds_directory d = "./dataset-resized/" /\
  ds_directory v = "./dataset-resized/" /\
  ds_directory v <> "./dataset-resized/val" /\
  ds_batch_size d = batch /\ ds_batch_size v = batch /\
  ds_image_size d = ds_image_size v /\
  v = {| ds_directory := ds_directory d; ds_seed := ds_seed v;
         ds_image_size := ds_image_size d; ds_batch_size := ds_batch_size d |}.
Proof.
  intros Hin. destruct (train_model_fit_event _ _ _ _ _ _ _ _ _ _ Hin)
    as (w1 & Hd & Hv & Hid & Hiv).
  split; [exists w1; split; assumption|]. split; [exact Hid|]. split; [exact Hiv|].
  subst d v. repeat split; try reflexivity. discriminate.
Qed.



(** C9. A run of [train_model] that returns has saved the model once, under
    [model_path] with every occurrence of "h5" replaced by "keras", not the
    extension alone: no "h5" is left in that path, wherever it stood; the
    file is there after the run. *)
Theorem train_model_saves_under_replaced_path
    (path : string) (epochs batch : Z) (test : bool) (w : world) (h : history) :
  res (train_model fw path epochs batch test w) = Ok h ->
  exists m wt,
    saves (events (train_model fw path epochs batch test w)) =
      [(m, Py.replace "h5" "keras" path, wt)] /\
    files (after (train_model fw path epochs batch test w)) !! Py.replace "h5" "keras" path =
      Some (F_model (m_layers m) wt) /\
    replaced_all "h5" "keras" path (Py.replace "h5" "keras" path) /\
    Py.contains "h5" (Py.replace "h5" "keras" path) = false /\
    Py.replace "h5" "keras" "runs_h5/sortbot_h5.h5" = "runs_keras/sortbot_keras.keras".
Proof.
  train_stages fw path w; [|discriminate|discriminate].
  train_tail fw path; [|discriminate].
  intros _. exists mdl, (weights_of w5 mdl).
  split; [|split; [|split; [|split]]].
  - rewrite !saves_app.
    rewrite (saves_only _ _ Hload) by (intros H; kind_clash H).
    rewrite (saves_only _ _ (checkpoint_events_kinds mdl saved)) by (intros H; kind_clash H).
    rewrite (saves_only _ _ Htest) by (intros H; kind_clash H).
    reflexivity.
  - unfold saved_path. cbv [set_files files]. apply lookup_insert_eq.
  - apply replace_replaced_all. discriminate.
  - apply saved_path_no_h5.
  - reflexivity.
Qed.




(** C8 (as amended). In a run of [train_model] with [test] true, every
    evaluation comes before the save of the trained model, and the model
    evaluated is the one [test_model] gets from its own [load_model]: when
    the file is read, a new object with the parameters of the file (the
    file as it was before the run, unless [model_path] is the path of a
    checkpoint), never the in-memory model just fitted; when the load falls
    back, the module's [new_model], and if [train_model] itself fitted
    [new_model] (its own load fell back as well) the parameters evaluated
    are the fitted ones, those that are saved afterwards. *)
Theorem train_model_evaluates_own_load
    (path : string) (epochs batch : Z) (w : world)
    (m_e : model) (w_e : weights) (d_e : dataset) (r : Py.float * Py.float) :
  (1 < next_id w)%positive ->
  In (E_evaluate m_e w_e d_e r) (events (train_model fw path epochs batch true w)) ->
  exists m wt before,
    res (load_model fw path w) = Ok m /\
    events (train_model fw path epochs batch true w) = (before ++ conclusion m path wt)%list /\
    In (E_evaluate m_e w_e d_e r) before /\
    (exists d v, In (E_fit m d v epochs [early_stopping; cp_callback]) before) /\
    saves before = [] /\
    ((m_id m_e <> m_id m /\
      (exists content, deserialize fw path content = inr (m_layers m_e, w_e)) /\
      ((forall n, path <> cp n) ->
       deserialize fw path (files w !! path) = inr (m_layers m_e, w_e))) \/
     (m_e = new_model /\
      (exists content e, deserialize fw path content = inl e /\
                         Py.exn_cls e = Py.FileNotFoundError) /\
      (m = new_model -> w_e = wt))).
Proof.
  intros H1. pose proof (load_model_id fw path w) as Hid.
  train_stages fw path w.
  - pose proof (test_model_evaluated fw path default_times w4 m_e w_e d_e r) as Hev.
    pose proof (test_model_kinds fw path default_times w4) as Htest.
    destruct (test_model fw path default_times w4) as [[avg|e2] w5 e5];
      cbv beta iota zeta delta [res after events] in *.
    + intros Hin. assert (In (E_evaluate m_e w_e d_e r) e5) as Hin5.
      { apply in_app_or5 in Hin as [Hin|[Hin|[Hin|[Hin|Hin]]]].
        - apply (only_In _ _ _ Hload) in Hin. kind_clash Hin.
        - cbv [preparation In] in Hin.
          repeat (destruct Hin as [Hin|Hin]; [discriminate Hin|]). contradiction.
        - apply (only_In _ _ _ (checkpoint_events_kinds mdl saved)) in Hin. kind_clash Hin.
        - exact Hin.
        - cbv [conclusion In] in Hin.
          repeat (destruct Hin as [Hin|Hin]; [discriminate Hin|]). contradiction. }
      destruct (Hev Hin5) as (Hwho & _ & Hkeep).
      destruct (Hid mdl eq_refl H1) as (Hlt & Hmdl).
      assert (next_id w4 = next_id w1) as Hn4 by exact Hnext.
      exists mdl, (weights_of w5 mdl),
        (e1 ++ preparation mdl (requested fw w1 batch true)
                 (requested fw (bump_draws w1) batch true) epochs
                 (weights_of (bump_draws (bump_draws w1)) mdl)
            ++ checkpoint_events mdl saved ++ e5)%list.
      split; [reflexivity|]. split; [now rewrite <- !app_assoc|].
      split; [rewrite !in_app_iff; tauto|].
      split; [exists (requested fw w1 batch true), (requested fw (bump_draws w1) batch true);
              rewrite !in_app_iff; cbv [preparation In]; tauto|].
      split.
      { rewrite !saves_app.
        rewrite (saves_only _ _ Hload) by (intros H; kind_clash H).
        rewrite (saves_only _ _ (checkpoint_events_kinds mdl saved))
          by (intros H; kind_clash H).
        rewrite (saves_only _ _ Htest) by (intros H; kind_clash H).
        reflexivity. }
      destruct Hwho as [(layers & Hde & ->)|(e & Hde & Hc & -> & ->)].
      * left. cbn [m_id m_layers]. split; [lia|]. split; [eexists; exact Hde|].
        intros Hne. rewrite <- Hde. f_equal. rewrite Hfiles.
        change (files w !! path =
                write_checkpoints
                  ((0, weights_of (bump_draws (bump_draws w1)) mdl) :: saved) (files w1)
                !! path).
        rewrite write_checkpoints_other, Hfiles0; [reflexivity|].
        intros Hcp. apply list_elem_of_fmap in Hcp as (n & Hn & _). exact (Hne n Hn).
      * right. split; [reflexivity|]. split; [eexists _, e; split; eassumption|].
        intros ->. symmetry. apply Hkeep. cbv [new_model m_id]. lia.
    + intros Hin. exfalso.
      assert (In (E_evaluate m_e w_e d_e r) e5) as Hin5.
      { rewrite !in_app_iff in Hin. destruct Hin as [Hin|[Hin|[Hin|Hin]]].
        - apply (only_In _ _ _ Hload) in Hin. kind_clash Hin.
        - cbv [preparation In] in Hin.
          repeat (destruct Hin as [Hin|Hin]; [discriminate Hin|]). contradiction.
        - apply (only_In _ _ _ (checkpoint_events_kinds mdl saved)) in Hin. kind_clash Hin.
        - exact Hin. }
      destruct (Hev Hin5) as (_ & (avg & Havg) & _). discriminate Havg.
  - intros Hin. exfalso. apply in_app_or in Hin as [Hin|Hin].
    + apply (only_In _ _ _ Hload) in Hin. kind_clash Hin.
    + cbv [In] in Hin. repeat (destruct Hin as [Hin|Hin]; [discriminate Hin|]). exact Hin.
  - intros Hin. exfalso. apply (only_In _ _ _ Hload) in Hin. kind_clash Hin.
Qed.

(** ** Further properties of the trainer *)

(** Whether [load_model] returns depends on the file under the path
    alone. *)
Lemma load_model_returns_again path w w' m :
  res (load_model fw path w) = Ok m ->
  files w' !! path = files w !! path ->
  exists m', res (load_model fw path w') = Ok m'.
Proof.
  intros Hres Hf.
  destruct (load_model_cases fw path w)
    as [(l & w0 & Hde & E)|[(e & Hde & Hc & E)|(e & Hde & Hc & E)]];
    rewrite E in Hres; cbv [res] in Hres; [| |discriminate].
  - rewrite <- Hf in Hde. rewrite (load_model_loaded fw _ _ _ _ Hde). cbv [res]. eauto.
  - rewrite <- Hf in Hde. rewrite (load_model_caught fw _ _ _ Hde Hc). cbv [res]. eauto.
Qed.

(** The path of a checkpoint is not written by the save at the end, and a
    path that holds "h5" is not the one saved under. *)
Lemma saved_path_changes (path : string) :
  Py.contains "h5" path = true -> saved_path path <> path.
Proof.
  intros H E. pose proof (saved_path_no_h5 path) as Hno. rewrite E in Hno. congruence.
Qed.

Lemma replace_go_absent (old new s : string) :
  Py.contains old s = false -> Py.replace_go old new 0 s = s.
Proof.
  induction s as [|c s IH]; intros H; [reflexivity|].
  cbn [Py.contains] in H. apply orb_false_iff in H as [Hp Hc].
  cbn [Py.replace_go]. rewrite Hp, IH by exact Hc. reflexivity.
Qed.

Lemma saved_path_same (path : string) :
  Py.contains "h5" path = false -> saved_path path = path.
Proof. intros H. unfold saved_path, Py.replace. now apply replace_go_absent. Qed.

(** The file under a path that is no checkpoint path and is not saved
    under. *)
Lemma train_model_keeps_file path epochs batch test w p :
  (forall n, p <> cp n) -> p <> saved_path path ->
  files (after (train_model fw path epochs batch test w)) !! p = files w !! p.
Proof.
  intros Hcp Hsaved_p.
  train_stages fw path w.
  - assert (files w4 !! p = files w !! p) as H4.
    { rewrite Hfiles.
      change (write_checkpoints
                ((0, weights_of (bump_draws (bump_draws w1)) mdl) :: saved) (files w1) !! p
              = files w !! p).
      rewrite write_checkpoints_other, Hfiles0; [reflexivity|].
      intros Hin. apply list_elem_of_fmap in Hin as (n & Hn & _). exact (Hcp n Hn). }
    train_tail fw path.
    + cbv [set_files files]. rewrite lookup_insert_ne by congruence.
      change (files w5 !! p = files w !! p). now rewrite Hfiles5.
    + now rewrite Hfiles5.
  - change (files w1 !! p = files w !! p). now rewrite Hfiles0.
  - now rewrite Hfiles0.
Qed.

(** X9. A path that holds "h5" and is no checkpoint path: [train_model]
    reads the file under it and never writes it, whether it returns or
    raises; what it learns goes to the ".keras" path and to the
    checkpoints, so that a second call with the same path reads what the
    first one read. *)
Theorem train_model_never_writes_model_path
    (path : string) (epochs batch : Z) (test : bool) (w : world) :
  Py.contains "h5" path = true ->
  (forall n, path <> cp n) ->
  let w' := after (train_model fw path epochs batch test w) in
  files w' !! path = files w !! path /\
  deserialize fw path (files w' !! path) = deserialize fw path (files w !! path) /\
  Py.replace "h5" "keras" path <> path.
Proof.
  intros Hh5 Hcp. cbv zeta.
  assert (files (after (train_model fw path epochs batch test w)) !! path = files w !! path)
    as E.
  { apply train_model_keeps_file; [exact Hcp|]. intros E.
    exact (saved_path_changes path Hh5 (eq_sym E)). }
  split; [exact E|]. split; [now rewrite E|]. exact (saved_path_changes path Hh5).
Qed.

(** X10. A path without "h5" (a ".keras" path, say) is left as it is by
    [replace]: a run of [train_model] that reads the model file under such
    a path and returns has written the trained model over the very file it
    read. *)
Theorem train_model_overwrites_path_without_h5
    (path : string) (epochs batch : Z) (test : bool) (w : world) (h : history)
    (f : file) (layers : list layer) (w0 : weights) :
  Py.contains "h5" path = false ->
  files w !! path = Some f ->
  deserialize fw path (Some f) = inr (layers, w0) ->
  res (train_model fw path epochs batch test w) = Ok h ->
  let o := train_model fw path epochs batch test w in
  Py.replace "h5" "keras" path = path /\
  exists m wt rest,
    res (load_model fw path w) = Ok m /\
    m_layers m = layers /\
    events o = (E_deserialize path :: E_summary m :: rest)%list /\
    saves (events o) = [(m, path, wt)] /\
    files (after o) !! path = Some (F_model layers wt).
Proof.
  intros Hno Hfile Hde Hres. cbv zeta. pose proof (saved_path_same path Hno) as Hsame.
  split; [exact Hsame|]. revert Hres.
  assert (deserialize fw path (files w !! path) = inr (layers, w0)) as Hde'
    by (now rewrite Hfile).
  train_stages fw path w; [|discriminate|discriminate].
  train_tail fw path; [|discriminate].
  intros _. rewrite (load_model_loaded fw path w layers w0 Hde') in Eload.
  injection Eload as Hm Hw1 He1.
  exists mdl, (weights_of w5 mdl). eexists.
  split; [reflexivity|]. split; [now rewrite <- Hm|]. split; [|split].
  - rewrite <- He1, Hm. reflexivity.
  - rewrite !saves_app.
    rewrite (saves_only _ _ Hload) by (intros H; kind_clash H).
    rewrite (saves_only _ _ (checkpoint_events_kinds mdl saved)) by (intros H; kind_clash H).
    rewrite (saves_only _ _ Htest) by (intros H; kind_clash H).
    unfold conclusion. rewrite Hsame. reflexivity.
  - rewrite Hsame. cbv [set_files files]. rewrite <- Hm. apply lookup_insert_eq.
Qed.

Lemma omap_nothing {A B} (f : A -> option B) (l : list A) :
  Forall (fun x => f x = None) l -> omap f l = [].
Proof.
  induction 1 as [|x l Hx _ IH]; [reflexivity|].
  change (match f x with Some y => y :: omap f l | None => omap f l end = []).
  now rewrite Hx.
Qed.

(** The evaluator when the validation images are missing. *)
Lemma test_model_without_validation_images path times w :
  "./dataset-resized/val" ∉ image_dirs w ->
  (exists e, res (test_model fw path times w) = Raise e) /\
  (forall m, res (load_model fw path w) = Ok m ->
     res (test_model fw path times w) = Raise (missing_directory "./dataset-resized/val")) /\
  accuracies (events (test_model fw path times w)) = [].
Proof.
  intros Hval. rewrite test_model_run.
  pose proof (load_model_frame fw path w) as (_ & Hd & _).
  pose proof (load_model_no_evaluation fw path w) as Hnone.
  destruct (load_model fw path w) as [[m|e] w1 e1]; cbv beta iota zeta delta [res after events] in *.
  - rewrite bool_decide_eq_false_2 by (rewrite Hd; exact Hval).
    cbv beta iota zeta delta [res after events].
    split; [eauto|]. split; [reflexivity|].
    rewrite accuracies_app, Hnone. reflexivity.
  - split; [eauto|]. split; [discriminate|exact Hnone].
Qed.

(** Without the evaluator, [train_model] returns as soon as the model
    loads and the training images are there. *)
Lemma train_model_without_test_returns path epochs batch w m :
  res (load_model fw path w) = Ok m ->
  "./dataset-resized/" ∈ image_dirs w ->
  exists h, res (train_model fw path epochs batch false w) = Ok h.
Proof.
  intros Hres Hdir. revert Hres.
  train_stages fw path w.
  - intros _. cbv beta iota zeta delta [ret res after events]. eauto.
  - rewrite Hdirs0 in Edir. rewrite bool_decide_eq_true_2 in Edir by exact Hdir. discriminate.
  - discriminate.
Qed.

(** X11. When the validation images are missing, the evaluator raises
    after the training.  If the call of [train_model] with [test] false
    returns, the call with [test] true makes the same load, the same fit and
    the same checkpoints, and then raises in [test_model]: the
    [FileNotFoundError] of the dataset builder when [model_path] is no
    checkpoint path.  The trained model is never saved, and the file under
    the ".keras" path is what it was before the call. *)
Theorem train_model_unsaved_when_evaluation_fails
    (path : string) (epochs batch : Z) (w : world) (h : history) :
  res (train_model fw path epochs batch false w) = Ok h ->
  "./dataset-resized/val" ∉ image_dirs w ->
  let o := train_model fw path epochs batch true w in
  (exists e, res o = Raise e) /\
  ((forall n, path <> cp n) ->
     exists e, res o = Raise e /\ Py.exn_cls e = Py.FileNotFoundError) /\
  (exists before m wt tested,
     events (train_model fw path epochs batch false w) = (before ++ conclusion m path wt)%list /\
     events o = (before ++ tested)%list /\
     (exists d v, In (E_fit m d v epochs [early_stopping; cp_callback]) before) /\
     only evaluator_kinds tested) /\
  checkpoint_writes (events o) =
    checkpoint_writes (events (train_model fw path epochs batch false w)) /\
  saves (events o) = [] /\
  files (after o) !! Py.replace "h5" "keras" path = files w !! Py.replace "h5" "keras" path.
Proof.
  intros Hfalse Hval. cbv zeta. revert Hfalse.
  rewrite (train_model_run path epochs batch false w).
  train_stages fw path w; [|discriminate|discriminate].
  assert (image_dirs w4 = image_dirs w) as Hd4 by (rewrite Hdirs; exact Hdirs0).
  assert ("./dataset-resized/val" ∉ image_dirs w4) as Hval4 by (rewrite Hd4; exact Hval).
  destruct (test_model_without_validation_images path default_times w4 Hval4)
    as ((e & He) & Hmiss & _).
  pose proof (test_model_kinds fw path default_times w4) as Htest.
  pose proof (test_model_frame fw path default_times w4) as (Hfiles5 & _).
  destruct (test_model fw path default_times w4) as [[avg|e2] w5 e5];
    cbv beta iota zeta delta [ret res after events] in *; [discriminate He|].
  intros _.
  assert (forall A (f : event -> option A),
            (forall x, kind_of x ∈ evaluator_kinds -> f x = None) ->
            omap f e5 = []) as Hnone.
  { intros A f Hf. apply omap_nothing. eapply Forall_impl; [exact Htest|]. exact Hf. }
  split; [eauto|]. split; [|split; [|split; [|split]]].
  - intros Hcp.
    assert (files w4 !! path = files w !! path) as H4.
    { rewrite Hfiles.
      change (write_checkpoints
                ((0, weights_of (bump_draws (bump_draws w1)) mdl) :: saved) (files w1) !! path
              = files w !! path).
      rewrite write_checkpoints_other, Hfiles0; [reflexivity|].
      intros Hin. apply list_elem_of_fmap in Hin as (n & Hn & _). exact (Hcp n Hn). }
    destruct (load_model_returns_again path w w4 mdl) as (m' & Hm');
      [now rewrite Eload|exact H4|].
    injection (Hmiss m' Hm') as ->. eexists. split; reflexivity.
  - exists (e1 ++ preparation mdl (requested fw w1 batch true)
                    (requested fw (bump_draws w1) batch true) epochs
                    (weights_of (bump_draws (bump_draws w1)) mdl)
               ++ checkpoint_events mdl saved)%list, mdl, (weights_of w4 mdl), e5.
    split; [now rewrite <- !app_assoc|]. split; [now rewrite <- !app_assoc|].
    split; [|exact Htest].
    eexists _, _. rewrite !in_app_iff. right. left. cbv [preparation In]. tauto.
  - unfold checkpoint_writes. rewrite !omap_app.
    rewrite (Hnone _ _); [now rewrite !app_nil_r|].
    intros x Hx. destruct x; try reflexivity. kind_clash Hx.
  - rewrite !saves_app.
    rewrite (saves_only _ _ Hload) by (intros H; kind_clash H).
    rewrite (saves_only _ _ (checkpoint_events_kinds mdl saved)) by (intros H; kind_clash H).
    rewrite (saves_only _ _ Htest) by (intros H; kind_clash H).
    reflexivity.
  - rewrite Hfiles5, Hfiles.
    change (write_checkpoints
              ((0, weights_of (bump_draws (bump_draws w1)) mdl) :: saved) (files w1)
              !! saved_path path = files w !! saved_path path).
    rewrite write_checkpoints_other, Hfiles0; [reflexivity|].
    intros Hin. apply list_elem_of_fmap in Hin as (n & Hn & _).
    exact (saved_path_not_checkpoint _ _ Hn).
Qed.

(** X12. When the training images are missing, [train_model], called with
    a positive batch size, raises the [FileNotFoundError] of its first
    dataset, after the load and the compile.  By then it has made the log
    calls of the load and logged "Model compiled", and no more: no
    checkpoint is written, no model is fitted or saved, and the model files
    and the checkpoints are as they were. *)
Theorem train_model_stops_before_writing_without_images
    (path : string) (epochs batch : Z) (test : bool) (w : world) (m : model) :
  0 < batch ->
  res (load_model fw path w) = Ok m ->
  "./dataset-resized/" ∉ image_dirs w ->
  let o0 := load_model fw path w in
  let o := train_model fw path epochs batch test w in
  (exists e, res o = Raise e /\ Py.exn_cls e = Py.FileNotFoundError) /\
  events o = (events o0 ++ [compiled m; E_log DEBUG [Lit "Model compiled"];
                            E_dataset (requested fw (after o0) batch true)])%list /\
  log_calls (events o) = (log_calls (events o0) ++ [(DEBUG, [Lit "Model compiled"])])%list /\
  files (after o) = files w /\
  checkpoints (events o) = [] /\
  saves (events o) = [] /\
  fitted_models (events o) = [].
Proof.
  intros _ Hres Hdir. cbv zeta. revert Hres.
  train_stages fw path w.
  - exfalso. apply bool_decide_eq_true_1 in Edir. rewrite Hdirs0 in Edir. exact (Hdir Edir).
  - intros [= ->]. split; [eexists; split; reflexivity|]. split; [reflexivity|].
    split; [unfold log_calls; rewrite omap_app; reflexivity|]. split; [exact Hfiles0|].
    assert (forall A (f : event -> option A),
              (forall e, kind_of e ∈ loader_kinds -> f e = None) ->
              f (compiled m) = None -> f (E_log DEBUG [Lit "Model compiled"]) = None ->
              (forall d, f (E_dataset d) = None) ->
              omap f (e1 ++ [compiled m; E_log DEBUG [Lit "Model compiled"];
                             E_dataset (requested fw w1 batch true)])%list = []) as Hnone.
    { intros A f Hk H1 H2 H3. apply omap_nothing, Forall_app. split.
      - eapply Forall_impl; [exact Hload|]. exact Hk.
      - repeat constructor; auto. }
    split; [|split].
    + apply Hnone; try reflexivity. intros e He. destruct e; try reflexivity. kind_clash He.
    + apply Hnone; try reflexivity. intros e He. destruct e; try reflexivity. kind_clash He.
    + apply Hnone; try reflexivity. intros e He. destruct e; try reflexivity. kind_clash He.
  - discriminate.
Qed.

(** The evaluator leaves the parameters of the objects that exist when it
    starts as they are. *)
Lemma test_model_keeps_parameters path times w m :
  (m_id m < next_id w)%positive ->
  weights_of (after (test_model fw path times w)) m = weights_of w m.
Proof.
  intros Hm. rewrite test_model_run.
  assert (forall k w', params (Nat.iter k bump_draws w') = params w') as Hiter
    by (intros k w'; apply iter_bump_draws).
  destruct (load_model_cases fw path w)
    as [(l & w0 & _ & ->)|[(e & _ & _ & ->)|(e & _ & _ & ->)]];
    cbv beta iota zeta delta [res after events]; [| |reflexivity].
  - destruct (bool_decide _); cbv beta iota zeta delta [after]; unfold weights_of;
      rewrite ?Hiter; cbv [bump_draws set_params bump_id params];
      rewrite lookup_insert_ne by lia; reflexivity.
  - destruct (bool_decide _); cbv beta iota zeta delta [after]; unfold weights_of;
      rewrite ?Hiter; reflexivity.
Qed.

(** The evaluations log nothing. *)
Lemma log_calls_evaluations m wt d rs : log_calls (map (E_evaluate m wt d) rs) = [].
Proof. apply omap_nothing, Forall_forall. intros x Hx. apply list_elem_of_fmap in Hx as (r & -> & _). reflexivity. Qed.

(** X13. The evaluator of [train_model] only reports, when it loads an
    object of its own.  For a path that is no checkpoint path and whose
    file the framework reads: if the call with [test] true returns, the
    call with [test] false returns the same history; the events of the two
    calls differ by those of the evaluator, which come just before the
    save; the evaluator loads, compiles and evaluates an object of its own,
    another one than the model trained, with the parameters of the file;
    the trained model is saved with the same parameters in the two calls,
    the same checkpoints are written, and the model files and the
    checkpoints are the same afterwards.  The log is not: the evaluator
    adds its two records to it. *)
Theorem train_model_evaluation_changes_no_file
    (path : string) (epochs batch : Z) (w : world) (h : history)
    (layers : list layer) (w0 : weights) :
  (forall n, path <> cp n) ->
  deserialize fw path (files w !! path) = inr (layers, w0) ->
  res (train_model fw path epochs batch true w) = Ok h ->
  let o := train_model fw path epochs batch true w in
  let o' := train_model fw path epochs batch false w in
  res o' = Ok h /\
  (exists before m wt m' d rs avg,
     events o' = (before ++ conclusion m path wt)%list /\
     events o = (before ++ evaluation path m' w0 d rs default_times avg
                        ++ conclusion m path wt)%list /\
     res (load_model fw path w) = Ok m /\
     m_id m' <> m_id m /\ m_layers m' = layers /\
     length rs = 10%nat /\
     log_calls (events o) =
       (log_calls before
        ++ [(DEBUG, [Lit "Model compiled"]);
            (INFO, [Num (Py.Int 10); Lit " tested; average accuracy: "; Num avg]);
            (DEBUG, [Lit "Model saved"])])%list /\
     log_calls (events o') = (log_calls before ++ [(DEBUG, [Lit "Model saved"])])%list) /\
  checkpoint_writes (events o) = checkpoint_writes (events o') /\
  saves (events o) = saves (events o') /\
  files (after o) = files (after o').
Proof.
  intros Hcp Hde Hres. cbv zeta. revert Hres.
  rewrite (train_model_run path epochs batch false w).
  train_stages fw path w; [|discriminate|discriminate].
  rewrite (load_model_loaded fw path w layers w0 Hde) in Eload.
  injection Eload as Hm Hw1 He1.
  assert (files w4 !! path = files w !! path) as H4.
  { rewrite Hfiles.
    change (write_checkpoints
              ((0, weights_of (bump_draws (bump_draws w1)) mdl) :: saved) (files w1) !! path
            = files w !! path).
    rewrite write_checkpoints_other, Hfiles0; [reflexivity|].
    intros Hin. apply list_elem_of_fmap in Hin as (n & Hn & _). exact (Hcp n Hn). }
  assert (deserialize fw path (files w4 !! path) = inr (layers, w0)) as Hde4
    by (now rewrite H4).
  assert (next_id w4 = Pos.succ (next_id w)) as Hn4
    by (rewrite Hnext, <- Hw1; reflexivity).
  pose proof (test_model_frame fw path default_times w4) as (Hfiles5 & _).
  pose proof (test_model_keeps_parameters path default_times w4 mdl) as Hkeep.
  pose proof (test_model_run fw path default_times w4) as Et. cbv zeta in Et.
  rewrite (load_model_loaded fw path w4 layers w0 Hde4) in Et.
  cbv beta iota zeta delta [res after events] in Et.
  destruct (bool_decide ("./dataset-resized/val" ∈ _)) in Et;
    rewrite Et in Hfiles5, Hkeep |- *; clear Et;
    cbv beta iota zeta delta [ret res after events] in Hfiles5, Hkeep |- *; [|discriminate].
  rewrite Hkeep by (rewrite Hn4, <- Hm; cbn [m_id]; lia).
  intros [= <-]. split; [reflexivity|].
  set (m' := {| m_id := next_id w4; m_layers := layers |}) in *.
  set (w4' := set_params <[next_id w4 := w0]> (bump_id w4)) in *.
  set (d := requested fw w4' 256 false).
  set (rs := evaluations fw m' (weights_of w4' m') d (S (draws w4')) (Z.to_nat default_times)).
  assert (weights_of w4' m' = w0) as Hw0.
  { unfold weights_of, w4', m'. cbn [params m_id set_params bump_id].
    now rewrite lookup_insert_eq. }
  set (before := (e1 ++ preparation mdl (requested fw w1 batch true)
                          (requested fw (bump_draws w1) batch true) epochs
                          (weights_of (bump_draws (bump_draws w1)) mdl)
                     ++ checkpoint_events mdl saved)%list).
  assert (forall avg,
            log_calls (evaluation path m' w0 d rs default_times avg) =
              [(DEBUG, [Lit "Model compiled"]);
               (INFO, [Num (Py.Int 10); Lit " tested; average accuracy: "; Num avg])])
    as Hlog.
  { intros avg. unfold evaluation, log_calls. rewrite !omap_app.
    fold (log_calls (map (E_evaluate m' w0 d) rs)). rewrite log_calls_evaluations.
    reflexivity. }
  split; [|split; [|split]].
  - exists before, mdl, (weights_of w4 mdl), m', d, rs,
      (fold_left blend (map snd rs) (Py.Int 0)).
    split; [unfold before; now rewrite <- !app_assoc|].
    split; [unfold before, evaluation; rewrite Hw0, <- !app_assoc; reflexivity|].
    split; [reflexivity|].
    split; [rewrite <- Hm; unfold m'; cbn [m_id]; lia|].
    split; [reflexivity|].
    split; [unfold rs; apply evaluations_length|].
    split.
    + replace (_ ++ _ ++ _ ++ _ ++ conclusion _ _ _)%list
        with (before ++ evaluation path m' w0 d rs default_times
                          (fold_left blend (map snd rs) (Py.Int 0))
                     ++ conclusion mdl path (weights_of w4 mdl))%list
        by (unfold before, evaluation; rewrite Hw0, <- !app_assoc; reflexivity).
      unfold log_calls at 1. rewrite !omap_app.
      fold (log_calls before).
      fold (log_calls (evaluation path m' w0 d rs default_times
                         (fold_left blend (map snd rs) (Py.Int 0)))).
      rewrite Hlog. reflexivity.
    + replace (_ ++ _ ++ _ ++ _ ++ conclusion _ _ _)%list
        with (before ++ conclusion mdl path (weights_of w4 mdl))%list
        by (unfold before; rewrite <- !app_assoc; reflexivity).
      unfold log_calls at 1. rewrite !omap_app. reflexivity.
  - unfold checkpoint_writes. rewrite !omap_app.
    rewrite (omap_nothing _ (map _ _)); [reflexivity|].
    apply Forall_forall. intros x Hx. apply list_elem_of_fmap in Hx as (r & -> & _).
    reflexivity.
  - unfold saves. rewrite !omap_app.
    rewrite (omap_nothing _ (map _ _)); [reflexivity|].
    apply Forall_forall. intros x Hx. apply list_elem_of_fmap in Hx as (r & -> & _).
    reflexivity.
  - cbv [set_files files]. f_equal; exact Hfiles5.
Qed.

(** The history of a run that returns has one entry per epoch in each of
    its lists. *)
Lemma train_model_history_lengths path epochs batch test w h :
  res (train_model fw path epochs batch test w) = Ok h ->
  (length (h_accuracy h) <= Z.to_nat epochs)%nat /\
  length (h_val_accuracy h) = length (h_accuracy h) /\
  length (h_loss h) = length (h_accuracy h) /\
  length (h_val_loss h) = length (h_accuracy h).
Proof.
  train_stages fw path w; [|discriminate|discriminate].
  train_tail fw path; [|discriminate].
  intros [= <-].
  cbn [empty_history h_accuracy h_val_accuracy h_loss h_val_loss length Nat.add]
    in Hla, Hlva, Hll, Hlvl.
  repeat split; congruence || lia.
Qed.

(** A training that is asked for an epoch and returns has completed one. *)
Lemma train_model_completes_an_epoch path epochs batch test w h :
  0 < epochs ->
  res (train_model fw path epochs batch test w) = Ok h ->
  (1 <= length (h_accuracy h))%nat.
Proof.
  intros Hpos.
  train_stages fw path w; [|discriminate|discriminate].
  train_tail fw path; [|discriminate].
  intros [= <-].
  destruct (Z.to_nat epochs) as [|r] eqn:Er; [lia|].
  apply (f_equal res) in Efit. cbn [res] in Efit.
  pose proof (fit_loop_first_epoch fw _ _ _ _ _
                (on_train_begin early_stopping) (on_train_begin cp_callback)
                _ _ _ eq_refl eq_refl Efit) as Hfirst.
  cbn [empty_history h_accuracy length] in Hfirst. lia.
Qed.

(** X14. A run of [train_model] that is asked for at least one epoch and
    returns has completed at least one: its history has the four lists,
    with one entry each per completed epoch, so that [plot_history] raises
    nothing on it, draws its four curves over the epochs 0 to N - 1 and
    changes nothing. *)
Theorem train_model_history_is_plottable
    (path : string) (epochs batch : Z) (test : bool) (w w' : world) (h : history) :
  0 < epochs ->
  res (train_model fw path epochs batch test w) = Ok h ->
  let n := length (h_accuracy h) in
  (1 <= n <= Z.to_nat epochs)%nat /\
  length (h_val_accuracy h) = n /\ length (h_loss h) = n /\ length (h_val_loss h) = n /\
  plot_history h w' = {| res := Ok tt; after := w'; events := curves h |} /\
  In (E_plt (plt_plot (Py.range (Z.of_nat n)) (h_val_loss h) "Validation Loss")) (curves h) /\
  length (Py.range (Z.of_nat n)) = length (h_val_loss h).
Proof.
  intros Hpos Hres. cbv zeta.
  destruct (train_model_history_lengths _ _ _ _ _ _ Hres) as (Hn & Hva & Hl & Hvl).
  pose proof (train_model_completes_an_epoch _ _ _ _ _ _ Hpos Hres) as H1.
  split; [lia|]. split; [exact Hva|]. split; [exact Hl|]. split; [exact Hvl|].
  split; [now apply plot_history_run|]. split.
  - unfold curves. cbv [In]. tauto.
  - rewrite range_length, Nat2Z.id. congruence.
Qed.

(** X15. When the loader raises, [train_model] and [test_model] end at once
    with that exception: no summary, no compile, no dataset, and the world
    is as it was. *)
Theorem load_failure_ends_the_run
    (path : string) (epochs batch times : Z) (test : bool) (w : world) (e : Py.exn) :
  res (load_model fw path w) = Raise e ->
  train_model fw path epochs batch test w =
    {| res := Raise e; after := w; events := [E_deserialize path] |} /\
  test_model fw path times w =
    {| res := Raise e; after := w; events := [E_deserialize path] |} /\
  Py.exn_cls e <> Py.FileNotFoundError /\
  deserialize fw path (files w !! path) = inl e.
Proof.
  intros Hres. rewrite train_model_run, test_model_run.
  destruct (load_model_cases fw path w)
    as [(l & w0 & Hde & E)|[(e' & Hde & Hc & E)|(e' & Hde & Hc & E)]];
    rewrite E in Hres |- *; cbv [res] in Hres; try discriminate.
  injection Hres as ->. cbv beta iota zeta delta [res after events]. auto.
Qed.





Lemma omap_only {A} (f : event -> option A) ks evs :
  only ks evs -> (forall e, kind_of e ∈ ks -> f e = None) -> omap f evs = [].
Proof.
  intros H Hf. apply omap_nothing. eapply Forall_impl; [exact H|]. exact Hf.
Qed.

(** The events of a kind that the loader, the checkpoints of the fit loop
    and the evaluator do not produce come from the preparation and the
    conclusion. *)
Ltac outside_stages :=
  lazymatch goal with
  | Hload : only loader_kinds ?e1 |- _ =>
      rewrite ?omap_app;
      rewrite (omap_only _ _ e1 Hload)
        by (let x := fresh in let Hx := fresh in
            intros x Hx; destruct x; try reflexivity; kind_clash Hx);
      repeat match goal with
      | |- context [omap ?f (checkpoint_events ?m ?saved)] =>
          rewrite (omap_only f _ _ (checkpoint_events_kinds m saved))
            by (let x := fresh in let Hx := fresh in
                intros x Hx; destruct x; try reflexivity; kind_clash Hx)
      | Htest : only evaluator_kinds ?e5 |- context [omap ?f ?e5] =>
          rewrite (omap_only f _ e5 Htest)
            by (let x := fresh in let Hx := fresh in
                intros x Hx; destruct x; try reflexivity; kind_clash Hx)
      end
  end.

(** What a run of [train_model] that returns has done. *)
Lemma train_model_returned path epochs batch test w h :
  res (train_model fw path epochs batch test w) = Ok h ->
  let o := train_model fw path epochs batch test w in
  exists m wt,
    res (load_model fw path w) = Ok m /\
    saves (events o) = [(m, saved_path path, wt)] /\
    fit_batch_sizes (events o) = [batch] /\
    fitted_models (events o) = [m_id m] /\
    files (after o) !! saved_path path = Some (F_model (m_layers m) wt).
Proof.
  cbv zeta.
  train_stages fw path w; [|discriminate|discriminate].
  train_tail fw path; [|discriminate].
  intros _. exists mdl, (weights_of w5 mdl).
  split; [reflexivity|]. split; [|split; [|split]].
  - unfold saves. outside_stages. reflexivity.
  - unfold fit_batch_sizes. outside_stages. reflexivity.
  - unfold fitted_models. outside_stages. reflexivity.
  - cbv [set_files files]. apply lookup_insert_eq.
Qed.

(** The fits of a run that raises: one at the batch size asked for, or
    none. *)
Lemma train_model_fit_batch_sizes path epochs batch test w :
  let o := train_model fw path epochs batch test w in
  fit_batch_sizes (events o) = [batch] \/
  (fit_batch_sizes (events o) = [] /\ exists e, res o = Raise e).
Proof.
  cbv zeta.
  train_stages fw path w.
  - left. train_tail fw path; unfold fit_batch_sizes; outside_stages; reflexivity.
  - right. split; [|eauto]. unfold fit_batch_sizes. outside_stages. reflexivity.
  - right. split; [|eauto]. unfold fit_batch_sizes.
    apply (omap_only _ _ _ Hload). intros x Hx; destruct x; try reflexivity; kind_clash Hx.
Qed.

(** A run that reads the model from the file: its checkpoint of epoch 0
    holds the parameters of the file. *)
Lemma train_model_loaded_start path epochs batch test w layers w0 :
  deserialize fw path (files w !! path) = inr (layers, w0) ->
  forall m p wt,
    In (E_save_weights m p wt) (events (train_model fw path epochs batch test w)) ->
    p = cp 0 -> wt = w0 /\ m_layers m = layers.
Proof.
  intros Hde m p wt.
  pose proof (load_model_loaded fw path w layers w0 Hde) as El. cbv zeta in El.
  train_stages fw path w.
  - injection El as Hm Hw1 _.
    assert (forall o2 : outcome Py.num, only evaluator_kinds (events o2) ->
            forall tl, only [K_save; K_log] tl ->
            In (E_save_weights m p wt)
               (e1 ++ preparation mdl (requested fw w1 batch true)
                        (requested fw (bump_draws w1) batch true) epochs
                        (weights_of (bump_draws (bump_draws w1)) mdl)
                   ++ checkpoint_events mdl saved ++ events o2 ++ tl) ->
            p = cp 0 -> wt = w0 /\ m_layers m = layers) as Hmain.
    { intros o2 Ho2 tl Htl Hin Hp. apply in_app_or5 in Hin as [Hin|[Hin|[Hin|[Hin|Hin]]]].
      - apply (only_In _ _ _ Hload) in Hin. kind_clash Hin.
      - cbv [preparation In] in Hin.
        repeat (destruct Hin as [Hin|Hin]; [try discriminate Hin|]); [|contradiction].
        injection Hin as <- _ <-. rewrite Hm, Hw1. split; [|reflexivity].
        unfold weights_of. cbv [bump_draws set_params bump_id params m_id].
        now rewrite lookup_insert_eq.
      - exfalso. unfold checkpoint_events in Hin. apply in_map_iff in Hin as (x & Hx & Hin).
        injection Hx as _ <- _.
        assert (In (fst x) (epochs_from 0 k)) as Hn
          by (rewrite <- Hsaved; apply in_map; exact Hin).
        unfold epochs_from in Hn. apply in_map_iff in Hn as (i & Hi & _).
        apply cp_inj in Hp; lia.
      - apply (only_In _ _ _ Ho2) in Hin. kind_clash Hin.
      - apply (only_In _ _ _ Htl) in Hin. kind_clash Hin. }
    destruct test.
    + pose proof (test_model_kinds fw path default_times w4) as Ht.
      destruct (test_model fw path default_times w4) as [[avg|e2] w5 e5];
        cbv beta iota zeta delta [res after events] in *.
      * apply (Hmain {| res := Ok avg; after := w5; events := e5 |} Ht).
        unfold conclusion. kinds.
      * intros Hin. apply (Hmain {| res := Raise e2; after := w5; events := e5 |} Ht []);
          [constructor|now rewrite app_nil_r].
    + cbv beta iota zeta delta [ret res after events].
      apply (Hmain {| res := Ok (Py.Int 0); after := w4; events := [] |}); [constructor|].
      unfold conclusion. kinds.
  - intros Hin. exfalso. apply in_app_or in Hin as [Hin|Hin].
    + apply (only_In _ _ _ Hload) in Hin. kind_clash Hin.
    + cbv [In] in Hin. repeat (destruct Hin as [Hin|Hin]; [discriminate Hin|]). exact Hin.
  - intros Hin. exfalso. apply (only_In _ _ _ Hload) in Hin. kind_clash Hin.
Qed.


(** A property of events holds of the events of a run of [train_model] if
    it holds of those of each of its parts. *)
Lemma train_model_Forall (P : event -> Prop) path epochs batch test w :
  Forall P (events (load_model fw path w)) ->
  (forall mdl d v, res (load_model fw path w) = Ok mdl ->
     Forall P (preparation mdl d v epochs (weights_of (after (load_model fw path w)) mdl))) ->
  (forall mdl k saved, res (load_model fw path w) = Ok mdl ->
     map fst saved = epochs_from 0 k -> Forall P (checkpoint_events mdl saved)) ->
  (forall w4, test = true ->
     (forall p, (forall n, p <> cp n) -> files w4 !! p = files w !! p) ->
     Forall P (events (test_model fw path default_times w4))) ->
  (forall mdl wt, res (load_model fw path w) = Ok mdl -> Forall P (conclusion mdl path wt)) ->
  Forall P (events (train_model fw path epochs batch test w)).
Proof.
  intros H1 Hpre Hfit Hev Hpost.
  train_stages fw path w.
  - specialize (Hpre mdl (requested fw w1 batch true)
                  (requested fw (bump_draws w1) batch true) eq_refl).
    specialize (Hfit mdl k saved eq_refl Hsaved).
    change (weights_of w1 mdl) with (weights_of (bump_draws (bump_draws w1)) mdl) in Hpre.
    assert (forall p, (forall n, p <> cp n) -> files w4 !! p = files w !! p) as H4.
    { intros p Hp. rewrite Hfiles.
      change (write_checkpoints
                ((0, weights_of (bump_draws (bump_draws w1)) mdl) :: saved) (files w1) !! p
              = files w !! p).
      rewrite write_checkpoints_other, Hfiles0; [reflexivity|].
      intros Hin. apply list_elem_of_fmap in Hin as (n & Hn & _). exact (Hp n Hn). }
    destruct test.
    + specialize (Hev w4 eq_refl H4).
      destruct (test_model fw path default_times w4) as [[avg|e2] w5 e5];
        cbv beta iota zeta delta [res after events] in *;
        repeat (apply Forall_app; split); auto.
    + cbv beta iota zeta delta [ret res after events].
      repeat (apply Forall_app; split); auto.
  - specialize (Hpre mdl (requested fw w1 batch true)
                  (requested fw (bump_draws w1) batch true) eq_refl).
    apply Forall_app. split; [exact H1|].
    unfold preparation in Hpre.
    apply Forall_cons in Hpre as (Ha & Hpre). apply Forall_cons in Hpre as (Hb & Hpre).
    apply Forall_cons in Hpre as (Hc & _). repeat constructor; assumption.
  - exact H1.
Qed.

(** The files a run of [train_model] writes. *)
Lemma train_model_writes path epochs batch test w :
  Forall (writes_within (saved_path path)) (events (train_model fw path epochs batch test w)).
Proof.
  assert (forall ks l, only ks l -> K_save ∉ ks -> K_save_weights ∉ ks ->
            Forall (writes_within (saved_path path)) l) as Hkinds.
  { intros ks l Hl Hf He. eapply Forall_impl; [exact Hl|]. intros x Hx.
    destruct x; try exact I; contradiction. }
  apply train_model_Forall.
  - apply (Hkinds _ _ (load_model_kinds fw path w)); intros H; kind_clash H.
  - intros mdl d v _. unfold preparation. repeat constructor. exists 0. split; [lia|reflexivity].
  - intros mdl k saved _ Hs. apply Forall_forall. intros x Hx.
    apply list_elem_of_In in Hx. unfold checkpoint_events in Hx.
    apply in_map_iff in Hx as (y & <- & Hy).
    assert (In (fst y) (epochs_from 0 k)) as Hn by (rewrite <- Hs; apply in_map; exact Hy).
    unfold epochs_from in Hn. apply in_map_iff in Hn as (i & Hi & _).
    exists (fst y). split; [lia|reflexivity].
  - intros w4 _ _.
    apply (Hkinds _ _ (test_model_kinds fw path default_times w4)); intros H; kind_clash H.
  - intros mdl wt _. unfold conclusion. repeat constructor.
Qed.

(** The log calls at WARNING or above: the handler of [load_model] makes
    at most one, and nothing else in the script makes any. *)
Lemma load_model_loud path w :
  loud (events (load_model fw path w)) = [] \/
  exists msg, loud (events (load_model fw path w)) =
                [(ERROR, [Lit "Error loading model: "; Lit msg])].
Proof.
  destruct (load_model_cases fw path w)
    as [(l & w0 & _ & ->)|[(e & _ & _ & ->)|(e & _ & _ & ->)]]; cbv [events].
  - left. reflexivity.
  - right. exists (Py.exn_msg e). reflexivity.
  - left. reflexivity.
Qed.

Lemma test_model_loud path times w :
  loud (events (test_model fw path times w)) = loud (events (load_model fw path w)).
Proof.
  rewrite test_model_run.
  destruct (load_model fw path w) as [[m|e] w1 e1]; cbv beta iota zeta delta [res after events];
    [|reflexivity].
  destruct (bool_decide _); cbv beta iota zeta delta [res after events]; unfold loud;
    rewrite !omap_app.
  - rewrite (omap_only _ _ _ (evaluations_kinds m _ _ _))
      by (intros x Hx; destruct x; try reflexivity; kind_clash Hx).
    cbn [app]. apply app_nil_r.
  - apply app_nil_r.
Qed.

Lemma train_model_loud path epochs batch test w :
  exists l1 l2,
    loud (events (train_model fw path epochs batch test w)) = (l1 ++ l2)%list /\
    (l1 = [] \/ exists msg, l1 = [(ERROR, [Lit "Error loading model: "; Lit msg])]) /\
    (l2 = [] \/ exists msg, l2 = [(ERROR, [Lit "Error loading model: "; Lit msg])]).
Proof.
  pose proof (load_model_loud path w) as H1.
  train_stages fw path w.
  - exists (loud e1).
    pose proof (test_model_loud path default_times w4) as H5.
    pose proof (load_model_loud path w4) as H5'. rewrite <- H5 in H5'.
    destruct test.
    + exists (loud (events (test_model fw path default_times w4))).
      split; [|split; assumption].
      destruct (test_model fw path default_times w4) as [[avg|e2] w5 e5];
        cbv beta iota zeta delta [res after events]; unfold loud; rewrite !omap_app;
        rewrite (omap_only _ _ _ (checkpoint_events_kinds mdl saved))
          by (intros x Hx; destruct x; try reflexivity; kind_clash Hx).
      * cbn [app]. rewrite app_nil_r. reflexivity.
      * reflexivity.
    + exists []. split; [|split; [assumption|left; reflexivity]].
      cbv beta iota zeta delta [ret res after events]. unfold loud. rewrite !omap_app.
      rewrite (omap_only _ _ _ (checkpoint_events_kinds mdl saved))
        by (intros x Hx; destruct x; try reflexivity; kind_clash Hx).
      reflexivity.
  - exists (loud e1), []. split; [|split; [assumption|left; reflexivity]].
    unfold loud. rewrite !omap_app. reflexivity.
  - exists (loud e1), []. split; [|split; [assumption|left; reflexivity]].
    now rewrite app_nil_r.
Qed.

End Trainer.

(* ===================================================================== *)
(** * The driver *)
(* ===================================================================== *)

Section Driver.

Variable fw : framework.

Lemma driver_loop_step (batch : Z) (w : world) :
  1 < batch ->
  driver_loop fw batch w = (iteration fw batch ;;; driver_loop fw (batch / 2)) w.
Proof.
  intros H. rewrite driver_loop_equation_1. unfold driver_loop_unfold_clause_1.
  destruct (Z_gt_dec batch 1) as [Hp|Hn]; [reflexivity|lia].
Qed.

Lemma driver_loop_stop (batch : Z) (w : world) :
  batch <= 1 -> driver_loop fw batch w = ret tt w.
Proof.
  intros H. rewrite driver_loop_equation_1. unfold driver_loop_unfold_clause_1.
  destruct (Z_gt_dec batch 1) as [Hn|Hp]; [lia|reflexivity].
Qed.

(** The rest of a loop may be replaced by what it does from every world. *)
Lemma bind_ext {A B} (m : M A) (k k' : A -> M B) (w : world) :
  (forall a w', k a w' = k' a w') -> bind m k w = bind m k' w.
Proof. intros H. unfold bind. destruct (res (m w)); [now rewrite H|reflexivity]. Qed.

Lemma batch_sizes_step (batch : Z) :
  1 < batch -> batch_sizes batch = batch :: batch_sizes (batch / 2).
Proof.
  intros H. rewrite batch_sizes_equation_1. unfold batch_sizes_unfold_clause_1.
  destruct (Z_gt_dec batch 1) as [Hp|Hn]; [reflexivity|lia].
Qed.

Lemma batch_sizes_stop (batch : Z) : batch <= 1 -> batch_sizes batch = [].
Proof.
  intros H. rewrite batch_sizes_equation_1. unfold batch_sizes_unfold_clause_1.
  destruct (Z_gt_dec batch 1) as [Hn|Hp]; [lia|reflexivity].
Qed.

(** C5. The loop of the driver, entered with [batch = 32], runs its body,
    [train_model] at that batch size and then [plot_history] on the history
    it returned, for the batch sizes 32, 16, 8, 4 and 2, in this order and
    for no other, and ends when halving gives 1. *)
Theorem driver_batch_size_sequence :
  batch_sizes 32 = [32; 16; 8; 4; 2] /\
  (forall w, main fw w = for_each [32; 16; 8; 4; 2] (iteration fw) w) /\
  (forall batch,
     iteration fw batch =
       (history <- train_model fw "sortbot_alpha_new.h5" 100 batch true ;;
        plot_history history)) /\
  2 / 2 = 1 /\ (forall w, driver_loop fw 1 w = ret tt w).
Proof.
  split; [|split; [|split; [|split]]].
  - rewrite (batch_sizes_step 32) by lia. change (32 / 2) with 16.
    rewrite (batch_sizes_step 16) by lia. change (16 / 2) with 8.
    rewrite (batch_sizes_step 8) by lia. change (8 / 2) with 4.
    rewrite (batch_sizes_step 4) by lia. change (4 / 2) with 2.
    rewrite (batch_sizes_step 2) by lia. change (2 / 2) with 1.
    now rewrite batch_sizes_stop by lia.
  - intros w. unfold main. cbn [for_each].
    rewrite driver_loop_step by lia. apply bind_ext. intros _ w1. change (32 / 2) with 16.
    rewrite driver_loop_step by lia. apply bind_ext. intros _ w2. change (16 / 2) with 8.
    rewrite driver_loop_step by lia. apply bind_ext. intros _ w3. change (8 / 2) with 4.
    rewrite driver_loop_step by lia. apply bind_ext. intros _ w4. change (4 / 2) with 2.
    rewrite driver_loop_step by lia. apply bind_ext. intros _ w5. change (2 / 2) with 1.
    apply driver_loop_stop. lia.
  - reflexivity.
  - reflexivity.
  - intros w. apply driver_loop_stop. lia.
Qed.

End Driver.

(* ===================================================================== *)
(** * More on the driver *)
(* ===================================================================== *)

Section DriverMore.

Variable fw : framework.

Lemma main_for_each (w : world) :
  main fw w = for_each [32; 16; 8; 4; 2] (iteration fw) w.
Proof.
  unfold main. cbn [for_each].
  rewrite driver_loop_step by lia. apply bind_ext. intros _ w1. change (32 / 2) with 16.
  rewrite driver_loop_step by lia. apply bind_ext. intros _ w2. change (16 / 2) with 8.
  rewrite driver_loop_step by lia. apply bind_ext. intros _ w3. change (8 / 2) with 4.
  rewrite driver_loop_step by lia. apply bind_ext. intros _ w4. change (4 / 2) with 2.
  rewrite driver_loop_step by lia. apply bind_ext. intros _ w5. change (2 / 2) with 1.
  apply driver_loop_stop. lia.
Qed.

(** An iteration is its training, then the plot of what it returned;
    the plot never fails and changes nothing. *)
Lemma iteration_run (batch : Z) (w : world) :
  let o := train_model fw driver_path 100 batch true w in
  iteration fw batch w =
    match res o with
    | Ok h => {| res := Ok tt; after := after o; events := events o ++ curves h |}
    | Raise e => {| res := Raise e; after := after o; events := events o |}
    end.
Proof.
  cbv zeta. unfold iteration, driver_path.
  pose proof (train_model_history_lengths fw "sortbot_alpha_new.h5" 100 batch true w) as Hh.
  unfold bind.
  destruct (train_model fw "sortbot_alpha_new.h5" 100 batch true w) as [[h|e] w' evs];
    cbv beta iota zeta delta [res after events] in *; [|reflexivity].
  destruct (Hh h eq_refl) as (_ & Hva & Hl & Hvl).
  rewrite (plot_history_run h w' Hva Hl Hvl). reflexivity.
Qed.

(** A property of the world that every pass of a loop keeps, and a
    property of the events of every pass, hold of the loop. *)
Lemma for_each_invariant {A} (Inv : world -> Prop) (P : event -> Prop)
    (body : A -> M unit) (xs : list A) (w : world) :
  (forall x w, Inv w -> Inv (after (body x w)) /\ Forall P (events (body x w))) ->
  Inv w ->
  Inv (after (for_each xs body w)) /\ Forall P (events (for_each xs body w)).
Proof.
  intros Hbody. revert w. induction xs as [|x xs IH]; intros w Hw.
  - split; [exact Hw|constructor].
  - cbn [for_each]. unfold bind.
    destruct (Hbody x w Hw) as (H1 & H2).
    destruct (body x w) as [[[]|e] w' evs]; cbv beta iota zeta delta [res after events] in *.
    + destruct (IH w' H1) as (H3 & H4). split; [exact H3|].
      apply Forall_app. split; assumption.
    + split; assumption.
Qed.

Lemma driver_path_not_checkpoint (n : Z) : driver_path <> cp n.
Proof. rewrite cp_eq. discriminate. Qed.

Lemma driver_path_not_saved : driver_path <> saved_path driver_path.
Proof. discriminate. Qed.

Lemma iteration_keeps_driver_path (batch : Z) (w : world) :
  files (after (iteration fw batch w)) !! driver_path = files w !! driver_path.
Proof.
  rewrite iteration_run.
  pose proof (train_model_keeps_file fw driver_path 100 batch true w driver_path
                driver_path_not_checkpoint driver_path_not_saved) as H.
  destruct (res (train_model fw driver_path 100 batch true w)); exact H.
Qed.

Lemma iteration_events (P : event -> Prop) (batch : Z) (w : world) :
  (forall c, P (E_plt c)) ->
  Forall P (events (train_model fw driver_path 100 batch true w)) ->
  Forall P (events (iteration fw batch w)).
Proof.
  intros Hplt H. rewrite iteration_run.
  destruct (res (train_model fw driver_path 100 batch true w)); cbv [events]; [|exact H].
  apply Forall_app. split; [exact H|]. unfold curves. repeat constructor; apply Hplt.
Qed.

(** X17. The driver never writes the file it loads: after a run of the
    driver, finished or not, "sortbot_alpha_new.h5" is what it was, so
    that each of its trainings reads the same file, or finds none; what it
    writes are the checkpoints and "sortbot_alpha_new.keras". *)
Theorem main_never_writes_its_model_file (w : world) :
  files (after (main fw w)) !! "sortbot_alpha_new.h5" = files w !! "sortbot_alpha_new.h5" /\
  (forall m p wt, In (E_save m p wt) (events (main fw w)) -> p = "sortbot_alpha_new.keras") /\
  (forall m p wt, In (E_save_weights m p wt) (events (main fw w)) ->
     exists n, 0 <= n /\ p = cp n /\ p <> "sortbot_alpha_new.h5").
Proof.
  rewrite main_for_each.
  destruct (for_each_invariant
              (fun w' => files w' !! driver_path = files w !! driver_path)
              (writes_within (saved_path driver_path))
              (iteration fw) [32; 16; 8; 4; 2] w) as (Hf & He).
  { intros batch w' Hw'. split.
    - now rewrite iteration_keeps_driver_path.
    - apply iteration_events; [intros c; exact I|apply train_model_writes]. }
  { reflexivity. }
  split; [exact Hf|]. rewrite Forall_forall in He. split.
  - intros m p wt Hin. apply list_elem_of_In in Hin. exact (He _ Hin).
  - intros m p wt Hin. apply list_elem_of_In in Hin. destruct (He _ Hin) as (n & Hn & ->).
    exists n. split; [exact Hn|]. split; [reflexivity|].
    intros E. exact (driver_path_not_checkpoint n (eq_sym E)).
Qed.

(** X18. With a model file that the framework reads, every training of the
    driver starts from the parameters of that file: each checkpoint of
    epoch 0 holds them, whatever the trainings before it have learnt. *)
Theorem main_restarts_from_the_model_file
    (w : world) (layers : list layer) (w0 : weights) :
  deserialize fw "sortbot_alpha_new.h5" (files w !! "sortbot_alpha_new.h5") = inr (layers, w0) ->
  forall m wt,
    In (E_save_weights m (cp 0) wt) (events (main fw w)) ->
    wt = w0 /\ m_layers m = layers.
Proof.
  intros Hde m wt. rewrite main_for_each.
  destruct (for_each_invariant
              (fun w' => files w' !! driver_path = files w !! driver_path)
              (starts_from layers w0)
              (iteration fw) [32; 16; 8; 4; 2] w) as (_ & He).
  { intros batch w' Hw'. split.
    - now rewrite iteration_keeps_driver_path.
    - apply iteration_events; [intros c; exact I|].
      apply Forall_forall. intros x Hx. apply list_elem_of_In in Hx.
      destruct x as [?|? ?|?|? ? ? ?|?|m' p' wt'|? ? ? ? ?|? ? ? ?|?|? ? ?|?]; try exact I.
      intros Hp. eapply (train_model_loaded_start fw driver_path 100 batch true w' layers w0);
        [|exact Hx|exact Hp].
      unfold driver_path in *. now rewrite Hw'. }
  { reflexivity. }
  intros Hin. rewrite Forall_forall in He. apply list_elem_of_In in Hin.
  exact (He _ Hin eq_refl).
Qed.


Lemma for_each_cons_run {A} (body : A -> M unit) (x : A) (xs : list A) (w : world) :
  for_each (x :: xs) body w =
    match res (body x w) with
    | Ok _ =>
        let o := for_each xs body (after (body x w)) in
        {| res := res o; after := after o; events := events (body x w) ++ events o |}
    | Raise e => {| res := Raise e; after := after (body x w); events := events (body x w) |}
    end.
Proof. reflexivity. Qed.

Lemma fit_batch_sizes_app evs evs' :
  fit_batch_sizes (evs ++ evs') = (fit_batch_sizes evs ++ fit_batch_sizes evs')%list.
Proof. apply omap_app. Qed.

Lemma fit_batch_sizes_curves h : fit_batch_sizes (curves h) = [].
Proof. reflexivity. Qed.

Lemma saves_curves h : saves (curves h) = [].
Proof. reflexivity. Qed.

(** The trainings of a loop over batch sizes, finished or not. *)
Lemma for_each_fit_batch_sizes (xs : list Z) (w : world) :
  fit_batch_sizes (events (for_each xs (iteration fw) w)) `prefix_of` xs /\
  (res (for_each xs (iteration fw) w) = Ok tt ->
   fit_batch_sizes (events (for_each xs (iteration fw) w)) = xs).
Proof.
  revert w. induction xs as [|x xs IH]; intros w.
  - split; [now exists []|reflexivity].
  - rewrite for_each_cons_run, iteration_run. cbv zeta.
    pose proof (train_model_fit_batch_sizes fw driver_path 100 x true w) as Hx.
    pose proof (train_model_returned fw driver_path 100 x true w) as Hr.
    cbv zeta in Hx, Hr.
    destruct (train_model fw driver_path 100 x true w) as [[h|e] w1 evs];
      cbn [res after events] in *.
    + destruct (Hr h eq_refl) as (m & wt & _ & _ & Hb & _).
      destruct (IH w1) as (Hp & Heq).
      rewrite !fit_batch_sizes_app, Hb, fit_batch_sizes_curves. cbn [app].
      split; [|intros H; now rewrite Heq].
      destruct Hp as [rest Hrest]. exists rest. cbn [app]. now rewrite Hrest at 1.
    + split; [|discriminate].
      destruct Hx as [->|(-> & _)]; [now exists xs|now exists (x :: xs)].
Qed.

(** The models a finished loop over batch sizes has saved. *)
Lemma for_each_saves (xs : list Z) (w : world) :
  res (for_each xs (iteration fw) w) = Ok tt ->
  map (fun s => snd (fst s)) (saves (events (for_each xs (iteration fw) w))) =
    repeat (saved_path driver_path) (length xs) /\
  forall b, last xs = Some b ->
    exists w' m wt,
      saves (events (train_model fw driver_path 100 b true w')) =
        [(m, saved_path driver_path, wt)] /\
      last (saves (events (for_each xs (iteration fw) w))) =
        Some (m, saved_path driver_path, wt) /\
      files (after (for_each xs (iteration fw) w)) !! saved_path driver_path =
        Some (F_model (m_layers m) wt).
Proof.
  revert w. induction xs as [|x xs IH]; intros w.
  - intros _. split; [reflexivity|]. intros b Hb. discriminate Hb.
  - rewrite for_each_cons_run, iteration_run. cbv zeta.
    pose proof (train_model_returned fw driver_path 100 x true w) as Hr.
    cbv zeta in Hr.
    destruct (train_model fw driver_path 100 x true w) as [[h|e] w1 evs] eqn:Et;
      cbn [res after events] in *; [|discriminate].
    destruct (Hr h eq_refl) as (m & wt & _ & Hs & _ & _ & Hfile).
    intros Hres. destruct (IH w1 Hres) as (Hpaths & Hlast).
    rewrite !saves_app, Hs, saves_curves. cbn [app map length repeat fst snd].
    split; [now rewrite Hpaths|].
    intros b Hb. destruct xs as [|y xs].
    + injection Hb as <-. exists w, m, wt. rewrite Et. cbv [events]. auto.
    + destruct (Hlast b Hb) as (w' & m' & wt' & H1 & H2 & H3).
      exists w', m', wt'. split; [exact H1|]. split; [|exact H3].
      destruct (saves (events (for_each (y :: xs) (iteration fw) w1))) as [|s ss];
        [cbn [last] in H2; discriminate H2|exact H2].
Qed.

(** X20. Whatever happens, the trainings of the driver are at the batch
    sizes 32, 16, 8, 4, 2 in this order, up to the one that raises; when
    the driver returns it has made all five, and saved five models under
    the one path "sortbot_alpha_new.keras": the file it leaves is the model
    of the last training, the one at batch size 2. *)
Theorem main_leaves_the_last_model (w : world) :
  fit_batch_sizes (events (main fw w)) `prefix_of` [32; 16; 8; 4; 2] /\
  (res (main fw w) = Ok tt ->
   fit_batch_sizes (events (main fw w)) = [32; 16; 8; 4; 2] /\
   map (fun s => snd (fst s)) (saves (events (main fw w))) =
     repeat "sortbot_alpha_new.keras" 5 /\
   exists w' m wt,
     saves (events (train_model fw "sortbot_alpha_new.h5" 100 2 true w')) =
       [(m, "sortbot_alpha_new.keras", wt)] /\
     last (saves (events (main fw w))) = Some (m, "sortbot_alpha_new.keras", wt) /\
     files (after (main fw w)) !! "sortbot_alpha_new.keras" =
       Some (F_model (m_layers m) wt)).
Proof.
  rewrite main_for_each.
  destruct (for_each_fit_batch_sizes [32; 16; 8; 4; 2] w) as (Hp & Heq).
  split; [exact Hp|]. intros Hres. split; [exact (Heq Hres)|].
  destruct (for_each_saves [32; 16; 8; 4; 2] w Hres) as (Hpaths & Hlast).
  split; [exact Hpaths|]. exact (Hlast 2 eq_refl).
Qed.

End DriverMore.

(* ===================================================================== *)
(** * The log of a training *)
(* ===================================================================== *)

Section LogOfRun.
Import Logging.

Variable fw : framework.
Variable str_float : Py.float -> string.
Variable clock : nat -> string.

Lemma Forall2_Forall_l {A B} (P : A -> B -> Prop) (Q : A -> Prop) xs ys :
  Forall2 P xs ys -> (forall x y, y ∈ ys -> P x y -> Q x) -> Forall Q xs.
Proof.
  induction 1 as [|x y xs ys Hxy _ IH]; intros HQ; constructor.
  - apply (HQ x y); [apply list_elem_of_here|exact Hxy].
  - apply IH. intros x' y' Hy'. apply HQ. now apply list_elem_of_further.
Qed.

(** X21. Of all the log calls of a run of [train_model], only the errors of
    the loader reach the terminal, at most two of them (the load of the
    trainer and the load of the evaluator), in red; "Model compiled",
    "Dataset loaded", "Model saved" and the average accuracy go to the log
    file alone, where every call leaves one line. *)
Theorem train_model_terminal_shows_load_errors_only
    (path : string) (epochs batch : Z) (test : bool) (w : world) :
  let evs := events (train_model fw path epochs batch test w) in
  let out := log_output str_float clock 0 evs in
  Forall (fun l => exists t msg, l = load_error_line t msg) (written_to stderr out) /\
  (length (written_to stderr out) <= 2)%nat /\
  length (written_to (log_file "info_debug.log") out) = length (log_calls evs).
Proof.
  cbv zeta.
  pose proof (stderr_lines str_float clock 0
                (events (train_model fw path epochs batch test w))) as H2.
  destruct (train_model_loud fw path epochs batch test w) as (l1 & l2 & El & Hl1 & Hl2).
  rewrite El in H2. clear El.
  assert (forall l r, (r ∈ l1 ++ l2)%list ->
            (exists t, let record := {| levelno := levelno_of (fst r);
                                        msg := f_string str_float (snd r); asctime := t |} in
                       l = line (if levelno record =? 40
                                 then set_msg (red (msg record)) record else record)) ->
            exists t msg, l = load_error_line t msg) as Hline.
  { intros l r Hr (t & ->).
    assert (exists m, r = (ERROR, [Lit "Error loading model: "; Lit m])) as (m & ->).
    { apply elem_of_app in Hr as [Hr|Hr];
        [destruct Hl1 as [->|(m & ->)]|destruct Hl2 as [->|(m & ->)]];
        try (apply elem_of_nil in Hr; contradiction);
        apply list_elem_of_singleton in Hr; eauto. }
    exists t, m. cbv zeta. unfold load_error_line, line, red, set_msg.
    cbn [fst snd levelno msg asctime f_string]. rewrite append_empty_r. reflexivity. }
  split; [|split].
  - exact (Forall2_Forall_l _ _ _ _ H2 Hline).
  - rewrite (Forall2_length _ _ _ H2), length_app.
    destruct Hl1 as [->|(m1 & ->)], Hl2 as [->|(m2 & ->)]; cbn [length]; lia.
  - apply log_file_lines.
Qed.

End LogOfRun.


(* ===================================================================== *)
(** * Runs on the sample world *)
(* ===================================================================== *)

Module Runs.

Import Sample.

(** Membership in an explicit list of events. *)
Ltac among := vm_compute; repeat first [left; reflexivity | right].


(** The loader on the world after the import, with the path "model.keras":
    the file is not there, the reader answers with a [ValueError], and
    [load_model] raises it. *)
Lemma load_model_nonexistent_path_witness :
  files imported !! "model.keras" = None /\
  deserialize keras_by_format "model.keras" None =
    inl {| Py.exn_cls := Py.ValueError;
           Py.exn_msg := "File not found: filepath=model.keras" |} /\
  res (load_model keras_by_format "model.keras" imported) =
    Raise {| Py.exn_cls := Py.ValueError;
             Py.exn_msg := "File not found: filepath=model.keras" |} /\
  events (load_model keras_by_format "model.keras" imported) = [E_deserialize "model.keras"].
Proof.
  assert (files imported !! "model.keras" = None) as H by reflexivity.
  assert (deserialize keras_by_format "model.keras" None =
          inl {| Py.exn_cls := Py.ValueError;
                 Py.exn_msg := "File not found: filepath=model.keras" |}) as He
    by reflexivity.
  split; [exact H|]. split; [exact He|].
  destruct (load_model_nonexistent_path keras_by_format "model.keras" imported _ H He)
    as (_ & Hv).
  destruct (Hv eq_refl) as (Hres & Hev & _). split; [exact Hres|exact Hev].
Defined.

(** The same reader on the path of the driver, which ends in ".h5": the
    missing file is a [FileNotFoundError], and the loader falls back. *)
Example load_model_missing_h5_file :
  load_model keras_by_format path imported =
    {| res := Ok new_model; after := imported;
       events := [E_deserialize path; load_error "Unable to open file";
                  E_summary new_model] |}.
Proof. vm_compute. reflexivity. Qed.

(** The loader on a file that is not a model: [ValueError] goes through. *)
Lemma load_model_catches_FileNotFoundError_only_witness :
  deserialize keras path (files with_corrupt_file !! path) =
    inl {| Py.exn_cls := Py.ValueError; Py.exn_msg := "No model config found" |} /\
  res (load_model keras path with_corrupt_file) =
    Raise {| Py.exn_cls := Py.ValueError; Py.exn_msg := "No model config found" |}.
Proof.
  assert (deserialize keras path (files with_corrupt_file !! path) =
          inl {| Py.exn_cls := Py.ValueError; Py.exn_msg := "No model config found" |})
    as H by (vm_compute; reflexivity).
  split; [exact H|].
  destruct (load_model_catches_FileNotFoundError_only keras path with_corrupt_file _ H)
    as (_ & _ & _ & Hv & _).
  apply Hv. reflexivity.
Defined.

(** One evaluation of accuracy 3/4: the evaluator returns 3/8. *)
Lemma test_model_running_blend_witness :
  res (test_model keras path 1 imported) = Ok (Py.Float (Py.B64 3 (-3))) /\
  accuracies (events (test_model keras path 1 imported)) = [Py.B64 3 (-2)] /\
  Py.Float (Py.B64 3 (-3)) = Py.Float (Py.fdiv (Py.B64 3 (-2)) (Py.float_of_int 2)).
Proof.
  assert (res (test_model keras path 1 imported) = Ok (Py.Float (Py.B64 3 (-3)))) as H
    by (vm_compute; reflexivity).
  assert (accuracies (events (test_model keras path 1 imported)) = [Py.B64 3 (-2)]) as Ha
    by (vm_compute; reflexivity).
  split; [exact H|]. split; [exact Ha|].
  apply (test_model_running_blend keras path 1 imported _ H); [exact Ha|].
  vm_compute. discriminate.
Defined.

(** The driver on the world after the import: five trainings, at the batch
    sizes of the loop. *)
Example sample_main_run :
  res (main Sample.keras Sample.imported) = Ok tt /\
  fit_batch_sizes (events (main Sample.keras Sample.imported)) = [32; 16; 8; 4; 2].
Proof. vm_compute. split; reflexivity. Qed.

(** The two datasets of a training at batch size 32. *)
Lemma train_model_datasets_share_source_witness :
  In (E_fit new_model (requested keras imported 32 true)
        (requested keras (bump_draws imported) 32 true) 2 [early_stopping; cp_callback])
     (events (train_model keras path 2 32 false imported)) /\
  ds_directory (requested keras imported 32 true) = "./dataset-resized/" /\
  ds_directory (requested keras (bump_draws imported) 32 true) = "./dataset-resized/".
Proof.
  assert (In (E_fit new_model (requested keras imported 32 true)
                (requested keras (bump_draws imported) 32 true) 2
                [early_stopping; cp_callback])
             (events (train_model keras path 2 32 false imported))) as H by among.
  split; [exact H|].
  destruct (train_model_datasets_share_source keras _ _ _ _ _ _ _ _ _ _ H)
    as (_ & _ & _ & Hd & Hv & _).
  split; [exact Hd|exact Hv].
Defined.


(** A path with "h5" in a directory name too. *)
Lemma train_model_saves_under_replaced_path_witness :
  res (train_model keras "h5/sortbot.h5" 1 32 false imported) =
    Ok (returned empty_history (train_model keras "h5/sortbot.h5" 1 32 false imported)) /\
  map (fun s => snd (fst s))
      (saves (events (train_model keras "h5/sortbot.h5" 1 32 false imported))) =
    ["keras/sortbot.keras"].
Proof.
  assert (res (train_model keras "h5/sortbot.h5" 1 32 false imported) =
          Ok (returned empty_history (train_model keras "h5/sortbot.h5" 1 32 false imported)))
    as H by (vm_compute; reflexivity).
  split; [exact H|].
  destruct (train_model_saves_under_replaced_path keras _ _ _ _ _ _ H)
    as (m & wt & Hs & _).
  rewrite Hs. vm_compute. reflexivity.
Defined.


(** C8 as it stands fails: with no file under [model_path], [train_model]
    fits [new_model] and the evaluator, whose load falls back too,
    evaluates that same object. *)
Lemma evaluator_sees_fitted_model :
  ~ evaluator_apart_from_fitted (events (train_model keras path 2 32 true imported)).
Proof.
  intros H. apply (H (m_id new_model)).
  - apply list_elem_of_In. among.
  - apply list_elem_of_In. among.
Qed.

(** In that run the parameters evaluated are the fitted ones, those saved
    at the end. *)
Example evaluator_sees_fitted_parameters :
  let evs := events (train_model keras path 2 32 true imported) in
  fitted_models evs = [m_id new_model] /\
  evaluated_models evs = repeat (m_id new_model) 10 /\
  exists wt, evaluated_weights evs = repeat wt 10 /\
             saves evs = [(new_model, "sortbot_alpha_new.keras", wt)] /\
             wt <> W_initial (m_id new_model).
Proof.
  cbv zeta. split; [vm_compute; reflexivity|]. split; [vm_compute; reflexivity|].
  eexists. split; [vm_compute; reflexivity|]. split; [vm_compute; reflexivity|].
  discriminate.
Qed.

(** With a model saved under [model_path], the evaluator evaluates a third
    object, with the parameters of the file. *)
Lemma train_model_evaluates_own_load_witness :
  (1 < next_id with_saved_model)%positive /\
  In (E_evaluate {| m_id := 3; m_layers := [Flatten; Dense 8 softmax] |} (W_initial 7)
        (requested keras (Nat.iter 4 bump_draws imported) 256 false)
        (Py.B64 1 (-1), Py.B64 3 (-2)))
     (events (train_model keras path 2 32 true with_saved_model)) /\
  res (load_model keras path with_saved_model) =
    Ok {| m_id := 2; m_layers := [Flatten; Dense 8 softmax] |}.
Proof.
  assert ((1 < next_id with_saved_model)%positive) as H1 by (vm_compute; reflexivity).
  assert (In (E_evaluate {| m_id := 3; m_layers := [Flatten; Dense 8 softmax] |} (W_initial 7)
                (requested keras (Nat.iter 4 bump_draws imported) 256 false)
                (Py.B64 1 (-1), Py.B64 3 (-2)))
             (events (train_model keras path 2 32 true with_saved_model))) as H2 by among.
  split; [exact H1|]. split; [exact H2|].
  destruct (train_model_evaluates_own_load keras _ _ _ _ _ _ _ _ H1 H2)
    as (m & wt & before & Hm & _).
  rewrite Hm. f_equal. vm_compute in Hm. now injection Hm.
Defined.

End Runs.

(* ===================================================================== *)
(** * More runs on the sample worlds *)
(* ===================================================================== *)

Module Scenarios.

Import Sample Cases.

Ltac among := vm_compute; repeat first [left; reflexivity | right].

(** Records of the levels INFO and ERROR, created at the same time. *)
Definition info_record : Logging.LogRecord :=
  {| Logging.levelno := 20; Logging.msg := "Model saved";
     Logging.asctime := "2024-05-01 10:00:00,000" |}.

Definition error_record : Logging.LogRecord :=
  {| Logging.levelno := 40; Logging.msg := "Error loading model: no file";
     Logging.asctime := "2024-05-01 10:00:00,000" |}.

(** An INFO record goes to the log file alone. *)
Lemma logger_routes_by_level_witness :
  Logging.levelno info_record <> 40 /\
  10 <= Logging.levelno info_record < 30 /\
  Logging.Logger_log Logging.logger info_record =
    [(Logging.log_file "info_debug.log",
      "2024-05-01 10:00:00,000 - INFO - Model saved" ++ String "010" "")].
Proof.
  assert (Logging.levelno info_record <> 40) as H40 by discriminate.
  assert (10 <= Logging.levelno info_record < 30) as Hl by (cbn; lia).
  split; [exact H40|]. split; [exact Hl|].
  pose proof (logger_routes_by_level info_record H40) as H. cbv zeta in H.
  destruct H as (_ & H & _). exact (H Hl).
Defined.

(** An ERROR record: the same red line on the terminal and in the file. *)
Lemma logger_error_colour_reaches_log_file_witness :
  Logging.levelno error_record = 40 /\
  Logging.written_to (Logging.log_file "info_debug.log")
    (Logging.Logger_log Logging.logger error_record) =
    ["2024-05-01 10:00:00,000 - ERROR - " ++ String "027" "[91m"
       ++ "Error loading model: no file" ++ String "027" "[0m" ++ String "010" ""].
Proof.
  assert (Logging.levelno error_record = 40) as H40 by reflexivity.
  split; [exact H40|].
  pose proof (logger_error_colour_reaches_log_file error_record H40) as H. cbv zeta in H.
  destruct H as (_ & H & _). exact H.
Defined.

(** No evaluation: the integer 0; one evaluation: a float. *)
Lemma test_model_returns_int_without_rounds_witness :
  res (test_model keras path 0 imported) = Ok (Py.Int 0) /\
  accuracies (events (test_model keras path 0 imported)) = [] /\
  res (test_model keras path 1 imported) = Ok (Py.Float (Py.B64 3 (-3))).
Proof.
  assert (res (test_model keras path 0 imported) = Ok (Py.Int 0)) as H0
    by (vm_compute; reflexivity).
  split; [exact H0|].
  destruct (test_model_returns_int_without_rounds keras path 0 imported _ H0) as (H & _).
  destruct (H ltac:(lia)) as (_ & Ha & _).
  split; [exact Ha|]. vm_compute. reflexivity.
Defined.

(** Ten evaluations of accuracy 1: the value returned is 1023/1024. *)
Lemma test_model_perfect_accuracy_reported_below_one_witness :
  (forall layers wt d n, snd (eval_metrics perfect layers wt d n) = Py.B64 1 0) /\
  res (test_model perfect path default_times imported) = Ok (Py.Float (Py.B64 1023 (-10))) /\
  Py.flt (Py.B64 1023 (-10)) (Py.B64 1 0) = true.
Proof.
  assert (forall layers wt d n, snd (eval_metrics perfect layers wt d n) = Py.B64 1 0) as Hone
    by reflexivity.
  assert (res (test_model perfect path default_times imported) =
          Ok (returned (Py.Int 0) (test_model perfect path default_times imported))) as Hres
    by (vm_compute; reflexivity).
  split; [exact Hone|].
  destruct (test_model_perfect_accuracy_reported_below_one perfect path default_times imported
              _ Hone Hres) as (_ & Hten & _).
  rewrite Hres, (Hten eq_refl). split; reflexivity.
Defined.

(** Two evaluations, of [new_model] on the validation images. *)
Lemma test_model_evaluates_one_dataset_witness :
  In (E_evaluate new_model (W_initial 1) (requested keras imported 256 false)
        (Py.B64 1 (-1), Py.B64 3 (-2)))
     (events (test_model keras path 2 imported)) /\
  ds_directory (requested keras imported 256 false) = "./dataset-resized/val" /\
  ds_batch_size (requested keras imported 256 false) = 256.
Proof.
  assert (In (E_evaluate new_model (W_initial 1) (requested keras imported 256 false)
                (Py.B64 1 (-1), Py.B64 3 (-2)))
             (events (test_model keras path 2 imported))) as H by among.
  split; [exact H|].
  destruct (test_model_evaluates_one_dataset keras _ _ _ _ _ _ _ H) as (Hd & Hb & _).
  split; [exact Hd|exact Hb].
Defined.

(** The saved model under the driver's path is still there after a
    training. *)
Lemma train_model_never_writes_model_path_witness :
  Py.contains "h5" path = true /\
  files (after (train_model keras path 2 32 true with_saved_model)) !! path =
    Some (F_model [Flatten; Dense 8 softmax] (W_initial 7)).
Proof.
  assert (Py.contains "h5" path = true) as Hh5 by reflexivity.
  split; [exact Hh5|].
  pose proof (train_model_never_writes_model_path keras path 2 32 true with_saved_model
                Hh5 driver_path_not_checkpoint) as H.
  cbv zeta in H. destruct H as (H & _). rewrite H. reflexivity.
Defined.

(** A ".keras" path with a model under it: the trained model takes the
    place of the file that was read. *)
Lemma train_model_overwrites_path_without_h5_witness :
  Py.contains "h5" "model.keras" = false /\
  files with_keras_model !! "model.keras" =
    Some (F_model [Flatten; Dense 8 softmax] (W_initial 7)) /\
  res (train_model keras "model.keras" 1 32 false with_keras_model) =
    Ok (returned empty_history (train_model keras "model.keras" 1 32 false with_keras_model)) /\
  exists wt,
    files (after (train_model keras "model.keras" 1 32 false with_keras_model))
      !! "model.keras" = Some (F_model [Flatten; Dense 8 softmax] wt).
Proof.
  assert (Py.contains "h5" "model.keras" = false) as Hno by reflexivity.
  assert (files with_keras_model !! "model.keras" =
          Some (F_model [Flatten; Dense 8 softmax] (W_initial 7))) as Hfile
    by (vm_compute; reflexivity).
  assert (deserialize keras "model.keras"
            (Some (F_model [Flatten; Dense 8 softmax] (W_initial 7))) =
          inr ([Flatten; Dense 8 softmax], W_initial 7)) as Hde by reflexivity.
  assert (res (train_model keras "model.keras" 1 32 false with_keras_model) =
          Ok (returned empty_history
                (train_model keras "model.keras" 1 32 false with_keras_model)))
    as Hres by (vm_compute; reflexivity).
  split; [exact Hno|]. split; [exact Hfile|]. split; [exact Hres|].
  pose proof (train_model_overwrites_path_without_h5 keras _ _ _ _ _ _ _ _ _
                Hno Hfile Hde Hres) as H.
  cbv zeta in H. destruct H as (_ & m & wt & rest & _ & _ & _ & _ & Hf).
  exists wt. exact Hf.
Defined.

Lemma training_images_only :
  "./dataset-resized/" ∈ image_dirs without_validation_images /\
  "./dataset-resized/val" ∉ image_dirs without_validation_images.
Proof.
  unfold without_validation_images. cbn [image_dirs]. split.
  - now apply elem_of_singleton_2.
  - intros H. apply elem_of_singleton_1 in H. discriminate H.
Qed.

(** Without the validation images the training runs and then raises;
    nothing is saved. *)
Lemma train_model_unsaved_when_evaluation_fails_witness :
  res (train_model keras path 2 32 false without_validation_images) =
    Ok (returned empty_history (train_model keras path 2 32 false without_validation_images)) /\
  ("./dataset-resized/val" ∉ image_dirs without_validation_images) /\
  (exists e, res (train_model keras path 2 32 true without_validation_images) = Raise e /\
             Py.exn_cls e = Py.FileNotFoundError) /\
  saves (events (train_model keras path 2 32 true without_validation_images)) = [].
Proof.
  assert (res (train_model keras path 2 32 false without_validation_images) =
          Ok (returned empty_history
                (train_model keras path 2 32 false without_validation_images))) as Hf
    by (vm_compute; reflexivity).
  split; [exact Hf|]. split; [exact (proj2 training_images_only)|].
  pose proof (train_model_unsaved_when_evaluation_fails keras path 2 32
                without_validation_images _ Hf (proj2 training_images_only)) as H.
  cbv zeta in H. destruct H as (_ & Hraise & _ & _ & Hsaves & _).
  split; [exact (Hraise driver_path_not_checkpoint)|exact Hsaves].
Defined.

(** Without images the training raises at once and writes nothing. *)
Lemma train_model_stops_before_writing_without_images_witness :
  0 < 32 /\
  res (load_model keras path without_images) = Ok new_model /\
  ("./dataset-resized/" ∉ image_dirs without_images) /\
  (exists e, res (train_model keras path 2 32 true without_images) = Raise e /\
             Py.exn_cls e = Py.FileNotFoundError) /\
  files (after (train_model keras path 2 32 true without_images)) = files without_images.
Proof.
  assert (res (load_model keras path without_images) = Ok new_model) as Hl
    by (vm_compute; reflexivity).
  assert ("./dataset-resized/" ∉ image_dirs without_images) as Hd
    by (unfold without_images; cbn [image_dirs]; intros H; apply elem_of_empty in H; exact H).
  split; [reflexivity|]. split; [exact Hl|]. split; [exact Hd|].
  pose proof (train_model_stops_before_writing_without_images keras path 2 32 true
                without_images new_model eq_refl Hl Hd) as H.
  cbv zeta in H. destruct H as (Hraise & _ & _ & Hfiles & _).
  split; [exact Hraise|exact Hfiles].
Defined.

(** A training of two epochs from a saved model, with and without the
    evaluator. *)
Lemma train_model_evaluation_changes_no_file_witness :
  (forall n, path <> cp n) /\
  deserialize keras path (files with_saved_model !! path) =
    inr ([Flatten; Dense 8 softmax], W_initial 7) /\
  res (train_model keras path 2 32 true with_saved_model) =
    Ok (returned empty_history (train_model keras path 2 32 true with_saved_model)) /\
  res (train_model keras path 2 32 false with_saved_model) =
    Ok (returned empty_history (train_model keras path 2 32 true with_saved_model)) /\
  files (after (train_model keras path 2 32 true with_saved_model)) =
    files (after (train_model keras path 2 32 false with_saved_model)).
Proof.
  assert (deserialize keras path (files with_saved_model !! path) =
          inr ([Flatten; Dense 8 softmax], W_initial 7)) as Hde
    by (vm_compute; reflexivity).
  assert (res (train_model keras path 2 32 true with_saved_model) =
          Ok (returned empty_history (train_model keras path 2 32 true with_saved_model)))
    as Hres by (vm_compute; reflexivity).
  split; [exact driver_path_not_checkpoint|]. split; [exact Hde|]. split; [exact Hres|].
  pose proof (train_model_evaluation_changes_no_file keras path 2 32 with_saved_model _ _ _
                driver_path_not_checkpoint Hde Hres) as H.
  cbv zeta in H. destruct H as (Hsame & _ & _ & _ & Hfiles).
  split; [exact Hsame|exact Hfiles].
Defined.

(** The history of three epochs, plotted. *)
Lemma train_model_history_is_plottable_witness :
  0 < 3 /\
  res (train_model keras path 3 32 false imported) =
    Ok (returned empty_history (train_model keras path 3 32 false imported)) /\
  res (plot_history (returned empty_history (train_model keras path 3 32 false imported))
         imported) = Ok tt.
Proof.
  assert (res (train_model keras path 3 32 false imported) =
          Ok (returned empty_history (train_model keras path 3 32 false imported))) as Hres
    by (vm_compute; reflexivity).
  split; [reflexivity|]. split; [exact Hres|].
  pose proof (train_model_history_is_plottable keras path 3 32 false imported imported _
                eq_refl Hres) as H.
  cbv zeta in H. destruct H as (_ & _ & _ & _ & Hplot & _). rewrite Hplot. reflexivity.
Defined.

(** A file that is not a model: the training ends with the ValueError of
    the reader. *)
Lemma load_failure_ends_the_run_witness :
  res (load_model keras path with_corrupt_file) =
    Raise {| Py.exn_cls := Py.ValueError; Py.exn_msg := "No model config found" |} /\
  events (train_model keras path 100 32 true with_corrupt_file) = [E_deserialize path].
Proof.
  assert (res (load_model keras path with_corrupt_file) =
          Raise {| Py.exn_cls := Py.ValueError; Py.exn_msg := "No model config found" |})
    as Hl by (vm_compute; reflexivity).
  split; [exact Hl|].
  destruct (load_failure_ends_the_run keras path 100 32 10 true with_corrupt_file _ Hl)
    as (Ht & _).
  rewrite Ht. reflexivity.
Defined.


(** The driver on a saved model: the first checkpoint holds the
    parameters of the file. *)
Lemma main_restarts_from_the_model_file_witness :
  deserialize keras "sortbot_alpha_new.h5" (files with_saved_model !! "sortbot_alpha_new.h5") =
    inr ([Flatten; Dense 8 softmax], W_initial 7) /\
  In (E_save_weights {| m_id := 2; m_layers := [Flatten; Dense 8 softmax] |} (cp 0)
        (W_initial 7))
     (events (main keras with_saved_model)) /\
  (forall m wt, In (E_save_weights m (cp 0) wt) (events (main keras with_saved_model)) ->
     wt = W_initial 7 /\ m_layers m = [Flatten; Dense 8 softmax]).
Proof.
  assert (deserialize keras "sortbot_alpha_new.h5"
            (files with_saved_model !! "sortbot_alpha_new.h5") =
          inr ([Flatten; Dense 8 softmax], W_initial 7)) as Hde by (vm_compute; reflexivity).
  assert (In (E_save_weights {| m_id := 2; m_layers := [Flatten; Dense 8 softmax] |} (cp 0)
                (W_initial 7))
             (events (main keras with_saved_model))) as Hin by among.
  split; [exact Hde|]. split; [exact Hin|].
  exact (main_restarts_from_the_model_file keras with_saved_model _ _ Hde).
Defined.


(** The driver on the world after the import returns; the file it leaves
    is the last of the five models it saved. *)
Lemma main_leaves_the_last_model_witness :
  res (main keras imported) = Ok tt /\
  fit_batch_sizes (events (main keras imported)) = [32; 16; 8; 4; 2] /\
  length (saves (events (main keras imported))) = 5%nat.
Proof.
  assert (res (main keras imported) = Ok tt) as Hres by (vm_compute; reflexivity).
  split; [exact Hres|].
  destruct (main_leaves_the_last_model keras imported) as (_ & H).
  destruct (H Hres) as (Hb & Hp & _).
  split; [exact Hb|].
  rewrite <- (length_map (fun s => snd (fst s))), Hp. reflexivity.
Defined.

(** Two loads with no file: the same object; with a file: two objects. *)
Lemma load_model_fallback_is_one_object_witness :
  (1 < next_id imported)%positive /\
  res (load_model keras path imported) = Ok new_model /\
  res (load_model keras path (after (load_model keras path imported))) = Ok new_model /\
  events (load_model keras path (after (load_model keras path imported))) =
    events (load_model keras path imported) /\
  files (after (load_model keras path (after (load_model keras path imported)))) =
    files imported.
Proof.
  assert ((1 < next_id imported)%positive) as H1 by (vm_compute; reflexivity).
  assert (res (load_model keras path imported) = Ok new_model) as Ha
    by (vm_compute; reflexivity).
  assert (res (load_model keras path (after (load_model keras path imported))) = Ok new_model)
    as Hb by (vm_compute; reflexivity).
  split; [exact H1|]. split; [exact Ha|]. split; [exact Hb|].
  pose proof (load_model_fallback_is_one_object keras path imported new_model new_model H1)
    as H.
  cbv zeta in H.
  destruct (H Ha Hb) as [(_ & Hne & _)|(e & _ & _ & _ & _ & _ & Hev & _ & Hf & _)].
  - exfalso. apply Hne. reflexivity.
  - split; [exact Hev|exact Hf].
Defined.

End Scenarios.
